(** * uptime-kuma-sync: a shallow embedding and its verified properties

    The program under study is [uptime_kuma_sync/uptime-kuma-sync.py]: a
    one-shot command line tool that reconciles a list of domains kept in
    a local file with the HTTP monitors registered in a remote Uptime
    Kuma instance, over a Socket.io connection.

    Layout of the development:
    - [PyStr]: Python [str] values and the string methods the script uses;
    - [PyDict]: insertion-ordered dictionaries;
    - the configuration and the data exchanged with the remote service;
    - the process state, the environment and the program monad;
    - the functions of the script, in source order;
    - the reconciliation plan as the specification words it, the notions
      the properties are stated with, and concrete inputs;
    - lemmas, by subject;
    - the scenarios of the specification and the theorems on its claims;
    - further properties of the code: listing, reports, the course of
      [main], empty inputs, the token file, the lines of the Domain Source,
      sync and cleanup one after the other.

    The remote service is a parameter: every theorem holds for every
    behaviour of the connection, of the requests and of the pushes. *)

From Stdlib Require Import List ZArith NArith Bool String Ascii Lia.
From Stdlib Require Import Sorted Permutation.
Import ListNotations.

Set Implicit Arguments.

(* ------------------------------------------------------------------------- *)
(** ** Python strings *)
(* ------------------------------------------------------------------------- *)

Module PyStr.

(** A Python [str] is a sequence of Unicode code points. *)
Definition str := list N.

(** Embedding of an ASCII literal of the source. *)
Definition py (s : string) : str := map N_of_ascii (list_ascii_of_string s).

Fixpoint str_eqb (a b : str) : bool :=
  match a, b with
  | [], [] => true
  | x :: a', y :: b' => N.eqb x y && str_eqb a' b'
  | _, _ => false
  end.

(** [c.isspace()] for a single code point: the white space table of
    CPython, also used by [str.strip()] and [str.split()]. *)
Definition isspace (c : N) : bool :=
  ((9 <=? c) && (c <=? 13) ||
   (28 <=? c) && (c <=? 32) ||
   (c =? 133) || (c =? 160) || (c =? 5760) ||
   (8192 <=? c) && (c <=? 8202) ||
   (c =? 8232) || (c =? 8233) || (c =? 8239) || (c =? 8287) ||
   (c =? 12288))%N.

(** The line feed, the separator of [split("\n")]. *)
Definition LF : N := 10%N.

(** [s.lstrip()] *)
Fixpoint lstrip (s : str) : str :=
  match s with
  | [] => []
  | c :: s' => if isspace c then lstrip s' else s
  end.

(** [s.rstrip()] *)
Definition rstrip (s : str) : str := rev (lstrip (rev s)).

(** [s.strip()] *)
Definition strip (s : str) : str := rstrip (lstrip s).

(** [s.split(sep)] for a separator of one code point: the pieces between
    the occurrences of [sep]; always at least one piece. [cur] is the
    piece being read, reversed. *)
Fixpoint split_on_aux (sep : N) (cur : str) (s : str) : list str :=
  match s with
  | [] => [rev cur]
  | c :: s' =>
      if N.eqb c sep then rev cur :: split_on_aux sep [] s'
      else split_on_aux sep (c :: cur) s'
  end.

Definition split_on (sep : N) (s : str) : list str := split_on_aux sep [] s.

(** [s.split()] without argument: the maximal runs of code points that
    are not white space; never an empty field. *)
Fixpoint split_aux (cur : str) (s : str) : list str :=
  match s with
  | [] => match cur with [] => [] | _ => [rev cur] end
  | c :: s' =>
      if isspace c
      then match cur with
           | [] => split_aux [] s'
           | _ => rev cur :: split_aux [] s'
           end
      else split_aux (c :: cur) s'
  end.

Definition split (s : str) : list str := split_aux [] s.

(** [a <= b] on strings: lexicographic on code points, as [sorted]
    compares names. *)
Fixpoint str_leb (a b : str) : bool :=
  match a, b with
  | [], _ => true
  | _ :: _, [] => false
  | x :: a', y :: b' =>
      if N.ltb x y then true
      else if N.eqb x y then str_leb a' b' else false
  end.

(** Truth value of a string: [bool(s)]. *)
Definition truthy (s : str) : bool :=
  match s with [] => false | _ => true end.

End PyStr.

Import PyStr.

(* ------------------------------------------------------------------------- *)
(** ** Python dictionaries *)
(* ------------------------------------------------------------------------- *)

(** A [dict] keeps its items in insertion order; assigning to a key that
    is present replaces the value in place, assigning to a new key appends
    an item. *)
Module PyDict.
Section Dict.

Variable V : Type.

(** Keys are strings throughout the script. *)
Definition dict := list (str * V).

(** [list(d.keys())] *)
Definition dict_keys (d : dict) : list str := map fst d.

(** [d.get(k)] *)
Fixpoint dict_get (k : str) (d : dict) : option V :=
  match d with
  | [] => None
  | (k', v) :: d' => if str_eqb k' k then Some v else dict_get k d'
  end.

(** [k in d] *)
Definition dict_mem (k : str) (d : dict) : bool :=
  existsb (fun kv => str_eqb (fst kv) k) d.

(** [d[k] = v] *)
Fixpoint dict_set (k : str) (v : V) (d : dict) : dict :=
  match d with
  | [] => [(k, v)]
  | (k', v') :: d' =>
      if str_eqb k' k then (k', v) :: d' else (k', v') :: dict_set k v d'
  end.

End Dict.
End PyDict.

Import PyDict.

(* ------------------------------------------------------------------------- *)
(** ** Configuration *)
(* ------------------------------------------------------------------------- *)

(** The constants of the configuration block at the top of the script.
    An operator edits them in place, so the functions below take them as
    a parameter; [source_config] holds the values of the file as it is. *)
Record config : Type := {
  UPTIME_KUMA_URL : str;
  USERNAME : str;
  PASSWORD : str;
  PARENT_GROUP_ID : Z;
  MONITOR_INTERVAL : Z;
  MONITOR_RETRY_INTERVAL : Z;
  MONITOR_TIMEOUT : Z;
  MONITOR_MAX_RETRIES : Z;
  MONITOR_MAX_REDIRECTS : Z;
  DEFAULT_NOTIFICATION_IDS : list Z
}.

Definition source_config : config := {|
  UPTIME_KUMA_URL := py "https://your-uptime-kuma-instance.com";
  USERNAME := py "";
  PASSWORD := py "";
  PARENT_GROUP_ID := 1;
  MONITOR_INTERVAL := 60;
  MONITOR_RETRY_INTERVAL := 60;
  MONITOR_TIMEOUT := 30;
  MONITOR_MAX_RETRIES := 1;
  MONITOR_MAX_REDIRECTS := 10;
  DEFAULT_NOTIFICATION_IDS := [1%Z]
|}.

(* ------------------------------------------------------------------------- *)
(** ** Data exchanged with the remote service *)
(* ------------------------------------------------------------------------- *)

(** A monitor object of a [monitorList] snapshot, with the four entries
    the script reads. [m_name] is read with [monitor["name"]]; the other
    three with [monitor.get]: for [m_type] and [m_parent], [None] stands
    for a missing entry or a JSON [null]; for [m_url], read with the
    default [""], it stands for a missing entry. *)
Record monitor : Type := {
  m_name : str;
  m_type : option str;
  m_parent : option Z;
  m_url : option str
}.

(** The snapshot: a dictionary from monitor identifier to monitor object,
    in the order of its items. The keys of the JSON object are the decimal
    writings of the identifiers; [int(monitor_id)] reads them back, so the
    key is kept as the integer itself. *)
Definition snapshot := list (Z * monitor).

(** The value [get_existing_monitors] stores under a name:
    [{"id": ..., "url": ...}]. *)
Record entry : Type := {
  e_id : Z;
  e_url : str
}.

(** The payload of the [add] request built by [create_monitor]. *)
Record monitor_data : Type := {
  md_name : str;
  md_type : str;
  md_url : str;
  md_method : str;
  md_interval : Z;
  md_retryInterval : Z;
  md_timeout : Z;
  md_maxretries : Z;
  md_maxredirects : Z;
  md_resendInterval : Z;
  md_active : bool;
  md_parent : Z;
  md_notificationIDList : list (Z * bool);
  md_accepted_statuscodes : list str;
  md_expiryNotification : bool;
  md_ignoreTls : bool;
  md_upsideDown : bool;
  md_packetSize : Z;
  md_httpBodyEncoding : str;
  md_conditions : list str;
  md_kafkaProducerBrokers : list str;
  md_rabbitmqNodes : list str;
  md_kafkaProducerSaslOptions : list (str * str)
}.

(** What a request carries. *)
Inductive payload : Type :=
| PToken (token : str)
| PLogin (username password token : str)
| PMonitor (d : monitor_data)
| PMonitorId (id : Z).

(** The dictionary a request is answered with. [r_ok] is the truth value
    of the entry ["ok"] when there is one; [r_other] tells whether the
    dictionary has entries besides the four the script reads. *)
Record response : Type := {
  r_ok : option bool;
  r_msg : option str;
  r_token : option str;
  r_monitorID : option Z;
  r_other : bool
}.

Definition is_some {A} (o : option A) : bool :=
  match o with Some _ => true | None => false end.

(** [bool(response)] for a dictionary: it is not empty. *)
Definition response_truthy (r : response) : bool :=
  is_some (r_ok r) || is_some (r_msg r) || is_some (r_token r) ||
  is_some (r_monitorID r) || r_other r.

(** [response and response.get("ok")], as a truth value. *)
Definition response_ok (r : option response) : bool :=
  match r with
  | None => false
  | Some r => response_truthy r &&
              match r_ok r with Some b => b | None => false end
  end.

(** The ways [sio.call] ends. *)
Inductive call_result : Type :=
| Returned (r : option response)
| RaisedTimeout
| RaisedError (e : str).

(* ------------------------------------------------------------------------- *)
(** ** Process state, environment and programs *)
(* ------------------------------------------------------------------------- *)

(** What the process does to the outside, in order: the trace. Sleeps are
    in milliseconds. *)
Inductive event : Type :=
| EvConnect (url : str)
| EvCall (name : str) (data : payload)
| EvSleep (ms : Z)
| EvDisconnect.

(** One constructor per [print] of the script, with the values the
    message interpolates. *)
Inductive message : Type :=
| MsgJwtSaved
| MsgConnected
| MsgDisconnected
| MsgAttemptJwt
| MsgJwtOk
| MsgJwtFallback
| MsgNoCredentials
| MsgAuthPassword
| MsgLoginOk
| MsgAuthFailed (msg : str)
| MsgWarnTimeout (name : str)
| MsgWarnError (name : str) (e : str)
| MsgDomainsNotFound
| MsgCreated (name url : str) (monitor_id : option Z)
| MsgErrorCreating (name msg : str)
| MsgDeleted (name : str) (monitor_id : Z)
| MsgErrorDeleting (name msg : str)
| MsgSyncHeader
| MsgBlank
| MsgCreatedCount (n : Z)
| MsgTotalInFile (n : nat)
| MsgListHeader (parent : Z)
| MsgItem (monitor_id : Z) (name url : str)
| MsgTotal (n : nat)
| MsgPreviewHeader
| MsgTotalToDelete (n : nat)
| MsgRunConfirm
| MsgConfirmHeader
| MsgDeletedCount (n : Z)
| MsgUsage
| MsgConnecting (url : str)
| MsgConnectionFailed (e : str).

(** The state of the process: the two files it reads or writes ([None]
    when the file does not exist), the module globals, the trace and the
    standard output. *)
Record world : Type := {
  jwt_file : option str;
  domains_file : option str;
  monitor_list : snapshot;
  authenticated : bool;
  jwt_token : option str;
  trace : list event;
  stdout : list message
}.

(** The remote service and the network, as a function of the trace so far:
    whether [sio.connect] raises, how a [sio.call] ends, and the last
    [monitorList] snapshot pushed by then, if any. *)
Record env : Type := {
  env_connect : list event -> option str;
  env_call : list event -> str -> payload -> call_result;
  env_push : list event -> option snapshot
}.

(** How a piece of the script ends: normally with a value, or by
    [sys.exit(code)]. *)
Inductive result (A : Type) : Type :=
| Normal (a : A)
| SysExit (code : Z).

Arguments Normal {A} a.
Arguments SysExit {A} code.

Definition prog (A : Type) : Type := world -> result A * world.

Definition ret {A} (a : A) : prog A := fun w => (Normal a, w).

Definition bind {A B} (m : prog A) (k : A -> prog B) : prog B :=
  fun w =>
    match m w with
    | (Normal a, w') => k a w'
    | (SysExit c, w') => (SysExit c, w')
    end.

Notation "x <- m ;; k" := (bind m (fun x => k))
  (at level 61, m at next level, right associativity).
Notation "m ;;; k" := (bind m (fun _ => k))
  (at level 61, right associativity).

(** [sys.exit(code)] *)
Definition sys_exit {A} (code : Z) : prog A := fun w => (SysExit code, w).

(** [try: body finally: cleanup] *)
Definition try_finally {A} (body : prog A) (cleanup : prog unit) : prog A :=
  fun w =>
    match body w with
    | (r, w1) =>
        match cleanup w1 with
        | (Normal _, w2) => (r, w2)
        | (SysExit c, w2) => (SysExit c, w2)
        end
    end.

Definition gets {A} (f : world -> A) : prog A := fun w => (Normal (f w), w).

Definition modify (f : world -> world) : prog unit :=
  fun w => (Normal tt, f w).

Definition set_jwt_file (c : option str) (w : world) : world :=
  {| jwt_file := c; domains_file := domains_file w;
     monitor_list := monitor_list w; authenticated := authenticated w;
     jwt_token := jwt_token w; trace := trace w; stdout := stdout w |}.

Definition set_monitor_list (d : snapshot) (w : world) : world :=
  {| jwt_file := jwt_file w; domains_file := domains_file w;
     monitor_list := d; authenticated := authenticated w;
     jwt_token := jwt_token w; trace := trace w; stdout := stdout w |}.

Definition set_authenticated (b : bool) (w : world) : world :=
  {| jwt_file := jwt_file w; domains_file := domains_file w;
     monitor_list := monitor_list w; authenticated := b;
     jwt_token := jwt_token w; trace := trace w; stdout := stdout w |}.

Definition set_jwt_token (t : option str) (w : world) : world :=
  {| jwt_file := jwt_file w; domains_file := domains_file w;
     monitor_list := monitor_list w; authenticated := authenticated w;
     jwt_token := t; trace := trace w; stdout := stdout w |}.

Definition add_event (e : event) (w : world) : world :=
  {| jwt_file := jwt_file w; domains_file := domains_file w;
     monitor_list := monitor_list w; authenticated := authenticated w;
     jwt_token := jwt_token w; trace := trace w ++ [e]; stdout := stdout w |}.

Definition add_output (m : message) (w : world) : world :=
  {| jwt_file := jwt_file w; domains_file := domains_file w;
     monitor_list := monitor_list w; authenticated := authenticated w;
     jwt_token := jwt_token w; trace := trace w; stdout := stdout w ++ [m] |}.

(** [print(...)] *)
Definition print (m : message) : prog unit := modify (add_output m).

(* ------------------------------------------------------------------------- *)
(** ** The script *)
(* ------------------------------------------------------------------------- *)

(** The command line after [parser.parse_args()]: four [store_true]
    flags. *)
Record args : Type := {
  a_sync : bool;
  a_list : bool;
  a_cleanup : bool;
  a_cleanup_confirm : bool
}.

Definition opt_default {A} (d : A) (o : option A) : A :=
  match o with Some a => a | None => d end.

Section Script.

Variable cfg : config.
Variable E : env.

(** *** Socket.io client *)

(** Handler of the [monitorList] push: the global is replaced. *)
Definition on_monitor_list (data : snapshot) (w : world) : world :=
  set_monitor_list data w.

(** The client's receiving side: when a blocking operation returns, the
    snapshots pushed so far have been handled, and the last one stays. *)
Definition deliver : prog unit :=
  modify (fun w =>
    match env_push E (trace w) with
    | Some data => on_monitor_list data w
    | None => w
    end).

(** [sio.connect(url, transports=["websocket"])]; [Some e] when it
    raises. The [connect] handler prints on success. *)
Definition sio_connect (url : str) : prog (option str) :=
  r <- gets (fun w => env_connect E (trace w)) ;;
  modify (add_event (EvConnect url)) ;;;
  match r with
  | None => print MsgConnected ;;; deliver ;;; ret None
  | Some e => ret (Some e)
  end.

(** [sio.disconnect()], with the [disconnect] handler. *)
Definition sio_disconnect : prog unit :=
  modify (add_event EvDisconnect) ;;;
  print MsgDisconnected.

(** [sio.call(event, data, timeout=timeout)] *)
Definition sio_call (name : str) (data : payload) : prog call_result :=
  r <- gets (fun w => env_call E (trace w) name data) ;;
  modify (add_event (EvCall name data)) ;;;
  deliver ;;;
  ret r.

(** [time.sleep(...)] *)
Definition sleep (ms : Z) : prog unit :=
  modify (add_event (EvSleep ms)) ;;;
  deliver.

(** *** JWT management *)

Definition load_jwt : prog (option str) :=
  c <- gets jwt_file ;;
  match c with
  | Some text => ret (Some (strip text))
  | None => ret None
  end.

Definition save_jwt (token : str) : prog unit :=
  modify (set_jwt_file (Some token)) ;;;
  print MsgJwtSaved.

(** *** Authentication *)

Definition call_with_callback (name : str) (data : payload)
  : prog (option response) :=
  r <- sio_call name data ;;
  match r with
  | Returned response => ret response
  | RaisedTimeout => print (MsgWarnTimeout name) ;;; ret None
  | RaisedError e => print (MsgWarnError name e) ;;; ret None
  end.

(** [response.get("msg", "Unknown error") if response else "No response"] *)
Definition failure_msg (response : option response) : str :=
  match response with
  | Some r =>
      if response_truthy r then opt_default (py "Unknown error") (r_msg r)
      else py "No response"
  | None => py "No response"
  end.

(** [response.get("token")], when it is true. *)
Definition response_token (response : option response) : option str :=
  match response with
  | Some r =>
      match r_token r with
      | Some t => if truthy t then Some t else None
      | None => None
      end
  | None => None
  end.

Definition authenticate : prog bool :=
  (* Try JWT first *)
  t <- load_jwt ;;
  modify (set_jwt_token t) ;;;
  by_token <-
    (match t with
     | Some token =>
         if truthy token then
           print MsgAttemptJwt ;;;
           response <- call_with_callback (py "loginByToken") (PToken token) ;;
           if response_ok response then
             print MsgJwtOk ;;;
             modify (set_authenticated true) ;;;
             ret true
           else
             print MsgJwtFallback ;;; ret false
         else ret false
     | None => ret false
     end) ;;
  if by_token then ret true
  else
    (* Fallback to username/password *)
    if negb (truthy (USERNAME cfg)) || negb (truthy (PASSWORD cfg)) then
      print MsgNoCredentials ;;;
      sys_exit 1
    else
      print MsgAuthPassword ;;;
      response <- call_with_callback (py "login")
                    (PLogin (USERNAME cfg) (PASSWORD cfg) (py "")) ;;
      if response_ok response then
        print MsgLoginOk ;;;
        modify (set_authenticated true) ;;;
        match response_token response with
        | Some token =>
            save_jwt token ;;;
            modify (set_jwt_token (Some token))
        | None => ret tt
        end ;;;
        ret true
      else
        print (MsgAuthFailed (failure_msg response)) ;;;
        sys_exit 1.

(** *** Domain file parsing *)

(** The body of the loop over the lines. [len(parts) >= 3] is the
    pattern with three fields or more. *)
Definition load_domains_line (domains : dict str) (line : str) : dict str :=
  if negb (truthy (strip line)) then domains
  else
    match split line with
    | name :: _ :: url :: _ => dict_set name url domains
    | _ => domains
    end.

Definition load_domains : prog (dict str) :=
  c <- gets domains_file ;;
  match c with
  | None => print MsgDomainsNotFound ;;; sys_exit 1
  | Some text =>
      ret (fold_left load_domains_line (split_on LF (strip text)) [])
  end.

(** *** Monitor operations *)

(** [monitor.get("parent") == PARENT_GROUP_ID and
    monitor.get("type") == "http"] *)
Definition in_group (m : monitor) : bool :=
  match m_parent m with
  | Some p => Z.eqb p (PARENT_GROUP_ID cfg)
  | None => false
  end &&
  match m_type m with
  | Some t => str_eqb t (py "http")
  | None => false
  end.

(** The function reads the global [monitor_list]; here it is passed. *)
Definition get_existing_monitors (monitor_list : snapshot) : dict entry :=
  fold_left
    (fun existing (item : Z * monitor) =>
       let (monitor_id, monitor) := item in
       if in_group monitor then
         dict_set (m_name monitor)
           {| e_id := monitor_id;
              e_url := opt_default (py "") (m_url monitor) |}
           existing
       else existing)
    monitor_list [].

(** [{str(nid): True for nid in DEFAULT_NOTIFICATION_IDS}], each key kept
    as the integer it writes. *)
Definition notif_list : list (Z * bool) :=
  fold_left
    (fun acc nid =>
       if existsb (fun kv => Z.eqb (fst kv) nid) acc then acc
       else acc ++ [(nid, true)])
    (DEFAULT_NOTIFICATION_IDS cfg) [].

Definition build_monitor_data (name url : str) : monitor_data := {|
  md_name := name;
  md_type := py "http";
  md_url := url;
  md_method := py "GET";
  md_interval := MONITOR_INTERVAL cfg;
  md_retryInterval := MONITOR_RETRY_INTERVAL cfg;
  md_timeout := MONITOR_TIMEOUT cfg;
  md_maxretries := MONITOR_MAX_RETRIES cfg;
  md_maxredirects := MONITOR_MAX_REDIRECTS cfg;
  md_resendInterval := 0;
  md_active := true;
  md_parent := PARENT_GROUP_ID cfg;
  md_notificationIDList := notif_list;
  md_accepted_statuscodes := [py "200-299"];
  md_expiryNotification := true;
  md_ignoreTls := false;
  md_upsideDown := false;
  md_packetSize := 56;
  md_httpBodyEncoding := py "json";
  md_conditions := [];
  md_kafkaProducerBrokers := [];
  md_rabbitmqNodes := [];
  md_kafkaProducerSaslOptions := [(py "mechanism", py "None")]
|}.

Definition create_monitor (name url : str) : prog bool :=
  let monitor_data := build_monitor_data name url in
  response <- call_with_callback (py "add") (PMonitor monitor_data) ;;
  if response_ok response then
    let monitor_id :=
      match response with Some r => r_monitorID r | None => None end in
    print (MsgCreated name url monitor_id) ;;;
    ret true
  else
    print (MsgErrorCreating name (failure_msg response)) ;;;
    ret false.

Definition delete_monitor (monitor_id : Z) (name : str) : prog bool :=
  response <- call_with_callback (py "deleteMonitor")
                (PMonitorId monitor_id) ;;
  if response_ok response then
    print (MsgDeleted name monitor_id) ;;;
    ret true
  else
    print (MsgErrorDeleting name (failure_msg response)) ;;;
    ret false.

(** *** Commands *)

(** The loop of [cmd_sync] over [domains.items()]. *)
Fixpoint sync_loop (items : list (str * str)) (existing : dict entry)
         (created : Z) : prog Z :=
  match items with
  | [] => ret created
  | (name, url) :: rest =>
      if negb (dict_mem name existing) then
        ok <- create_monitor name url ;;
        sleep 200 ;;;
        sync_loop rest existing (if ok then created + 1 else created)%Z
      else sync_loop rest existing created
  end.

Definition cmd_sync : prog unit :=
  print MsgSyncHeader ;;;
  domains <- load_domains ;;
  existing <- gets (fun w => get_existing_monitors (monitor_list w)) ;;
  created <- sync_loop domains existing 0%Z ;;
  print MsgBlank ;;;
  print (MsgCreatedCount created) ;;;
  print (MsgTotalInFile (List.length domains)).

(** [sorted(existing.items())]: the names are distinct, so the items
    are ordered by name. *)
Fixpoint insert_by_name (x : str * entry) (l : list (str * entry))
  : list (str * entry) :=
  match l with
  | [] => [x]
  | y :: l' =>
      if str_leb (fst x) (fst y) then x :: l else y :: insert_by_name x l'
  end.

Definition sorted_items (d : dict entry) : list (str * entry) :=
  fold_right insert_by_name [] d.

Fixpoint list_loop (items : list (str * entry)) : prog unit :=
  match items with
  | [] => ret tt
  | (name, data) :: rest =>
      print (MsgItem (e_id data) name (e_url data)) ;;;
      list_loop rest
  end.

Definition cmd_list : prog unit :=
  print (MsgListHeader (PARENT_GROUP_ID cfg)) ;;;
  existing <- gets (fun w => get_existing_monitors (monitor_list w)) ;;
  list_loop (sorted_items existing) ;;;
  print MsgBlank ;;;
  print (MsgTotal (List.length existing)).

(** The loop of [cmd_cleanup_preview] over [existing.items()]; the
    value is the local [to_delete]. *)
Fixpoint preview_loop (items : list (str * entry)) (domains : dict str)
         (to_delete : list (Z * str * str)) : prog (list (Z * str * str)) :=
  match items with
  | [] => ret to_delete
  | (name, data) :: rest =>
      if negb (dict_mem name domains) then
        print (MsgItem (e_id data) name (e_url data)) ;;;
        preview_loop rest domains
          (to_delete ++ [(e_id data, name, e_url data)])
      else preview_loop rest domains to_delete
  end.

Definition cmd_cleanup_preview : prog unit :=
  print MsgPreviewHeader ;;;
  domains <- load_domains ;;
  existing <- gets (fun w => get_existing_monitors (monitor_list w)) ;;
  to_delete <- preview_loop existing domains [] ;;
  print MsgBlank ;;;
  print (MsgTotalToDelete (List.length to_delete)) ;;;
  print MsgRunConfirm.

(** The loop of [cmd_cleanup_confirm] over [existing.items()]. *)
Fixpoint confirm_loop (items : list (str * entry)) (domains : dict str)
         (deleted : Z) : prog Z :=
  match items with
  | [] => ret deleted
  | (name, data) :: rest =>
      if negb (dict_mem name domains) then
        ok <- delete_monitor (e_id data) name ;;
        sleep 200 ;;;
        confirm_loop rest domains (if ok then deleted + 1 else deleted)%Z
      else confirm_loop rest domains deleted
  end.

Definition cmd_cleanup_confirm : prog unit :=
  print MsgConfirmHeader ;;;
  domains <- load_domains ;;
  existing <- gets (fun w => get_existing_monitors (monitor_list w)) ;;
  deleted <- confirm_loop existing domains 0%Z ;;
  print MsgBlank ;;;
  print (MsgDeletedCount deleted).

(** *** Main *)

Definition main (a : args) : prog unit :=
  if negb (a_sync a || a_list a || a_cleanup a || a_cleanup_confirm a) then
    print MsgUsage ;;;
    sys_exit 0
  else
    (* Connect *)
    print (MsgConnecting (UPTIME_KUMA_URL cfg)) ;;;
    r <- sio_connect (UPTIME_KUMA_URL cfg) ;;
    match r with
    | Some e =>
        print (MsgConnectionFailed e) ;;;
        sys_exit 1
    | None =>
        (* Authenticate *)
        authenticate ;;;
        (* Wait for monitor list *)
        sleep 1000 ;;;
        try_finally
          (if a_sync a then cmd_sync
           else if a_list a then cmd_list
           else if a_cleanup a then cmd_cleanup_preview
           else if a_cleanup_confirm a then cmd_cleanup_confirm
           else ret tt)
          sio_disconnect
    end.

End Script.

(** The exit status of the process for a run of [main]. *)
Definition exit_status {A} (r : result A) : Z :=
  match r with
  | Normal _ => 0
  | SysExit code => code
  end.

(** A process starts with the globals of the module as the source sets
    them and with nothing done yet. *)
Definition initial_world (jwt domains : option str) : world := {|
  jwt_file := jwt;
  domains_file := domains;
  monitor_list := [];
  authenticated := false;
  jwt_token := None;
  trace := [];
  stdout := []
|}.

(* ------------------------------------------------------------------------- *)
(** ** The reconciliation plan, as the specification words it *)
(* ------------------------------------------------------------------------- *)

Section Plan.

Variable cfg : config.

(** The filtered Monitor Directory: the monitors of the snapshot with
    [parent == configured group] and [type == http]. *)
Definition filtered (M : snapshot) : snapshot :=
  filter (fun im => in_group cfg (snd im)) M.

(** A name is present in the filtered directory. *)
Definition name_in_filtered (n : str) (M : snapshot) : bool :=
  existsb (fun im => str_eqb (m_name (snd im)) n) (filtered M).

(** The create-set: the domain entries whose name is absent from the
    filtered directory. *)
Definition create_set (D : dict str) (M : snapshot) : list (str * str) :=
  filter (fun kv => negb (name_in_filtered (fst kv) M)) D.

(** The delete-set: the monitors of the filtered directory whose name is
    not a key of the domain mapping. *)
Definition delete_set (D : dict str) (M : snapshot) : snapshot :=
  filter (fun im => negb (dict_mem (m_name (snd im)) D)) (filtered M).

End Plan.

(** The domain mapping read from the text of the Domain Source. *)
Definition domains_of (text : str) : dict str :=
  fold_left load_domains_line (split_on LF (strip text)) [].

(** The names of the monitors the [add] calls of a trace ask for. *)
Definition create_calls (evs : list event) : list str :=
  flat_map
    (fun e =>
       match e with
       | EvCall name (PMonitor d) =>
           if str_eqb name (py "add") then [md_name d] else []
       | _ => []
       end) evs.

(** The identifiers the [deleteMonitor] calls of a trace name. *)
Definition delete_calls (evs : list event) : list Z :=
  flat_map
    (fun e =>
       match e with
       | EvCall name (PMonitorId id) =>
           if str_eqb name (py "deleteMonitor") then [id] else []
       | _ => []
       end) evs.

(** The calls of a trace with the given event name. *)
Definition calls_named (name : str) (evs : list event) : list payload :=
  flat_map
    (fun e =>
       match e with
       | EvCall name' data => if str_eqb name' name then [data] else []
       | _ => []
       end) evs.

(** The requests of a trace, whatever their name. *)
Definition rpc_calls (evs : list event) : list (str * payload) :=
  flat_map
    (fun e =>
       match e with
       | EvCall name data => [(name, data)]
       | _ => []
       end) evs.

(** The connection attempts of a trace. *)
Definition connects (evs : list event) : list str :=
  flat_map (fun e => match e with EvConnect u => [u] | _ => [] end) evs.

(* ------------------------------------------------------------------------- *)
(** ** Notions used to state the properties *)
(* ------------------------------------------------------------------------- *)

(** The four headers the commands start with: each run of a command
    prints its own, once. *)
Definition is_header (m : message) : bool :=
  match m with
  | MsgSyncHeader | MsgListHeader _ | MsgPreviewHeader | MsgConfirmHeader =>
      true
  | _ => false
  end.

Definition headers (out : list message) : list message :=
  filter is_header out.

(** [w'] is [w] after the events [evs] and some output whose headers are
    [hs]; the Domain Source is as it was. *)
Definition extends (w w' : world) (evs : list event) (hs : list message)
  : Prop :=
  trace w' = trace w ++ evs /\
  (exists out, stdout w' = stdout w ++ out /\ headers out = hs) /\
  domains_file w' = domains_file w.

(** The state after the receiving side has run. *)
Definition delivered (E : env) (w : world) : world :=
  match env_push E (trace w) with
  | Some data => on_monitor_list data w
  | None => w
  end.

(** What [call_with_callback] gives back for each way the call ends. *)
Definition callback_value (r : call_result) : option response :=
  match r with
  | Returned response => response
  | RaisedTimeout => None
  | RaisedError _ => None
  end.

(** The entry stored for a monitor of the snapshot. *)
Definition entry_of (im : Z * monitor) : entry :=
  {| e_id := fst im; e_url := opt_default (py "") (m_url (snd im)) |}.

(** One turn of the loop of [get_existing_monitors]. *)
Definition existing_step (cfg : config) (existing : dict entry)
  (im : Z * monitor)
  : dict entry :=
  if in_group cfg (snd im)
  then dict_set (m_name (snd im)) (entry_of im) existing
  else existing.

(** The last monitor of the snapshot that passes the filter and bears the
    name [n]. *)
Fixpoint last_named (cfg : config) (n : str) (M : snapshot)
  : option (Z * monitor) :=
  match M with
  | [] => None
  | im :: M' =>
      match last_named cfg n M' with
      | Some x => Some x
      | None =>
          if in_group cfg (snd im) && str_eqb (m_name (snd im)) n
          then Some im else None
      end
  end.

(** The entries of a name-keyed directory whose name is not a key of the
    domain mapping: what the two cleanup loops select. *)
Definition obsolete (D : dict str) (existing : dict entry)
  : list (str * entry) :=
  filter (fun ne => negb (dict_mem (fst ne) D)) existing.

(** The local [to_delete] of the preview for a list of selected items. *)
Definition to_delete_of (items : list (str * entry)) : list (Z * str * str) :=
  map (fun ne => (e_id (snd ne), fst ne, e_url (snd ne))) items.

(** The events of the loop of [cmd_sync] for the items it creates. *)
Definition sync_events (cfg : config) (items : list (str * str)) : list event :=
  flat_map
    (fun kv =>
       [EvCall (py "add") (PMonitor (build_monitor_data cfg (fst kv) (snd kv)));
        EvSleep 200])
    items.

(** The events of the loop of [cmd_cleanup_confirm] for the items it
    deletes. *)
Definition confirm_events (items : list (str * entry)) : list event :=
  flat_map
    (fun ne =>
       [EvCall (py "deleteMonitor") (PMonitorId (e_id (snd ne)));
        EvSleep 200])
    items.

(** The events a program adds to the trace of the state it starts from. *)
Definition issued {A} (p : prog A) (w : world) : list event :=
  skipn (List.length (trace w)) (trace (snd (p w))).

(** The messages a program adds to the standard output. *)
Definition printed {A} (p : prog A) (w : world) : list message :=
  skipn (List.length (stdout w)) (stdout (snd (p w))).

(** The monitors listed by the item lines of an output: identifier and
    name. *)
Definition listed (out : list message) : list (Z * str) :=
  flat_map
    (fun m => match m with MsgItem id name _ => [(id, name)] | _ => [] end)
    out.

(** A monitor of the snapshot without its URL. *)
Definition without_url (im : Z * monitor)
  : Z * str * option str * option Z :=
  (fst im, m_name (snd im), m_type (snd im), m_parent (snd im)).

(** An item of the directory without its URL. *)
Definition entry_key (ne : str * entry) : str * Z := (fst ne, e_id (snd ne)).

(** The stored token, when the token file exists and holds more than
    white space: the value [authenticate] tries first. *)
Definition stored_token (w : world) : option str :=
  match jwt_file w with
  | Some text => if truthy (strip text) then Some (strip text) else None
  | None => None
  end.

(** The token login [authenticate] starts with, if any. *)
Definition token_events (w : world) : list event :=
  match stored_token w with
  | Some t => [EvCall (py "loginByToken") (PToken t)]
  | None => []
  end.

(** What [call_with_callback] returns for the token login. *)
Definition token_answer (E : env) (w : world) (t : str) : option response :=
  callback_value (env_call E (trace w) (py "loginByToken") (PToken t)).

(** The payload of the credential login. *)
Definition credentials (cfg : config) : payload :=
  PLogin (USERNAME cfg) (PASSWORD cfg) (py "").

(** What [call_with_callback] returns for the credential login, which
    comes after the token login if there was one. *)
Definition login_answer (cfg : config) (E : env) (w : world)
  : option response :=
  callback_value
    (env_call E (trace w ++ token_events w) (py "login") (credentials cfg)).

(** Both credentials are configured. *)
Definition configured (cfg : config) : bool :=
  truthy (USERNAME cfg) && truthy (PASSWORD cfg).

(** The events of authentication: the two logins. *)
Definition is_login (e : event) : bool :=
  match e with
  | EvCall name _ =>
      str_eqb name (py "loginByToken") || str_eqb name (py "login")
  | _ => false
  end.

(** The message of [load_domains] for a missing file. *)
Definition is_not_found (m : message) : bool :=
  match m with MsgDomainsNotFound => true | _ => false end.

(** The dispatched command reads the Domain Source: [--sync], or, without
    [--sync] and [--list], one of the two cleanup flags. *)
Definition needs_domains (a : args) : bool :=
  a_sync a || negb (a_list a) && (a_cleanup a || a_cleanup_confirm a).

(** The dispatch at the end of [main]. *)
Definition run_mode (cfg : config) (E : env) (a : args) : prog unit :=
  if a_sync a then cmd_sync cfg E
  else if a_list a then cmd_list cfg
  else if a_cleanup a then cmd_cleanup_preview cfg
  else if a_cleanup_confirm a then cmd_cleanup_confirm cfg E
  else ret tt.

(** A line of the Domain Source is well formed: it is not blank and has
    three fields or more. *)
Definition well_formed (line : str) : bool :=
  truthy (strip line) && (3 <=? List.length (split line))%nat.

(** The first and the third field of a line. *)
Definition name_of (line : str) : str := nth 0 (split line) [].
Definition url_of (line : str) : str := nth 2 (split line) [].

(** What a list of fields does to the mapping. *)
Definition apply_fields (domains : dict str) (parts : list str) : dict str :=
  match parts with
  | name :: _ :: url :: _ => dict_set name url domains
  | _ => domains
  end.

(** The lists of fields that are not empty. *)
Definition some_fields (l : list (list str)) : list (list str) :=
  filter (fun parts => match parts with [] => false | _ => true end) l.

(** A Domain Source in which [a.com] comes twice. *)
Definition text_twice : str :=
  py "a.com 192.0.2.1 http://first" ++ [LF] ++
  py "b.com 192.0.2.2 http://b.com" ++ [LF] ++
  py "a.com 192.0.2.3 http://second" ++ [LF].

(** The pieces of [s.split(sep)], by recursion on the string alone. *)
Fixpoint pieces (sep : N) (s : str) : list str :=
  match s with
  | [] => [[]]
  | c :: s' =>
      if N.eqb c sep then [] :: pieces sep s'
      else match pieces sep s' with
           | l0 :: rest => (c :: l0) :: rest
           | [] => [[c]]
           end
  end.

(** The fields of the lines of a text, blank lines left out. *)
Definition line_fields (s : str) : list (list str) :=
  some_fields (map split (split_on LF s)).

(** The order of [sorted] on the items of the directory: by name. *)
Definition by_name (x y : str * entry) : Prop :=
  str_leb (fst x) (fst y) = true.

(** The line [cmd_list] and the preview print for an item. *)
Definition item_line (ne : str * entry) : message :=
  MsgItem (e_id (snd ne)) (fst ne) (e_url (snd ne)).

(** The numbers of success and of error lines of [create_monitor] and of
    [delete_monitor] in an output. *)
Definition n_created (out : list message) : nat :=
  List.length
    (filter (fun m => match m with MsgCreated _ _ _ => true | _ => false end)
       out).

Definition n_not_created (out : list message) : nat :=
  List.length
    (filter
       (fun m => match m with MsgErrorCreating _ _ => true | _ => false end)
       out).

Definition n_deleted (out : list message) : nat :=
  List.length
    (filter (fun m => match m with MsgDeleted _ _ => true | _ => false end)
       out).

Definition n_not_deleted (out : list message) : nat :=
  List.length
    (filter
       (fun m => match m with MsgErrorDeleting _ _ => true | _ => false end)
       out).

(** The events of a command: [add] and [deleteMonitor] requests, and the
    pauses between them. *)
Definition is_mode_event (e : event) : bool :=
  match e with
  | EvCall name (PMonitor _) => str_eqb name (py "add")
  | EvCall name (PMonitorId _) => str_eqb name (py "deleteMonitor")
  | EvSleep ms => Z.eqb ms 200
  | _ => false
  end.

(** A string without white space. *)
Definition no_space (s : str) : bool :=
  forallb (fun c => negb (isspace c)) s.

(** One mode flag at least is given. *)
Definition any_flag (a : args) : bool :=
  a_sync a || a_list a || a_cleanup a || a_cleanup_confirm a.

(** The state of [main] once the connection is made. *)
Definition connected (cfg : config) (E : env) (w : world) : world :=
  delivered E
    (add_output MsgConnected
       (add_event (EvConnect (UPTIME_KUMA_URL cfg))
          (add_output (MsgConnecting (UPTIME_KUMA_URL cfg)) w))).

(** The header of the command that [main] dispatches for a command line
    with a flag: the flags are tried in the order [--sync], [--list],
    [--cleanup], [--cleanup-confirm]. *)
Definition header_of (cfg : config) (a : args) : message :=
  if a_sync a then MsgSyncHeader
  else if a_list a then MsgListHeader (PARENT_GROUP_ID cfg)
  else if a_cleanup a then MsgPreviewHeader
  else MsgConfirmHeader.

(* ------------------------------------------------------------------------- *)
(** ** Concrete configurations, services and files *)
(* ------------------------------------------------------------------------- *)

(** The configuration of the source with credentials filled in. *)
Definition example_config : config := {|
  UPTIME_KUMA_URL := UPTIME_KUMA_URL source_config;
  USERNAME := py "admin";
  PASSWORD := py "secret";
  PARENT_GROUP_ID := PARENT_GROUP_ID source_config;
  MONITOR_INTERVAL := MONITOR_INTERVAL source_config;
  MONITOR_RETRY_INTERVAL := MONITOR_RETRY_INTERVAL source_config;
  MONITOR_TIMEOUT := MONITOR_TIMEOUT source_config;
  MONITOR_MAX_RETRIES := MONITOR_MAX_RETRIES source_config;
  MONITOR_MAX_REDIRECTS := MONITOR_MAX_REDIRECTS source_config;
  DEFAULT_NOTIFICATION_IDS := DEFAULT_NOTIFICATION_IDS source_config
|}.

(** [{"ok": true}] *)
Definition response_yes : response :=
  {| r_ok := Some true; r_msg := None; r_token := None;
     r_monitorID := None; r_other := false |}.

(** A service that accepts the connection, answers every request with
    [{"ok": true}] and pushes no snapshot. *)
Definition env_yes : env := {|
  env_connect := fun _ => None;
  env_call := fun _ _ _ => Returned (Some response_yes);
  env_push := fun _ => None
|}.

(** A service whose requests all time out. *)
Definition env_timeout : env := {|
  env_connect := fun _ => None;
  env_call := fun _ _ _ => RaisedTimeout;
  env_push := fun _ => None
|}.

(** A Domain Source with two lines, for [a.com] and [b.com]. *)
Definition text_ab : str :=
  py "a.com 192.0.2.1 http://a.com" ++ [LF] ++
  py "b.com 192.0.2.2 http://b.com" ++ [LF].

(** An http monitor of group 1. *)
Definition http_monitor (name url : str) : monitor :=
  {| m_name := name; m_type := Some (py "http"); m_parent := Some 1%Z;
     m_url := Some url |}.

(** The state of a process about to run a command, with the given
    Domain Source and snapshot. *)
Definition world_with (domains : option str) (M : snapshot) : world := {|
  jwt_file := None;
  domains_file := domains;
  monitor_list := M;
  authenticated := true;
  jwt_token := None;
  trace := [];
  stdout := []
|}.

(** The command lines: no flag, [--sync]. *)
Definition args_none : args :=
  {| a_sync := false; a_list := false; a_cleanup := false;
     a_cleanup_confirm := false |}.

Definition args_sync : args :=
  {| a_sync := true; a_list := false; a_cleanup := false;
     a_cleanup_confirm := false |}.

(** A Domain Source with the single line of [a.com]. *)
Definition text_a : str := py "a.com 192.0.2.1 http://a.com".

(** A snapshot in which two http monitors of group 1 bear the name
    [c.com]: identifiers 5 and 9. *)
Definition twins : snapshot :=
  [(5%Z, http_monitor (py "c.com") (py "http://c.com"));
   (9%Z, http_monitor (py "c.com") (py "http://c.com"))].

(** A snapshot with one monitor for [a.com] and one for [c.com]. *)
Definition snapshot_ac : snapshot :=
  [(3%Z, http_monitor (py "a.com") (py "http://elsewhere"));
   (4%Z, http_monitor (py "c.com") (py "http://c.com"))].

(** [{"ok": false, "msg": "Incorrect username or password.",
      "token": "fresh"}]: a refusal that carries a token. *)
Definition response_refusal_with_token : response :=
  {| r_ok := Some false;
     r_msg := Some (py "Incorrect username or password.");
     r_token := Some (py "fresh"); r_monitorID := None; r_other := false |}.

(** A service that answers every request with that refusal. *)
Definition env_refusal_with_token : env := {|
  env_connect := fun _ => None;
  env_call := fun _ _ _ => Returned (Some response_refusal_with_token);
  env_push := fun _ => None
|}.

(** [{"ok": true, "token": "fresh"}] *)
Definition response_yes_with_token : response :=
  {| r_ok := Some true; r_msg := None; r_token := Some (py "fresh");
     r_monitorID := None; r_other := false |}.

(** A service that refuses the token login with [{"ok": false}] and
    accepts the credentials with a new token. *)
Definition env_expired : env := {|
  env_connect := fun _ => None;
  env_call := fun _ name _ =>
    if str_eqb name (py "loginByToken")
    then Returned (Some {| r_ok := Some false; r_msg := None;
                           r_token := None; r_monitorID := None;
                           r_other := false |})
    else Returned (Some response_yes_with_token);
  env_push := fun _ => None
|}.

(** A service that cannot be reached. *)
Definition env_down : env := {|
  env_connect := fun _ => Some (py "Connection refused");
  env_call := fun _ _ _ => RaisedError (py "not connected");
  env_push := fun _ => None
|}.

(** A service that accepts everything and has pushed [snapshot_ac]. *)
Definition env_ac : env := {|
  env_connect := fun _ => None;
  env_call := fun _ _ _ => Returned (Some response_yes);
  env_push := fun _ => Some snapshot_ac
|}.

(** The command line with [--list] and [--cleanup-confirm]. *)
Definition args_list_and_confirm : args :=
  {| a_sync := false; a_list := true; a_cleanup := false;
     a_cleanup_confirm := true |}.

(* ------------------------------------------------------------------------- *)
(** ** Lemmas on strings and dictionaries *)
(* ------------------------------------------------------------------------- *)

Lemma str_eqb_eq (a b : str) : str_eqb a b = true <-> a = b.
Proof.
  revert b; induction a as [|x a IH]; intros [|y b]; simpl;
    try (split; [discriminate | congruence]); try tauto.
  rewrite andb_true_iff, N.eqb_eq, IH.
  split; [intros [-> ->]; reflexivity | intros H; injection H; auto].
Qed.

Lemma str_eqb_refl (a : str) : str_eqb a a = true.
Proof. apply str_eqb_eq; reflexivity. Qed.

Lemma str_eqb_neq (a b : str) : str_eqb a b = false <-> a <> b.
Proof.
  rewrite <- str_eqb_eq. destruct (str_eqb a b); split; congruence.
Qed.

Lemma str_eqb_sym (a b : str) : str_eqb a b = str_eqb b a.
Proof.
  destruct (str_eqb a b) eqn:H1, (str_eqb b a) eqn:H2; auto.
  - apply str_eqb_eq in H1. subst. rewrite str_eqb_refl in H2. discriminate.
  - apply str_eqb_eq in H2. subst. rewrite str_eqb_refl in H1. discriminate.
Qed.

Lemma str_eq_dec (a b : str) : {a = b} + {a <> b}.
Proof. apply (list_eq_dec N.eq_dec). Defined.

Section DictLemmas.

Variable V : Type.
Implicit Types (d : dict V) (k : str) (v : V).

Lemma dict_mem_In k d : dict_mem k d = true <-> In k (dict_keys d).
Proof.
  unfold dict_mem, dict_keys. rewrite existsb_exists, in_map_iff.
  split; intros [x [H1 H2]]; exists x.
  - apply str_eqb_eq in H2. auto.
  - subst. split; [assumption | apply str_eqb_refl].
Qed.

Lemma dict_mem_false k d : dict_mem k d = false <-> ~ In k (dict_keys d).
Proof.
  rewrite <- dict_mem_In. destruct (dict_mem k d); split; congruence.
Qed.

Lemma dict_keys_set k v d :
  dict_keys (dict_set k v d) =
  if dict_mem k d then dict_keys d else dict_keys d ++ [k].
Proof.
  induction d as [|[k' v'] d IH]; simpl; [reflexivity|].
  destruct (str_eqb k' k) eqn:Hk; simpl; [reflexivity|].
  rewrite IH. unfold dict_mem. destruct (existsb _ d); reflexivity.
Qed.

Lemma dict_mem_set k k' v d :
  dict_mem k' (dict_set k v d) = str_eqb k k' || dict_mem k' d.
Proof.
  induction d as [|[k0 v0] d IH]; simpl.
  - rewrite orb_false_r. reflexivity.
  - destruct (str_eqb k0 k) eqn:Hk; simpl.
    + apply str_eqb_eq in Hk. subst k0.
      destruct (str_eqb k k'); reflexivity.
    + fold (dict_mem k' (dict_set k v d)). rewrite IH.
      fold (dict_mem k' d).
      destruct (str_eqb k0 k'), (str_eqb k k'); reflexivity.
Qed.

Lemma dict_set_NoDup k v d :
  NoDup (dict_keys d) -> NoDup (dict_keys (dict_set k v d)).
Proof.
  intros H. rewrite dict_keys_set.
  destruct (dict_mem k d) eqn:Hm; [assumption|].
  apply dict_mem_false in Hm.
  apply NoDup_app; [assumption | repeat constructor; simpl; tauto |].
  intros x Hx [<-|[]]. contradiction.
Qed.

Lemma dict_get_set_same k v d : dict_get k (dict_set k v d) = Some v.
Proof.
  induction d as [|[k' v'] d IH]; simpl.
  - rewrite str_eqb_refl. reflexivity.
  - destruct (str_eqb k' k) eqn:Hk; simpl; rewrite Hk; auto.
Qed.

Lemma dict_get_set_other k k' v d :
  k <> k' -> dict_get k' (dict_set k v d) = dict_get k' d.
Proof.
  intros Hne. induction d as [|[k0 v0] d IH]; simpl.
  - apply str_eqb_neq in Hne. rewrite Hne. reflexivity.
  - destruct (str_eqb k0 k) eqn:Hk; simpl.
    + apply str_eqb_eq in Hk. subst k0.
      apply str_eqb_neq in Hne. rewrite Hne. reflexivity.
    + rewrite IH. reflexivity.
Qed.

Lemma dict_get_In k v d : dict_get k d = Some v -> In (k, v) d.
Proof.
  induction d as [|[k' v'] d IH]; simpl; [discriminate|].
  destruct (str_eqb k' k) eqn:Hk.
  - apply str_eqb_eq in Hk. intros [= ->]. subst. auto.
  - auto.
Qed.

Lemma dict_In_get k v d :
  NoDup (dict_keys d) -> In (k, v) d -> dict_get k d = Some v.
Proof.
  induction d as [|[k' v'] d IH]; simpl; [tauto|].
  intros Hnd [Heq|Hin]; inversion Hnd; subst.
  - injection Heq as -> ->. rewrite str_eqb_refl. reflexivity.
  - destruct (str_eqb k' k) eqn:Hk; [|auto].
    apply str_eqb_eq in Hk. subst k'.
    exfalso. apply H1. apply (in_map fst) in Hin. exact Hin.
Qed.

End DictLemmas.


(* ------------------------------------------------------------------------- *)
(** ** Lemmas on programs *)
(* ------------------------------------------------------------------------- *)

Arguments py : simpl never.


Lemma extends_refl w : extends w w [] [].
Proof.
  unfold extends. rewrite !app_nil_r.
  split; [reflexivity|]. split; [|reflexivity].
  exists []. rewrite app_nil_r. auto.
Qed.

Lemma extends_trans w1 w2 w3 e1 e2 h1 h2 :
  extends w1 w2 e1 h1 -> extends w2 w3 e2 h2 ->
  extends w1 w3 (e1 ++ e2) (h1 ++ h2).
Proof.
  unfold extends.
  intros (A1 & (o1 & B1 & H1) & C1) (A2 & (o2 & B2 & H2) & C2).
  rewrite A2, A1, C2, C1, !app_assoc.
  split; [reflexivity|]. split; [|reflexivity].
  exists (o1 ++ o2). unfold headers in *.
  rewrite B2, B1, app_assoc, filter_app, H1, H2. auto.
Qed.

Lemma bind_normal A B (m : prog A) (k : A -> prog B) w a w' :
  m w = (Normal a, w') -> bind m k w = k a w'.
Proof. unfold bind. intros ->. reflexivity. Qed.

Lemma bind_exit A B (m : prog A) (k : A -> prog B) w c w' :
  m w = (SysExit c, w') -> bind m k w = (SysExit c, w').
Proof. unfold bind. intros ->. reflexivity. Qed.

Arguments bind_normal [A B m] k [w a w'] _.
Arguments bind_exit [A B m] k [w c w'] _.
Arguments extends_trans [w1 w2 w3 e1 e2 h1 h2] _ _.

Lemma headers_app a b : headers (a ++ b) = headers a ++ headers b.
Proof. apply filter_app. Qed.

Lemma extends_same w w' :
  trace w' = trace w -> stdout w' = stdout w ->
  domains_file w' = domains_file w -> extends w w' [] [].
Proof.
  intros Ht Ho Hd. unfold extends. rewrite Ht, Ho, Hd, app_nil_r.
  split; [reflexivity|]. split; [|reflexivity].
  exists []. rewrite app_nil_r. auto.
Qed.

Section ProgramLemmas.

Variable cfg : config.
Variable E : env.


Lemma delivered_extends w : extends w (delivered E w) [] [].
Proof.
  unfold delivered. destruct (env_push E (trace w)).
  - apply extends_same; reflexivity.
  - apply extends_refl.
Qed.

Lemma delivered_jwt_file w : jwt_file (delivered E w) = jwt_file w.
Proof. unfold delivered. destruct (env_push E (trace w)); reflexivity. Qed.

Lemma delivered_stdout w : stdout (delivered E w) = stdout w.
Proof. unfold delivered. destruct (env_push E (trace w)); reflexivity. Qed.

Lemma delivered_trace w : trace (delivered E w) = trace w.
Proof. unfold delivered. destruct (env_push E (trace w)); reflexivity. Qed.

Lemma print_eq m w : print m w = (Normal tt, add_output m w).
Proof. reflexivity. Qed.

Lemma print_extends m w :
  extends w (add_output m w) [] (if is_header m then [m] else []).
Proof.
  unfold extends; simpl. rewrite app_nil_r.
  split; [reflexivity|]. split; [|reflexivity].
  exists [m]. simpl. destruct (is_header m); auto.
Qed.

Lemma sleep_eq ms w :
  sleep E ms w = (Normal tt, delivered E (add_event (EvSleep ms) w)).
Proof. reflexivity. Qed.

Lemma sleep_extends ms w :
  extends w (delivered E (add_event (EvSleep ms) w)) [EvSleep ms] [].
Proof.
  apply (@extends_trans w (add_event (EvSleep ms) w) _ [EvSleep ms] [] [] []).
  - unfold extends; simpl. split; [reflexivity|]. split; [|reflexivity].
    exists []. rewrite app_nil_r. auto.
  - apply delivered_extends.
Qed.


Lemma call_with_callback_spec name data w :
  exists w',
    call_with_callback E name data w =
      (Normal (callback_value (env_call E (trace w) name data)), w') /\
    extends w w' [EvCall name data] [] /\
    jwt_file w' = jwt_file w.
Proof.
  unfold call_with_callback, sio_call, bind, gets, modify, deliver, ret,
    print. simpl.
  destruct (env_call E (trace w) name data); simpl;
    eexists; (split; [reflexivity|]);
    unfold extends; simpl;
    destruct (env_push E (trace w ++ [EvCall name data])); simpl;
    (split; [split; [reflexivity|]; split; [|reflexivity] | reflexivity]);
    first [ exists []; split; [symmetry; apply app_nil_r | reflexivity]
          | eexists; split; reflexivity ].
Qed.

Lemma create_monitor_spec name url w :
  exists b w',
    create_monitor cfg E name url w = (Normal b, w') /\
    b = response_ok
          (callback_value
             (env_call E (trace w) (py "add")
                (PMonitor (build_monitor_data cfg name url)))) /\
    extends w w'
      [EvCall (py "add") (PMonitor (build_monitor_data cfg name url))] [].
Proof.
  unfold create_monitor.
  destruct (call_with_callback_spec (py "add")
              (PMonitor (build_monitor_data cfg name url)) w)
    as (w1 & Hc & Hx & _).
  rewrite (bind_normal _ Hc).
  destruct (response_ok _) eqn:Hok;
    rewrite (bind_normal _ (print_eq _ _)); unfold ret;
    do 2 eexists; (split; [reflexivity|]); (split; [reflexivity|]).
  - pose proof (extends_trans Hx (print_extends
      (MsgCreated name url
         match callback_value (env_call E (trace w) (py "add")
                 (PMonitor (build_monitor_data cfg name url))) with
         | Some r => r_monitorID r | None => None end) w1)) as H.
    simpl in H. exact H.
  - pose proof (extends_trans Hx (print_extends
      (MsgErrorCreating name
         (failure_msg (callback_value (env_call E (trace w) (py "add")
                 (PMonitor (build_monitor_data cfg name url))))) ) w1)) as H.
    simpl in H. exact H.
Qed.

Lemma delete_monitor_spec monitor_id name w :
  exists b w',
    delete_monitor E monitor_id name w = (Normal b, w') /\
    b = response_ok
          (callback_value
             (env_call E (trace w) (py "deleteMonitor")
                (PMonitorId monitor_id))) /\
    extends w w' [EvCall (py "deleteMonitor") (PMonitorId monitor_id)] [].
Proof.
  unfold delete_monitor.
  destruct (call_with_callback_spec (py "deleteMonitor")
              (PMonitorId monitor_id) w) as (w1 & Hc & Hx & _).
  rewrite (bind_normal _ Hc).
  destruct (response_ok _) eqn:Hok;
    rewrite (bind_normal _ (print_eq _ _)); unfold ret;
    do 2 eexists; (split; [reflexivity|]); (split; [reflexivity|]).
  - pose proof (extends_trans Hx
      (print_extends (MsgDeleted name monitor_id) w1)) as H.
    simpl in H. exact H.
  - pose proof (extends_trans Hx (print_extends
      (MsgErrorDeleting name
         (failure_msg (callback_value (env_call E (trace w)
            (py "deleteMonitor") (PMonitorId monitor_id))))) w1)) as H.
    simpl in H. exact H.
Qed.

End ProgramLemmas.

(* ------------------------------------------------------------------------- *)
(** ** Lemmas on the filtered directory and the domain mapping *)
(* ------------------------------------------------------------------------- *)

Section DirectoryLemmas.

Variable cfg : config.


Lemma get_existing_monitors_fold M :
  get_existing_monitors cfg M = fold_left (existing_step cfg) M [].
Proof.
  unfold get_existing_monitors. generalize (@nil (str * entry)).
  induction M as [|[id m] M IH]; intros acc; simpl; [reflexivity|].
  apply IH.
Qed.


Lemma existing_step_mem n acc im :
  dict_mem n (existing_step cfg acc im) =
  (in_group cfg (snd im) && str_eqb (m_name (snd im)) n) || dict_mem n acc.
Proof.
  unfold existing_step. destruct (in_group cfg (snd im)); simpl; [|reflexivity].
  apply dict_mem_set.
Qed.

Lemma fold_existing_mem n M acc :
  dict_mem n (fold_left (existing_step cfg) M acc) =
  existsb (fun im => str_eqb (m_name (snd im)) n) (filtered cfg M)
  || dict_mem n acc.
Proof.
  revert acc. induction M as [|im M IH]; intros acc; simpl; [reflexivity|].
  rewrite IH, existing_step_mem.
  destruct (in_group cfg (snd im)); simpl.
  - destruct (str_eqb (m_name (snd im)) n); simpl;
      [rewrite orb_true_r|]; reflexivity.
  - reflexivity.
Qed.

(** A name is a key of the directory the code builds exactly when a
    monitor of the group, of type http, bears it. *)
Lemma existing_mem n M :
  dict_mem n (get_existing_monitors cfg M) = name_in_filtered cfg n M.
Proof.
  rewrite get_existing_monitors_fold, fold_existing_mem.
  unfold name_in_filtered. simpl. apply orb_false_r.
Qed.

Lemma fold_existing_NoDup M acc :
  NoDup (dict_keys acc) ->
  NoDup (dict_keys (fold_left (existing_step cfg) M acc)).
Proof.
  revert acc. induction M as [|im M IH]; intros acc H; simpl; [assumption|].
  apply IH. unfold existing_step.
  destruct (in_group cfg (snd im)); [apply dict_set_NoDup|]; assumption.
Qed.

Lemma existing_NoDup M : NoDup (dict_keys (get_existing_monitors cfg M)).
Proof.
  rewrite get_existing_monitors_fold. apply fold_existing_NoDup. constructor.
Qed.

Lemma fold_existing_get n M acc :
  dict_get n (fold_left (existing_step cfg) M acc) =
  match last_named cfg n M with
  | Some im => Some (entry_of im)
  | None => dict_get n acc
  end.
Proof.
  revert acc. induction M as [|im M IH]; intros acc; simpl; [reflexivity|].
  rewrite IH. destruct (last_named cfg n M); [reflexivity|].
  unfold existing_step. destruct (in_group cfg (snd im)); simpl; [|reflexivity].
  destruct (str_eqb (m_name (snd im)) n) eqn:Hn.
  - apply str_eqb_eq in Hn. subst n. apply dict_get_set_same.
  - apply str_eqb_neq in Hn. apply dict_get_set_other. exact Hn.
Qed.

(** Under a name the directory holds the last monitor that passes the
    filter and bears it. *)
Lemma existing_get n M :
  dict_get n (get_existing_monitors cfg M) =
  option_map entry_of (last_named cfg n M).
Proof.
  rewrite get_existing_monitors_fold, fold_existing_get.
  destruct (last_named cfg n M); reflexivity.
Qed.

Lemma last_named_In n M im :
  last_named cfg n M = Some im ->
  In im M /\ in_group cfg (snd im) = true /\ m_name (snd im) = n.
Proof.
  induction M as [|x M IH]; simpl; [discriminate|].
  destruct (last_named cfg n M) as [y|].
  - intros [= <-]. destruct (IH eq_refl) as (A & B & C). auto.
  - destruct (in_group cfg (snd x) && str_eqb (m_name (snd x)) n) eqn:Hp;
      [|discriminate].
    intros [= <-]. apply andb_true_iff in Hp. destruct Hp as [A B].
    apply str_eqb_eq in B. auto.
Qed.

(** The monitors that fail the filter leave no mark on the directory. *)
Lemma existing_filtered M :
  get_existing_monitors cfg M = get_existing_monitors cfg (filtered cfg M).
Proof.
  rewrite !get_existing_monitors_fold. generalize (@nil (str * entry)).
  induction M as [|im M IH]; intros acc; simpl; [reflexivity|].
  unfold existing_step at 2.
  destruct (in_group cfg (snd im)) eqn:Hg; simpl.
  - rewrite IH. unfold existing_step at 3. rewrite Hg. reflexivity.
  - apply IH.
Qed.

End DirectoryLemmas.

Lemma load_domains_line_NoDup d line :
  NoDup (dict_keys d) -> NoDup (dict_keys (load_domains_line d line)).
Proof.
  intros H. unfold load_domains_line.
  destruct (negb (truthy (strip line))); [assumption|].
  destruct (split line) as [|name [|x [|url rest]]]; try assumption.
  apply dict_set_NoDup. assumption.
Qed.

Lemma fold_load_NoDup lines d :
  NoDup (dict_keys d) ->
  NoDup (dict_keys (fold_left load_domains_line lines d)).
Proof.
  revert d. induction lines as [|l lines IH]; intros d H; simpl; auto.
  apply IH. apply load_domains_line_NoDup. assumption.
Qed.

(** The mapping read from a file holds a name once at most. *)
Lemma domains_of_NoDup text : NoDup (dict_keys (domains_of text)).
Proof. unfold domains_of. apply fold_load_NoDup. constructor. Qed.

(* ------------------------------------------------------------------------- *)
(** ** Lemmas on the commands *)
(* ------------------------------------------------------------------------- *)


Section CommandLemmas.

Variable cfg : config.
Variable E : env.



Lemma sync_loop_spec items existing created w :
  exists c w',
    sync_loop cfg E items existing created w = (Normal c, w') /\
    extends w w'
      (sync_events cfg
         (filter (fun kv => negb (dict_mem (fst kv) existing)) items)) [].
Proof.
  revert created w.
  induction items as [|[name url] items IH]; intros created w; simpl.
  - exists created, w. split; [reflexivity | apply extends_refl].
  - destruct (dict_mem name existing) eqn:Hm; simpl.
    + apply IH.
    + destruct (create_monitor_spec cfg E name url w) as (b & w1 & Hc & _ & H1).
      rewrite (bind_normal _ Hc).
      rewrite (bind_normal _ (sleep_eq E 200 w1)).
      destruct (IH (if b then (created + 1)%Z else created)
                   (delivered E (add_event (EvSleep 200) w1)))
        as (c & w2 & Hl & H2).
      exists c, w2. split; [exact Hl|].
      pose proof (extends_trans (extends_trans H1 (sleep_extends E 200 w1)) H2)
        as H.
      simpl in H. exact H.
Qed.

Lemma confirm_loop_spec items domains deleted w :
  exists c w',
    confirm_loop E items domains deleted w = (Normal c, w') /\
    extends w w' (confirm_events (obsolete domains items)) [].
Proof.
  revert deleted w.
  induction items as [|[name data] items IH]; intros deleted w; simpl.
  - exists deleted, w. split; [reflexivity | apply extends_refl].
  - destruct (dict_mem name domains) eqn:Hm; simpl.
    + apply IH.
    + destruct (delete_monitor_spec E (e_id data) name w)
        as (b & w1 & Hc & _ & H1).
      rewrite (bind_normal _ Hc).
      rewrite (bind_normal _ (sleep_eq E 200 w1)).
      destruct (IH (if b then (deleted + 1)%Z else deleted)
                   (delivered E (add_event (EvSleep 200) w1)))
        as (c & w2 & Hl & H2).
      exists c, w2. split; [exact Hl|].
      pose proof (extends_trans (extends_trans H1 (sleep_extends E 200 w1)) H2)
        as H.
      simpl in H. exact H.
Qed.

Lemma preview_loop_spec items domains acc w :
  exists w',
    preview_loop items domains acc w =
      (Normal (acc ++ to_delete_of (obsolete domains items)), w') /\
    extends w w' [] [] /\
    stdout w' =
      stdout w ++
      map (fun t => MsgItem (fst (fst t)) (snd (fst t)) (snd t))
          (to_delete_of (obsolete domains items)).
Proof.
  revert acc w.
  induction items as [|[name data] items IH]; intros acc w; simpl.
  - exists w. rewrite !app_nil_r.
    split; [reflexivity | split; [apply extends_refl | reflexivity]].
  - destruct (dict_mem name domains) eqn:Hm; simpl.
    + apply IH.
    + rewrite (bind_normal _ (print_eq _ w)).
      destruct (IH (acc ++ [(e_id data, name, e_url data)])
                   (add_output (MsgItem (e_id data) name (e_url data)) w))
        as (w2 & Hl & H2 & H3).
      exists w2. rewrite Hl, <- app_assoc. split; [reflexivity|]. split.
      * pose proof (extends_trans
          (print_extends (MsgItem (e_id data) name (e_url data)) w) H2) as H.
        simpl in H. exact H.
      * rewrite H3. simpl. rewrite <- app_assoc. reflexivity.
Qed.

Lemma load_domains_some w text :
  domains_file w = Some text ->
  load_domains w = (Normal (domains_of text), w).
Proof.
  intros H. unfold load_domains, bind, gets. rewrite H. reflexivity.
Qed.

Lemma load_domains_none w :
  domains_file w = None ->
  load_domains w = (SysExit 1, add_output MsgDomainsNotFound w).
Proof.
  intros H. unfold load_domains, bind, gets. rewrite H. reflexivity.
Qed.

Lemma create_set_filter D M :
  filter (fun kv => negb (dict_mem (fst kv) (get_existing_monitors cfg M))) D
  = create_set cfg D M.
Proof.
  unfold create_set. apply filter_ext. intros kv.
  rewrite existing_mem. reflexivity.
Qed.

(** [cmd_sync] when the Domain Source exists: it ends normally, and its
    events are one [add] call and one pause per entry of the create-set. *)
Lemma cmd_sync_spec w text :
  domains_file w = Some text ->
  exists w',
    cmd_sync cfg E w = (Normal tt, w') /\
    extends w w'
      (sync_events cfg (create_set cfg (domains_of text) (monitor_list w)))
      [MsgSyncHeader].
Proof.
  intros Hf. unfold cmd_sync.
  rewrite (bind_normal _ (print_eq _ w)).
  rewrite (bind_normal _ (load_domains_some (add_output MsgSyncHeader w) Hf)).
  unfold gets at 1. unfold bind at 1.
  destruct (sync_loop_spec (domains_of text)
              (get_existing_monitors cfg
                 (monitor_list (add_output MsgSyncHeader w)))
              0%Z (add_output MsgSyncHeader w)) as (c & w1 & Hl & H1).
  rewrite (bind_normal _ Hl).
  rewrite !(bind_normal _ (print_eq _ _)).
  eexists. split; [reflexivity|].
  rewrite create_set_filter in H1.
  pose proof (extends_trans (print_extends MsgSyncHeader w) H1) as H2.
  pose proof (extends_trans H2 (print_extends MsgBlank w1)) as H3.
  pose proof (extends_trans H3 (print_extends (MsgCreatedCount c) _)) as H4.
  pose proof (extends_trans H4
    (print_extends (MsgTotalInFile (List.length (domains_of text))) _)) as H5.
  simpl in H5. rewrite !app_nil_r in H5. exact H5.
Qed.

(** A command that needs the Domain Source, when the file is missing:
    it exits with status 1 after its header, and does nothing else. *)
Lemma cmd_sync_missing w :
  domains_file w = None ->
  exists w', cmd_sync cfg E w = (SysExit 1, w') /\
             extends w w' [] [MsgSyncHeader].
Proof.
  intros Hf. unfold cmd_sync.
  rewrite (bind_normal _ (print_eq _ w)).
  rewrite (bind_exit _ (load_domains_none (add_output MsgSyncHeader w) Hf)).
  eexists. split; [reflexivity|].
  pose proof (extends_trans (print_extends MsgSyncHeader w)
                (print_extends MsgDomainsNotFound _)) as H.
  simpl in H. exact H.
Qed.

Lemma cmd_cleanup_preview_missing w :
  domains_file w = None ->
  exists w', cmd_cleanup_preview cfg w = (SysExit 1, w') /\
             extends w w' [] [MsgPreviewHeader].
Proof.
  intros Hf. unfold cmd_cleanup_preview.
  rewrite (bind_normal _ (print_eq _ w)).
  rewrite (bind_exit _ (load_domains_none (add_output MsgPreviewHeader w) Hf)).
  eexists. split; [reflexivity|].
  pose proof (extends_trans (print_extends MsgPreviewHeader w)
                (print_extends MsgDomainsNotFound _)) as H.
  simpl in H. exact H.
Qed.

Lemma cmd_cleanup_confirm_missing w :
  domains_file w = None ->
  exists w', cmd_cleanup_confirm cfg E w = (SysExit 1, w') /\
             extends w w' [] [MsgConfirmHeader].
Proof.
  intros Hf. unfold cmd_cleanup_confirm.
  rewrite (bind_normal _ (print_eq _ w)).
  rewrite (bind_exit _ (load_domains_none (add_output MsgConfirmHeader w) Hf)).
  eexists. split; [reflexivity|].
  pose proof (extends_trans (print_extends MsgConfirmHeader w)
                (print_extends MsgDomainsNotFound _)) as H.
  simpl in H. exact H.
Qed.

(** [cmd_cleanup_preview] when the Domain Source exists: it ends normally
    without any event, and prints the items of its [to_delete]. *)
Lemma cmd_cleanup_preview_spec w text :
  domains_file w = Some text ->
  exists w',
    cmd_cleanup_preview cfg w = (Normal tt, w') /\
    trace w' = trace w /\
    stdout w' =
      stdout w ++
      MsgPreviewHeader ::
      map (fun t => MsgItem (fst (fst t)) (snd (fst t)) (snd t))
          (to_delete_of
             (obsolete (domains_of text)
                (get_existing_monitors cfg (monitor_list w)))) ++
      [MsgBlank;
       MsgTotalToDelete
         (List.length
            (to_delete_of
               (obsolete (domains_of text)
                  (get_existing_monitors cfg (monitor_list w)))));
       MsgRunConfirm].
Proof.
  intros Hf. unfold cmd_cleanup_preview.
  rewrite (bind_normal _ (print_eq _ w)).
  rewrite (bind_normal _
             (load_domains_some (add_output MsgPreviewHeader w) Hf)).
  unfold gets at 1. unfold bind at 1.
  destruct (preview_loop_spec
              (get_existing_monitors cfg
                 (monitor_list (add_output MsgPreviewHeader w)))
              (domains_of text) [] (add_output MsgPreviewHeader w))
    as (w1 & Hl & (Ht & _ & _) & Hout).
  rewrite (bind_normal _ Hl).
  rewrite !(bind_normal _ (print_eq _ _)).
  eexists. split; [reflexivity|]. simpl. split.
  - rewrite Ht. simpl. apply app_nil_r.
  - rewrite Hout. simpl. rewrite <- !app_assoc. reflexivity.
Qed.

(** [cmd_cleanup_confirm] when the Domain Source exists: it ends normally,
    and its events are one [deleteMonitor] call and one pause per selected
    entry of the directory. *)
Lemma cmd_cleanup_confirm_spec w text :
  domains_file w = Some text ->
  exists w',
    cmd_cleanup_confirm cfg E w = (Normal tt, w') /\
    extends w w'
      (confirm_events
         (obsolete (domains_of text)
            (get_existing_monitors cfg (monitor_list w))))
      [MsgConfirmHeader].
Proof.
  intros Hf. unfold cmd_cleanup_confirm.
  rewrite (bind_normal _ (print_eq _ w)).
  rewrite (bind_normal _
             (load_domains_some (add_output MsgConfirmHeader w) Hf)).
  unfold gets at 1. unfold bind at 1.
  destruct (confirm_loop_spec
              (get_existing_monitors cfg
                 (monitor_list (add_output MsgConfirmHeader w)))
              (domains_of text) 0%Z (add_output MsgConfirmHeader w))
    as (c & w1 & Hl & H1).
  rewrite (bind_normal _ Hl).
  rewrite !(bind_normal _ (print_eq _ _)).
  eexists. split; [reflexivity|].
  pose proof (extends_trans (print_extends MsgConfirmHeader w) H1) as H2.
  pose proof (extends_trans H2 (print_extends MsgBlank w1)) as H3.
  pose proof (extends_trans H3 (print_extends (MsgDeletedCount c) _)) as H4.
  simpl in H4. rewrite !app_nil_r in H4. exact H4.
Qed.

Lemma list_loop_spec items w :
  exists w',
    list_loop items w = (Normal tt, w') /\
    trace w' = trace w /\
    stdout w' =
      stdout w ++
      map (fun ne => MsgItem (e_id (snd ne)) (fst ne) (e_url (snd ne))) items.
Proof.
  revert w. induction items as [|[name data] items IH]; intros w; simpl.
  - exists w. rewrite app_nil_r. auto.
  - rewrite (bind_normal _ (print_eq _ w)).
    destruct (IH (add_output (MsgItem (e_id data) name (e_url data)) w))
      as (w' & Hl & Ht & Ho).
    exists w'. split; [exact Hl|]. split; [exact Ht|].
    rewrite Ho. simpl. rewrite <- app_assoc. reflexivity.
Qed.

(** [cmd_list] always ends normally, without any event, and prints the
    items of the directory in the order of their names. *)
Lemma cmd_list_spec w :
  exists w',
    cmd_list cfg w = (Normal tt, w') /\
    trace w' = trace w /\
    stdout w' =
      stdout w ++
      MsgListHeader (PARENT_GROUP_ID cfg) ::
      map (fun ne => MsgItem (e_id (snd ne)) (fst ne) (e_url (snd ne)))
          (sorted_items (get_existing_monitors cfg (monitor_list w))) ++
      [MsgBlank;
       MsgTotal (List.length (get_existing_monitors cfg (monitor_list w)))].
Proof.
  unfold cmd_list.
  rewrite (bind_normal _ (print_eq _ w)).
  unfold gets at 1. unfold bind at 1.
  destruct (list_loop_spec
              (sorted_items
                 (get_existing_monitors cfg
                    (monitor_list
                       (add_output (MsgListHeader (PARENT_GROUP_ID cfg)) w))))
              (add_output (MsgListHeader (PARENT_GROUP_ID cfg)) w))
    as (w1 & Hl & Ht & Ho).
  rewrite (bind_normal _ Hl).
  rewrite !(bind_normal _ (print_eq _ _)).
  eexists. split; [reflexivity|]. simpl. split; [exact Ht|].
  rewrite Ho. simpl. rewrite <- !app_assoc. reflexivity.
Qed.

End CommandLemmas.

(* ------------------------------------------------------------------------- *)
(** ** Counting lemmas *)
(* ------------------------------------------------------------------------- *)

Lemma name_in_filtered_iff cfg n M :
  name_in_filtered cfg n M = true <->
  exists id m, In (id, m) M /\ in_group cfg m = true /\ m_name m = n.
Proof.
  unfold name_in_filtered, filtered. rewrite existsb_exists. split.
  - intros ([id m] & Hin & Hn). apply filter_In in Hin.
    destruct Hin as [Hin Hg].
    apply str_eqb_eq in Hn. exists id, m. auto.
  - intros (id & m & Hin & Hg & Hn). exists (id, m). split.
    + apply filter_In. auto.
    + simpl. apply str_eqb_eq. exact Hn.
Qed.

Lemma in_group_iff cfg m :
  in_group cfg m = true <->
  m_parent m = Some (PARENT_GROUP_ID cfg) /\ m_type m = Some (py "http").
Proof.
  unfold in_group. rewrite andb_true_iff.
  destruct (m_parent m) as [p|], (m_type m) as [t|];
    try (split; [intros [? ?]; discriminate | intros [? ?]; discriminate]).
  rewrite Z.eqb_eq, str_eqb_eq.
  split; [intros [-> ->]; auto | intros [[= ->] [= ->]]; auto].
Qed.

Lemma count_occ_filter (q : str -> bool) l n :
  count_occ str_eq_dec (filter q l) n =
  if q n then count_occ str_eq_dec l n else 0.
Proof.
  induction l as [|x l IH]; simpl; [destruct (q n); reflexivity|].
  destruct (q x) eqn:Hx; simpl; destruct (str_eq_dec x n) as [->|Hne];
    rewrite ?IH, ?Hx; try reflexivity; try contradiction.
Qed.

Lemma count_occ_NoDup_mem V (d : dict V) n :
  NoDup (dict_keys d) ->
  count_occ str_eq_dec (dict_keys d) n = if dict_mem n d then 1 else 0.
Proof.
  intros Hnd. destruct (dict_mem n d) eqn:Hm.
  - apply dict_mem_In in Hm.
    apply (proj1 (NoDup_count_occ' str_eq_dec (dict_keys d)) Hnd n Hm).
  - apply dict_mem_false in Hm. apply count_occ_not_In. exact Hm.
Qed.

Lemma map_fst_filter A B (q : A -> bool) (l : list (A * B)) :
  map fst (filter (fun kv => q (fst kv)) l) = filter q (map fst l).
Proof.
  induction l as [|[a b] l IH]; simpl; [reflexivity|].
  destruct (q a); simpl; rewrite IH; reflexivity.
Qed.

Lemma filter_none A (p : A -> bool) (l : list A) :
  (forall x, In x l -> p x = false) -> filter p l = [].
Proof.
  induction l as [|x l IH]; intros H; simpl; [reflexivity|].
  rewrite (H x (or_introl eq_refl)). apply IH.
  intros y Hy. apply H. right. exact Hy.
Qed.

Lemma create_calls_app a b :
  create_calls (a ++ b) = create_calls a ++ create_calls b.
Proof. apply flat_map_app. Qed.

Lemma delete_calls_app a b :
  delete_calls (a ++ b) = delete_calls a ++ delete_calls b.
Proof. apply flat_map_app. Qed.

Lemma rpc_calls_app a b : rpc_calls (a ++ b) = rpc_calls a ++ rpc_calls b.
Proof. apply flat_map_app. Qed.

Lemma connects_app a b : connects (a ++ b) = connects a ++ connects b.
Proof. apply flat_map_app. Qed.

Lemma calls_named_app n a b :
  calls_named n (a ++ b) = calls_named n a ++ calls_named n b.
Proof. apply flat_map_app. Qed.

Lemma create_calls_sync_events cfg items :
  create_calls (sync_events cfg items) = map fst items.
Proof.
  induction items as [|[n u] items IH]; simpl; [reflexivity|].
  rewrite IH. reflexivity.
Qed.

Lemma delete_calls_sync_events cfg items :
  delete_calls (sync_events cfg items) = [].
Proof. induction items as [|[n u] items IH]; simpl; auto. Qed.

Lemma delete_calls_confirm_events items :
  delete_calls (confirm_events items) = map (fun ne => e_id (snd ne)) items.
Proof.
  induction items as [|[n e] items IH]; simpl; [reflexivity|].
  rewrite IH. reflexivity.
Qed.

Lemma create_calls_confirm_events items :
  create_calls (confirm_events items) = [].
Proof. induction items as [|[n e] items IH]; simpl; auto. Qed.

Lemma rpc_calls_sync_events cfg items :
  rpc_calls (sync_events cfg items) =
  map (fun kv => (py "add",
                  PMonitor (build_monitor_data cfg (fst kv) (snd kv)))) items.
Proof.
  induction items as [|[n u] items IH]; simpl; [reflexivity|].
  rewrite <- IH. reflexivity.
Qed.

Lemma rpc_calls_confirm_events items :
  rpc_calls (confirm_events items) =
  map (fun ne => (py "deleteMonitor", PMonitorId (e_id (snd ne)))) items.
Proof.
  induction items as [|[n e] items IH]; simpl; [reflexivity|].
  rewrite <- IH. reflexivity.
Qed.

Lemma In_sync_events cfg items d :
  In (EvCall (py "add") (PMonitor d)) (sync_events cfg items) <->
  exists n u, In (n, u) items /\ d = build_monitor_data cfg n u.
Proof.
  induction items as [|[n u] items IH]; simpl.
  - split; [tauto | intros (? & ? & [] & _)].
  - rewrite IH. split.
    + intros [H|[H|(n' & u' & Hin & Hd)]]; try discriminate.
      * injection H as <-. exists n, u. auto.
      * exists n', u'. auto.
    + intros (n' & u' & [[= <- <-]|Hin] & ->); [left; reflexivity|].
      right. right. exists n', u'. auto.
Qed.

(* ------------------------------------------------------------------------- *)
(** ** Lemmas on the entries selected for deletion *)
(* ------------------------------------------------------------------------- *)

Lemma NoDup_fst_functional A B (l : list (A * B)) a x y :
  NoDup (map fst l) -> In (a, x) l -> In (a, y) l -> x = y.
Proof.
  induction l as [|[a' b'] l IH]; simpl; [tauto|].
  intros Hnd Hx Hy. inversion Hnd as [|? ? Hnotin Hnd']; subst.
  destruct Hx as [Hx|Hx], Hy as [Hy|Hy].
  - congruence.
  - injection Hx as -> ->. exfalso. apply Hnotin.
    apply (in_map fst) in Hy. exact Hy.
  - injection Hy as -> ->. exfalso. apply Hnotin.
    apply (in_map fst) in Hx. exact Hx.
  - apply IH; assumption.
Qed.

Lemma option_Z_eq_dec (a b : option Z) : {a = b} + {a <> b}.
Proof. decide equality. apply Z.eq_dec. Defined.

Section ObsoleteLemmas.

Variable cfg : config.

(** The items of the directory are the last monitors of their names. *)
Lemma existing_In n e M :
  In (n, e) (get_existing_monitors cfg M) <->
  exists im, last_named cfg n M = Some im /\ e = entry_of im.
Proof.
  split.
  - intros Hin.
    apply (dict_In_get _ _ _ (existing_NoDup cfg M)) in Hin.
    rewrite existing_get in Hin.
    destruct (last_named cfg n M) as [im|]; [|discriminate].
    injection Hin as <-. exists im. auto.
  - intros (im & Hl & ->). apply dict_get_In.
    rewrite existing_get, Hl. reflexivity.
Qed.

Lemma obsolete_In D n e M :
  In (n, e) (obsolete D (get_existing_monitors cfg M)) <->
  dict_mem n D = false /\
  exists im, last_named cfg n M = Some im /\ e = entry_of im.
Proof.
  unfold obsolete. rewrite filter_In, existing_In. simpl.
  rewrite negb_true_iff. tauto.
Qed.

Lemma obsolete_NoDup D M :
  NoDup (dict_keys (obsolete D (get_existing_monitors cfg M))).
Proof.
  unfold obsolete, dict_keys.
  rewrite (map_fst_filter (fun k => negb (dict_mem k D))).
  apply NoDup_filter. apply existing_NoDup.
Qed.

(** In a snapshot with distinct identifiers, two items of the directory
    with the same identifier are the same item. *)
Lemma existing_id_inj M x y :
  NoDup (map fst M) ->
  In x (get_existing_monitors cfg M) ->
  In y (get_existing_monitors cfg M) ->
  e_id (snd x) = e_id (snd y) -> x = y.
Proof.
  intros Hnd Hx Hy Hid. destruct x as [n1 e1], y as [n2 e2]. simpl in Hid.
  apply existing_In in Hx. apply existing_In in Hy.
  destruct Hx as ([i1 m1] & H1 & ->), Hy as ([i2 m2] & H2 & ->).
  simpl in Hid. subst i2.
  apply last_named_In in H1. apply last_named_In in H2.
  destruct H1 as (In1 & _ & <-), H2 as (In2 & _ & <-). simpl.
  rewrite (NoDup_fst_functional _ _ _ _ Hnd In1 In2). reflexivity.
Qed.

Lemma obsolete_ids_NoDup D M :
  NoDup (map fst M) ->
  NoDup (map (fun ne => e_id (snd ne))
             (obsolete D (get_existing_monitors cfg M))).
Proof.
  intros Hnd. apply NoDup_map_NoDup_ForallPairs.
  - intros x y Hx Hy Hid. unfold obsolete in Hx, Hy.
    apply filter_In in Hx. apply filter_In in Hy.
    apply (existing_id_inj M x y Hnd); tauto.
  - unfold obsolete. apply NoDup_filter.
    apply (NoDup_map_inv fst). apply existing_NoDup.
Qed.

Lemma in_group_false_iff m :
  in_group cfg m = false <->
  m_parent m <> Some (PARENT_GROUP_ID cfg) \/ m_type m <> Some (py "http").
Proof.
  split.
  - intros H.
    destruct (option_Z_eq_dec (m_parent m) (Some (PARENT_GROUP_ID cfg)))
      as [Hp|Hp];
      [|left; exact Hp].
    right. intros Ht.
    assert (in_group cfg m = true) by (apply in_group_iff; auto).
    congruence.
  - intros H. destruct (in_group cfg m) eqn:Hg; [|reflexivity].
    apply in_group_iff in Hg. tauto.
Qed.

(** When the filtered monitors have distinct names, each of them is the
    last of its name. *)
Lemma last_named_unique M im :
  NoDup (map (fun x => m_name (snd x)) (filtered cfg M)) ->
  In im M -> in_group cfg (snd im) = true ->
  last_named cfg (m_name (snd im)) M = Some im.
Proof.
  induction M as [|x M IH]; simpl; [tauto|].
  intros Hnd [Hx|Hin] Hg.
  - subst x. rewrite Hg in Hnd. simpl in Hnd.
    inversion Hnd as [|? ? Hnot _]; subst.
    destruct (last_named cfg (m_name (snd im)) M) as [y|] eqn:Hl.
    + exfalso. apply Hnot. apply last_named_In in Hl.
      destruct Hl as (Hy & Hgy & Hn). rewrite <- Hn.
      apply (in_map (fun x => m_name (snd x))).
      apply filter_In. auto.
    + rewrite Hg, str_eqb_refl. reflexivity.
  - assert (Hnd' : NoDup (map (fun x => m_name (snd x)) (filtered cfg M))).
    { destruct (in_group cfg (snd x)); [|exact Hnd].
      simpl in Hnd. inversion Hnd; assumption. }
    rewrite (IH Hnd' Hin Hg). reflexivity.
Qed.

(** A monitor that fails the filter can be taken out of the snapshot. *)
Lemma existing_drop M1 im M2 :
  in_group cfg (snd im) = false ->
  get_existing_monitors cfg (M1 ++ im :: M2) =
  get_existing_monitors cfg (M1 ++ M2).
Proof.
  intros Hg.
  rewrite (existing_filtered cfg (M1 ++ im :: M2)),
          (existing_filtered cfg (M1 ++ M2)).
  unfold filtered. rewrite !filter_app. simpl. rewrite Hg. reflexivity.
Qed.

End ObsoleteLemmas.

(* ------------------------------------------------------------------------- *)
(** ** Lemmas on what a run adds, and on URLs *)
(* ------------------------------------------------------------------------- *)

Lemma issued_eq A (p : prog A) w evs :
  trace (snd (p w)) = trace w ++ evs -> issued p w = evs.
Proof.
  intros H. unfold issued. rewrite H, skipn_app, skipn_all, Nat.sub_diag.
  reflexivity.
Qed.

Lemma printed_eq A (p : prog A) w out :
  stdout (snd (p w)) = stdout w ++ out -> printed p w = out.
Proof.
  intros H. unfold printed. rewrite H, skipn_app, skipn_all, Nat.sub_diag.
  reflexivity.
Qed.

Lemma listed_app a b : listed (a ++ b) = listed a ++ listed b.
Proof. apply flat_map_app. Qed.

Lemma listed_items (ds : list (str * entry)) :
  listed (map (fun ne => MsgItem (e_id (snd ne)) (fst ne) (e_url (snd ne))) ds)
  = map (fun ne => (e_id (snd ne), fst ne)) ds.
Proof. induction ds as [|x ds IH]; simpl; [|rewrite IH]; reflexivity. Qed.

Lemma dict_mem_keys V (d : dict V) k :
  dict_mem k d = existsb (fun k' => str_eqb k' k) (dict_keys d).
Proof.
  unfold dict_mem, dict_keys. induction d as [|x d IH]; simpl;
    [|rewrite IH]; reflexivity.
Qed.

Lemma dict_mem_same_keys V W (d : dict V) (d' : dict W) k :
  dict_keys d = dict_keys d' -> dict_mem k d = dict_mem k d'.
Proof. intros H. rewrite !dict_mem_keys, H. reflexivity. Qed.

Lemma map_filter_related A B C (f : A -> C) (g : B -> C)
      (p : A -> bool) (q : B -> bool) l1 l2 :
  map f l1 = map g l2 ->
  (forall x y, f x = g y -> p x = q y) ->
  map f (filter p l1) = map g (filter q l2).
Proof.
  intros Hm Hpq. revert l2 Hm.
  induction l1 as [|x l1 IH]; intros [|y l2] Hm; simpl in *;
    try discriminate; [reflexivity|].
  injection Hm as Hxy Hm. rewrite (Hpq x y Hxy).
  destruct (q y); simpl; rewrite ?Hxy; rewrite (IH l2 Hm); reflexivity.
Qed.

Lemma dict_set_entry_key k v1 v2 (d1 d2 : dict entry) :
  map entry_key d1 = map entry_key d2 ->
  e_id v1 = e_id v2 ->
  map entry_key (dict_set k v1 d1) = map entry_key (dict_set k v2 d2).
Proof.
  intros Hm Hv. revert d2 Hm.
  induction d1 as [|[k1 x1] d1 IH]; intros [|[k2 x2] d2] Hm; simpl in *;
    try discriminate.
  - unfold entry_key. simpl. rewrite Hv. reflexivity.
  - injection Hm as Hk Hx Hm. subst k2.
    destruct (str_eqb k1 k); simpl; unfold entry_key at 1 3; simpl.
    + rewrite Hv, Hm. reflexivity.
    + rewrite Hx, (IH d2 Hm). reflexivity.
Qed.

Section UrlLemmas.

Variable cfg : config.

Lemma in_group_without_url x y :
  without_url x = without_url y ->
  in_group cfg (snd x) = in_group cfg (snd y).
Proof.
  unfold without_url, in_group. intros [= _ _ -> ->]. reflexivity.
Qed.

Lemma fold_existing_without_url M1 M2 acc1 acc2 :
  map without_url M1 = map without_url M2 ->
  map entry_key acc1 = map entry_key acc2 ->
  map entry_key (fold_left (existing_step cfg) M1 acc1) =
  map entry_key (fold_left (existing_step cfg) M2 acc2).
Proof.
  revert M2 acc1 acc2.
  induction M1 as [|x M1 IH]; intros [|y M2] acc1 acc2 HM Hacc;
    cbn [map fold_left] in *; try discriminate; [assumption|].
  assert (Hxy : without_url x = without_url y)
    by (apply (f_equal (hd (without_url x))) in HM; exact HM).
  assert (HM' : map without_url M1 = map without_url M2)
    by (apply (f_equal (@tl _)) in HM; exact HM).
  apply IH; [assumption|].
  unfold existing_step. rewrite (@in_group_without_url x y Hxy).
  destruct (in_group cfg (snd y)); [|assumption].
  assert (Hn : m_name (snd x) = m_name (snd y))
    by (unfold without_url in Hxy; congruence).
  rewrite Hn. apply dict_set_entry_key; [assumption|].
  unfold entry_of. simpl. unfold without_url in Hxy. congruence.
Qed.

(** The names and identifiers of the directory do not depend on the URLs
    of the snapshot. *)
Lemma existing_without_url M1 M2 :
  map without_url M1 = map without_url M2 ->
  map entry_key (get_existing_monitors cfg M1) =
  map entry_key (get_existing_monitors cfg M2).
Proof.
  intros H. rewrite !get_existing_monitors_fold.
  apply fold_existing_without_url; [assumption | reflexivity].
Qed.

Lemma entry_key_keys (d : dict entry) : map fst (map entry_key d) = dict_keys d.
Proof. rewrite map_map. reflexivity. Qed.

Lemma entry_key_ids (d : dict entry) :
  map snd (map entry_key d) = map (fun ne => e_id (snd ne)) d.
Proof. rewrite map_map. reflexivity. Qed.

Lemma name_in_filtered_without_url n M1 M2 :
  map without_url M1 = map without_url M2 ->
  name_in_filtered cfg n M1 = name_in_filtered cfg n M2.
Proof.
  intros H. rewrite <- !existing_mem. apply dict_mem_same_keys.
  rewrite <- !entry_key_keys, (@existing_without_url M1 M2 H). reflexivity.
Qed.

Lemma create_set_without_url D1 D2 M1 M2 :
  dict_keys D1 = dict_keys D2 ->
  map without_url M1 = map without_url M2 ->
  map fst (create_set cfg D1 M1) = map fst (create_set cfg D2 M2).
Proof.
  intros HD HM. unfold create_set. apply map_filter_related; [exact HD|].
  intros x y Hxy. rewrite Hxy.
  rewrite (@name_in_filtered_without_url (fst y) M1 M2 HM). reflexivity.
Qed.

Lemma obsolete_without_url (D1 D2 : dict str) M1 M2 :
  dict_keys D1 = dict_keys D2 ->
  map without_url M1 = map without_url M2 ->
  map entry_key (obsolete D1 (get_existing_monitors cfg M1)) =
  map entry_key (obsolete D2 (get_existing_monitors cfg M2)).
Proof.
  intros HD HM. unfold obsolete. apply map_filter_related.
  - apply existing_without_url. exact HM.
  - intros x y Hxy. unfold entry_key in Hxy.
    injection Hxy as Hn _. rewrite Hn.
    rewrite (@dict_mem_same_keys _ _ D1 D2 (fst y) HD). reflexivity.
Qed.

(** No obsolete item bears the identifier of a monitor whose name is a
    key of the mapping. *)
Lemma obsolete_spares_listed (D : dict str) M id m :
  NoDup (map fst M) ->
  In (id, m) M ->
  dict_mem (m_name m) D = true ->
  ~ In id (map (fun ne => e_id (snd ne))
               (obsolete D (get_existing_monitors cfg M))).
Proof.
  intros Hnd Hin Hmem Hcall.
  apply in_map_iff in Hcall. destruct Hcall as ([n e] & Hid & Hds).
  simpl in Hid. apply obsolete_In in Hds.
  destruct Hds as (Hout & [i2 m2] & Hl & ->). simpl in Hid. subst i2.
  apply last_named_In in Hl. destruct Hl as (Hin2 & _ & Hn). simpl in Hn.
  rewrite (NoDup_fst_functional _ _ _ _ Hnd Hin Hin2) in Hmem.
  rewrite Hn in Hmem. congruence.
Qed.

End UrlLemmas.

(* ------------------------------------------------------------------------- *)
(** ** What each command adds *)
(* ------------------------------------------------------------------------- *)

Section Added.

Variable cfg : config.
Variable E : env.

Lemma sync_issued w text :
  domains_file w = Some text ->
  issued (cmd_sync cfg E) w =
  sync_events cfg (create_set cfg (domains_of text) (monitor_list w)).
Proof.
  intros Hf. destruct (cmd_sync_spec cfg E w Hf) as (w' & Hrun & Ht & _).
  apply issued_eq. rewrite Hrun. exact Ht.
Qed.

Lemma confirm_issued w text :
  domains_file w = Some text ->
  issued (cmd_cleanup_confirm cfg E) w =
  confirm_events
    (obsolete (domains_of text) (get_existing_monitors cfg (monitor_list w))).
Proof.
  intros Hf.
  destruct (cmd_cleanup_confirm_spec cfg E w Hf) as (w' & Hrun & Ht & _).
  apply issued_eq. rewrite Hrun. exact Ht.
Qed.

Lemma preview_listed w text :
  domains_file w = Some text ->
  listed (printed (cmd_cleanup_preview cfg) w) =
  map (fun ne => (e_id (snd ne), fst ne))
    (obsolete (domains_of text) (get_existing_monitors cfg (monitor_list w))).
Proof.
  intros Hf.
  destruct (cmd_cleanup_preview_spec cfg w Hf) as (w' & Hrun & _ & Hout).
  rewrite (@printed_eq _ (cmd_cleanup_preview cfg) w _
             ltac:(rewrite Hrun; exact Hout)).
  change (MsgPreviewHeader :: ?l) with ([MsgPreviewHeader] ++ l).
  rewrite !listed_app. simpl. rewrite app_nil_r.
  unfold to_delete_of. rewrite map_map. simpl.
  apply listed_items.
Qed.

Lemma preview_printed w text :
  domains_file w = Some text ->
  printed (cmd_cleanup_preview cfg) w =
  MsgPreviewHeader ::
  map (fun t => MsgItem (fst (fst t)) (snd (fst t)) (snd t))
      (to_delete_of
         (obsolete (domains_of text)
            (get_existing_monitors cfg (monitor_list w)))) ++
  [MsgBlank;
   MsgTotalToDelete
     (List.length
        (to_delete_of
           (obsolete (domains_of text)
              (get_existing_monitors cfg (monitor_list w)))));
   MsgRunConfirm].
Proof.
  intros Hf.
  destruct (cmd_cleanup_preview_spec cfg w Hf) as (w' & Hrun & _ & Hout).
  apply printed_eq. rewrite Hrun. exact Hout.
Qed.

Lemma list_printed w :
  printed (cmd_list cfg) w =
  MsgListHeader (PARENT_GROUP_ID cfg) ::
  map (fun ne => MsgItem (e_id (snd ne)) (fst ne) (e_url (snd ne)))
      (sorted_items (get_existing_monitors cfg (monitor_list w))) ++
  [MsgBlank;
   MsgTotal (List.length (get_existing_monitors cfg (monitor_list w)))].
Proof.
  destruct (cmd_list_spec cfg w) as (w' & Hrun & _ & Hout).
  apply printed_eq. rewrite Hrun. exact Hout.
Qed.

End Added.

(* ------------------------------------------------------------------------- *)
(** ** Lemmas on authentication *)
(* ------------------------------------------------------------------------- *)

Ltac run_script :=
  unfold authenticate, load_jwt, save_jwt, call_with_callback, sio_call,
    deliver, bind, gets, modify, print, ret, sys_exit; simpl.

Lemma lstrip_blank s : forallb isspace s = true -> lstrip s = [].
Proof.
  induction s as [|c s IH]; simpl; [reflexivity|].
  intros H. apply andb_true_iff in H. destruct H as [Hc H].
  rewrite Hc. apply IH. exact H.
Qed.

(** A text of white space strips to the empty string. *)
Lemma strip_blank s : forallb isspace s = true -> strip s = [].
Proof. intros H. unfold strip. rewrite (lstrip_blank s H). reflexivity. Qed.

Section AuthLemmas.

Variable cfg : config.
Variable E : env.

(** The stored token is accepted: one token login, and nothing else. *)
Lemma authenticate_by_token w t :
  stored_token w = Some t ->
  response_ok (token_answer E w t) = true ->
  exists w',
    authenticate cfg E w = (Normal true, w') /\
    trace w' = trace w ++ [EvCall (py "loginByToken") (PToken t)] /\
    jwt_file w' = jwt_file w /\
    authenticated w' = true.
Proof.
  unfold stored_token, token_answer. intros Ht Hok.
  destruct (jwt_file w) as [text|] eqn:Hf; [|discriminate].
  destruct (truthy (strip text)) eqn:Htr; [|discriminate].
  injection Ht as <-.
  run_script. rewrite Hf. simpl. rewrite Htr. simpl.
  destruct (env_call E (trace w) (py "loginByToken") (PToken (strip text)))
    as [r| |e]; simpl in *; try discriminate.
  rewrite Hok.
  destruct (env_push E _); simpl; eexists; repeat split; assumption.
Qed.

(** The stored token is absent or refused: without credentials the
    process exits; with them there is one credential login, and its answer
    decides. *)
Lemma authenticate_fallback w :
  (forall t, stored_token w = Some t ->
             response_ok (token_answer E w t) = false) ->
  exists r w',
    authenticate cfg E w = (r, w') /\
    if configured cfg then
      trace w' =
        trace w ++ token_events w ++ [EvCall (py "login") (credentials cfg)] /\
      if response_ok (login_answer cfg E w) then
        r = Normal true /\
        jwt_file w' =
          match response_token (login_answer cfg E w) with
          | Some t' => Some t'
          | None => jwt_file w
          end
      else r = SysExit 1 /\ jwt_file w' = jwt_file w
    else
      r = SysExit 1 /\
      trace w' = trace w ++ token_events w /\
      jwt_file w' = jwt_file w.
Proof.
  unfold stored_token, token_answer, login_answer, token_events, configured,
    credentials, stored_token.
  intros Hno.
  destruct (jwt_file w) as [text|] eqn:Hf.
  - destruct (truthy (strip text)) eqn:Htr.
    + specialize (Hno (strip text) eq_refl).
      run_script. rewrite Hf. simpl. rewrite Htr. simpl.
      destruct (env_call E (trace w) (py "loginByToken")
                  (PToken (strip text))) as [r0| |e0]; simpl in *;
        rewrite ?Hno; simpl;
        destruct (env_push E (trace w ++ _)); simpl;
        destruct (truthy (USERNAME cfg)), (truthy (PASSWORD cfg)); simpl;
        try (do 2 eexists; split; [reflexivity|];
             rewrite ?app_nil_r; auto; fail);
        rewrite <- ?app_assoc; simpl;
        match goal with
        | |- context [env_call E ?tr ?n ?d] =>
            destruct (env_call E tr n d) as [r1| |e1]
        end; simpl;
        try destruct (response_ok r1) eqn:Hok1; simpl;
        try destruct (response_token r1) eqn:Htok1; simpl;
        repeat match goal with
               | |- context [env_push E ?tr] => destruct (env_push E tr)
               end; simpl;
        do 2 eexists; (split; [reflexivity|]); simpl;
        rewrite <- ?app_assoc; simpl; auto.
    + run_script. rewrite Hf. simpl. rewrite Htr. simpl.
      destruct (truthy (USERNAME cfg)), (truthy (PASSWORD cfg)); simpl;
        try (do 2 eexists; split; [reflexivity|];
             rewrite ?app_nil_r; auto; fail);
        rewrite ?app_nil_r;
        match goal with
        | |- context [env_call E ?tr ?n ?d] =>
            destruct (env_call E tr n d) as [r1| |e1]
        end; simpl;
        try destruct (response_ok r1) eqn:Hok1; simpl;
        try destruct (response_token r1) eqn:Htok1; simpl;
        repeat match goal with
               | |- context [env_push E ?tr] => destruct (env_push E tr)
               end; simpl;
        do 2 eexists; (split; [reflexivity|]); simpl; auto.
  - run_script. rewrite Hf. simpl.
    destruct (truthy (USERNAME cfg)), (truthy (PASSWORD cfg)); simpl;
      try (do 2 eexists; split; [reflexivity|];
           rewrite ?app_nil_r; auto; fail);
      rewrite ?app_nil_r;
      match goal with
      | |- context [env_call E ?tr ?n ?d] =>
          destruct (env_call E tr n d) as [r1| |e1]
      end; simpl;
      try destruct (response_ok r1) eqn:Hok1; simpl;
      try destruct (response_token r1) eqn:Htok1; simpl;
      repeat match goal with
             | |- context [env_push E ?tr] => destruct (env_push E tr)
             end; simpl;
      do 2 eexists; (split; [reflexivity|]); simpl; auto.
Qed.

(** Whatever happens, [authenticate] ends with [True] or exits with
    status 1, issues logins only, prints neither a header nor the message
    of the missing file, and leaves the Domain Source alone. *)
Lemma authenticate_frame w :
  exists r w' levs out,
    authenticate cfg E w = (r, w') /\
    (r = Normal true \/ r = SysExit 1) /\
    trace w' = trace w ++ levs /\
    forallb is_login levs = true /\
    stdout w' = stdout w ++ out /\
    forallb (fun m => negb (is_header m) && negb (is_not_found m)) out
      = true /\
    domains_file w' = domains_file w.
Proof.
  run_script.
  destruct (jwt_file w) as [text|]; simpl;
    [destruct (truthy (strip text)); simpl;
     [destruct (env_call E (trace w) (py "loginByToken")
                  (PToken (strip text))) as [r0| |e0]; simpl;
      try destruct (response_ok r0); simpl;
      destruct (env_push E (trace w ++ _)); simpl | ] | ];
    destruct (truthy (USERNAME cfg)), (truthy (PASSWORD cfg)); simpl;
    repeat match goal with
           | |- context [env_call E ?tr ?n ?d] =>
               destruct (env_call E tr n d) as [r1| |e1]; simpl
           end;
    try destruct (response_ok r1); simpl;
    try destruct (response_token r1); simpl;
    repeat match goal with
           | |- context [env_push E ?tr] => destruct (env_push E tr); simpl
           end;
    do 4 eexists; (split; [reflexivity|]); simpl;
    rewrite <- ?app_assoc; simpl;
    (split; [first [left; reflexivity | right; reflexivity]|]);
    (split; [first [reflexivity | symmetry; apply app_nil_r]|]);
    (split; [reflexivity|]);
    (split; [first [reflexivity | symmetry; apply app_nil_r]|]);
    split; reflexivity.
Qed.

(** With a token file of white space, [authenticate] does what it does
    without a token file; only the file itself, when it is not written,
    and the global [jwt_token] keep the difference. *)
Lemma authenticate_blank w text :
  jwt_file w = Some text ->
  forallb isspace text = true ->
  fst (authenticate cfg E w) = fst (authenticate cfg E (set_jwt_file None w)) /\
  trace (snd (authenticate cfg E w)) =
    trace (snd (authenticate cfg E (set_jwt_file None w))) /\
  stdout (snd (authenticate cfg E w)) =
    stdout (snd (authenticate cfg E (set_jwt_file None w))) /\
  authenticated (snd (authenticate cfg E w)) =
    authenticated (snd (authenticate cfg E (set_jwt_file None w))) /\
  jwt_file (snd (authenticate cfg E w)) =
    match jwt_file (snd (authenticate cfg E (set_jwt_file None w))) with
    | Some t => Some t
    | None => Some text
    end /\
  exists evs,
    trace (snd (authenticate cfg E w)) = trace w ++ evs /\
    (evs = [] \/ evs = [EvCall (py "login") (credentials cfg)]).
Proof.
  intros Hf Hb. run_script. rewrite Hf. simpl.
  rewrite (strip_blank text Hb). simpl.
  destruct (truthy (USERNAME cfg)), (truthy (PASSWORD cfg)); simpl;
    try (repeat split; try reflexivity; try exact Hf;
         exists []; rewrite app_nil_r; auto; fail);
    destruct (env_call E (trace w) (py "login")
                (PLogin (USERNAME cfg) (PASSWORD cfg) (py "")))
      as [r1| |e1]; simpl;
    try destruct (response_ok r1); simpl;
    try destruct (response_token r1); simpl;
    repeat match goal with
           | |- context [env_push E ?tr] => destruct (env_push E tr); simpl
           end;
    repeat split; try reflexivity; try exact Hf;
    (eexists; split; [reflexivity | right; reflexivity]).
Qed.

End AuthLemmas.

(* ------------------------------------------------------------------------- *)
(** ** Lemmas on the four modes and on [main] *)
(* ------------------------------------------------------------------------- *)

Lemma headers_items (items : list (str * entry)) :
  headers
    (map (fun ne => MsgItem (e_id (snd ne)) (fst ne) (e_url (snd ne))) items)
  = [].
Proof. induction items as [|x items IH]; simpl; auto. Qed.

Lemma extends_added A (p : prog A) w r w' evs hs :
  p w = (r, w') -> extends w w' evs hs ->
  issued p w = evs /\ headers (printed p w) = hs.
Proof.
  intros Hrun (Ht & (out & Ho & Hh) & _). split.
  - apply issued_eq. rewrite Hrun. exact Ht.
  - rewrite (@printed_eq _ p w out ltac:(rewrite Hrun; exact Ho)). exact Hh.
Qed.

Lemma logins_are_no_mutation evs :
  forallb is_login evs = true ->
  create_calls evs = [] /\ delete_calls evs = [] /\ connects evs = [].
Proof.
  induction evs as [|e evs IH]; simpl; [auto|].
  intros H. apply andb_true_iff in H. destruct H as [He H].
  destruct (IH H) as (Hc & Hd & Hk).
  destruct e as [u|name data|ms|]; simpl in He; try discriminate.
  apply orb_true_iff in He.
  destruct He as [He|He]; apply str_eqb_eq in He; subst name;
    destruct data; simpl; auto.
Qed.

Section MainLemmas.

Variable cfg : config.
Variable E : env.

Lemma cmd_sync_frame w :
  exists r w' evs,
    cmd_sync cfg E w = (r, w') /\ extends w w' evs [MsgSyncHeader].
Proof.
  destruct (domains_file w) as [text|] eqn:Hf.
  - destruct (cmd_sync_spec cfg E w Hf) as (w' & Hrun & Hx).
    eauto 6.
  - destruct (cmd_sync_missing cfg E w Hf) as (w' & Hrun & Hx).
    eauto 6.
Qed.

Lemma cmd_cleanup_confirm_frame w :
  exists r w' evs,
    cmd_cleanup_confirm cfg E w = (r, w') /\
    extends w w' evs [MsgConfirmHeader].
Proof.
  destruct (domains_file w) as [text|] eqn:Hf.
  - destruct (cmd_cleanup_confirm_spec cfg E w Hf) as (w' & Hrun & Hx).
    eauto 6.
  - destruct (cmd_cleanup_confirm_missing cfg E w Hf) as (w' & Hrun & Hx).
    eauto 6.
Qed.

Lemma cmd_cleanup_preview_frame w :
  exists r w' evs,
    cmd_cleanup_preview cfg w = (r, w') /\
    extends w w' evs [MsgPreviewHeader].
Proof.
  destruct (domains_file w) as [text|] eqn:Hf.
  - unfold cmd_cleanup_preview.
    rewrite (bind_normal _ (print_eq _ w)).
    rewrite (bind_normal _
               (load_domains_some (add_output MsgPreviewHeader w) Hf)).
    unfold gets at 1. unfold bind at 1.
    destruct (preview_loop_spec
                (get_existing_monitors cfg
                   (monitor_list (add_output MsgPreviewHeader w)))
                (domains_of text) [] (add_output MsgPreviewHeader w))
      as (w1 & Hl & H1 & _).
    rewrite (bind_normal _ Hl).
    rewrite !(bind_normal _ (print_eq _ _)).
    do 3 eexists. split; [reflexivity|].
    pose proof (extends_trans (print_extends MsgPreviewHeader w) H1) as H2.
    pose proof (extends_trans H2 (print_extends MsgBlank w1)) as H3.
    pose proof (extends_trans H3
      (print_extends (MsgTotalToDelete
         (List.length
            ([] ++ to_delete_of
               (obsolete (domains_of text)
                  (get_existing_monitors cfg
                     (monitor_list (add_output MsgPreviewHeader w))))))) _))
      as H4.
    pose proof (extends_trans H4 (print_extends MsgRunConfirm _)) as H5.
    simpl in H5. exact H5.
  - destruct (cmd_cleanup_preview_missing cfg w Hf) as (w' & Hrun & Hx).
    eauto 6.
Qed.

Lemma list_loop_extends items w :
  exists w', list_loop items w = (Normal tt, w') /\ extends w w' [] [].
Proof.
  revert w. induction items as [|[name data] items IH]; intros w; simpl.
  - exists w. split; [reflexivity | apply extends_refl].
  - rewrite (bind_normal _ (print_eq _ w)).
    destruct (IH (add_output (MsgItem (e_id data) name (e_url data)) w))
      as (w' & Hl & Hx).
    exists w'. split; [exact Hl|].
    pose proof (extends_trans
      (print_extends (MsgItem (e_id data) name (e_url data)) w) Hx) as H.
    simpl in H. exact H.
Qed.

Lemma cmd_list_frame w :
  exists r w' evs,
    cmd_list cfg w = (r, w') /\
    extends w w' evs [MsgListHeader (PARENT_GROUP_ID cfg)].
Proof.
  unfold cmd_list.
  rewrite (bind_normal _ (print_eq _ w)).
  unfold gets at 1. unfold bind at 1.
  destruct (list_loop_extends
              (sorted_items
                 (get_existing_monitors cfg
                    (monitor_list
                       (add_output (MsgListHeader (PARENT_GROUP_ID cfg)) w))))
              (add_output (MsgListHeader (PARENT_GROUP_ID cfg)) w))
    as (w1 & Hl & H1).
  rewrite (bind_normal _ Hl).
  rewrite !(bind_normal _ (print_eq _ _)).
  do 3 eexists. split; [reflexivity|].
  pose proof (extends_trans
    (print_extends (MsgListHeader (PARENT_GROUP_ID cfg)) w) H1) as H2.
  pose proof (extends_trans H2 (print_extends MsgBlank w1)) as H3.
  pose proof (extends_trans H3
    (print_extends (MsgTotal
       (List.length
          (get_existing_monitors cfg
             (monitor_list
                (add_output (MsgListHeader (PARENT_GROUP_ID cfg)) w))))) _))
    as H4.
  simpl in H4. exact H4.
Qed.

(** The dispatch runs one command at most: one header at most. *)
Lemma run_mode_frame a w :
  exists r w' evs hs,
    run_mode cfg E a w = (r, w') /\ extends w w' evs hs /\
    List.length hs <= 1.
Proof.
  unfold run_mode.
  destruct (a_sync a);
    [destruct (cmd_sync_frame w) as (r & w' & evs & Hrun & Hx);
     exists r, w', evs, [MsgSyncHeader]; auto|].
  destruct (a_list a);
    [destruct (cmd_list_frame w) as (r & w' & evs & Hrun & Hx);
     exists r, w', evs, [MsgListHeader (PARENT_GROUP_ID cfg)]; auto|].
  destruct (a_cleanup a);
    [destruct (cmd_cleanup_preview_frame w) as (r & w' & evs & Hrun & Hx);
     exists r, w', evs, [MsgPreviewHeader]; auto|].
  destruct (a_cleanup_confirm a);
    [destruct (cmd_cleanup_confirm_frame w) as (r & w' & evs & Hrun & Hx);
     exists r, w', evs, [MsgConfirmHeader]; auto|].
  exists (Normal tt), w, [], []. split; [reflexivity|].
  split; [apply extends_refl | simpl; lia].
Qed.

Lemma sio_connect_eq url w :
  sio_connect E url w =
  match env_connect E (trace w) with
  | None =>
      (Normal None,
       delivered E (add_output MsgConnected (add_event (EvConnect url) w)))
  | Some e => (Normal (Some e), add_event (EvConnect url) w)
  end.
Proof.
  unfold sio_connect, bind, gets, modify. simpl.
  destruct (env_connect E (trace w)); reflexivity.
Qed.

Lemma add_event_extends e w : extends w (add_event e w) [e] [].
Proof.
  unfold extends; simpl. split; [reflexivity|]. split; [|reflexivity].
  exists []. rewrite app_nil_r. auto.
Qed.

Lemma try_finally_disconnect A (body : prog A) w r w1 :
  body w = (r, w1) ->
  try_finally body sio_disconnect w =
  (r, add_output MsgDisconnected (add_event EvDisconnect w1)).
Proof. intros H. unfold try_finally. rewrite H. reflexivity. Qed.

Lemma authenticate_extends w :
  exists r w' levs,
    authenticate cfg E w = (r, w') /\
    (r = Normal true \/ r = SysExit 1) /\
    extends w w' levs [] /\
    forallb is_login levs = true.
Proof.
  destruct (authenticate_frame cfg E w)
    as (r & w' & levs & out & Hrun & Hr & Ht & Hl & Ho & Hq & Hd).
  exists r, w', levs. repeat split; try assumption.
  exists out. split; [assumption|].
  clear Ho. induction out as [|m out IH]; simpl in *; [reflexivity|].
  apply andb_true_iff in Hq. destruct Hq as [Hm Hq].
  apply andb_true_iff in Hm. destruct Hm as [Hm _].
  apply negb_true_iff in Hm. rewrite Hm. apply IH. exact Hq.
Qed.

(** The shape of every run of [main]: its events and the headers it
    prints, one at most. *)
Lemma main_frame a w :
  exists r w' evs hs,
    main cfg E a w = (r, w') /\ extends w w' evs hs /\
    List.length hs <= 1.
Proof.
  unfold main.
  destruct (negb (a_sync a || a_list a || a_cleanup a || a_cleanup_confirm a)).
  - rewrite (bind_normal _ (print_eq _ w)). unfold sys_exit.
    do 4 eexists. split; [reflexivity|]. split.
    + apply (print_extends MsgUsage w).
    + simpl. lia.
  - rewrite (bind_normal _ (print_eq _ w)).
    rewrite (bind_normal _ (sio_connect_eq _ _)) || unfold bind at 1.
    rewrite sio_connect_eq. simpl.
    pose proof (extends_trans
      (print_extends (MsgConnecting (UPTIME_KUMA_URL cfg)) w)
      (add_event_extends (EvConnect (UPTIME_KUMA_URL cfg))
         (add_output (MsgConnecting (UPTIME_KUMA_URL cfg)) w))) as X0.
    simpl in X0.
    destruct (env_connect E (trace w)) as [e|].
    + rewrite (bind_normal _ (print_eq _ _)). unfold sys_exit.
      do 4 eexists. split; [reflexivity|]. split.
      * pose proof (extends_trans X0
          (print_extends (MsgConnectionFailed e)
             (add_event (EvConnect (UPTIME_KUMA_URL cfg))
                (add_output (MsgConnecting (UPTIME_KUMA_URL cfg)) w)))) as X.
        simpl in X. exact X.
      * simpl. lia.
    + assert (X1 : extends w
        (delivered E
           (add_output MsgConnected
              (add_event (EvConnect (UPTIME_KUMA_URL cfg))
                 (add_output (MsgConnecting (UPTIME_KUMA_URL cfg)) w))))
        [EvConnect (UPTIME_KUMA_URL cfg)] []).
      { pose proof (extends_trans
          (extends_trans X0
             (print_extends MsgConnected
                (add_event (EvConnect (UPTIME_KUMA_URL cfg))
                   (add_output (MsgConnecting (UPTIME_KUMA_URL cfg)) w))))
          (delivered_extends E
             (add_output MsgConnected
                (add_event (EvConnect (UPTIME_KUMA_URL cfg))
                   (add_output (MsgConnecting (UPTIME_KUMA_URL cfg)) w)))))
          as X.
        simpl in X. exact X. }
      set (w1 := delivered E _) in *.
      clearbody w1.
      destruct (authenticate_extends w1) as (r & w2 & levs & Ha & Hr & X2 & _).
      destruct Hr as [-> | ->].
      * rewrite (bind_normal _ Ha).
        rewrite (bind_normal _ (sleep_eq E 1000 w2)).
        fold (run_mode cfg E a).
        destruct (run_mode_frame a
                    (delivered E (add_event (EvSleep 1000) w2)))
          as (rm & w4 & evs & hs & Hm & X4 & Hlen).
        rewrite (try_finally_disconnect _ _ Hm).
        do 4 eexists. split; [reflexivity|]. split.
        -- pose proof (extends_trans
             (extends_trans
                (extends_trans
                   (extends_trans (extends_trans X1 X2)
                      (sleep_extends E 1000 w2)) X4)
                (add_event_extends EvDisconnect _))
             (print_extends MsgDisconnected _)) as X.
           simpl in X. rewrite !app_nil_r in X. exact X.
        -- exact Hlen.
      * rewrite (bind_exit _ Ha).
        do 4 eexists. split; [reflexivity|]. split.
        -- apply (extends_trans X1 X2).
        -- simpl. lia.
Qed.

Lemma run_mode_missing a w :
  needs_domains a = true ->
  domains_file w = None ->
  exists h,
    run_mode cfg E a w =
    (SysExit 1, add_output MsgDomainsNotFound (add_output h w)).
Proof.
  unfold needs_domains, run_mode. intros Hn Hf.
  destruct (a_sync a); simpl in Hn.
  - exists MsgSyncHeader.
    unfold cmd_sync, load_domains, bind, print, modify, gets. simpl.
    rewrite Hf. reflexivity.
  - destruct (a_list a); simpl in Hn; [discriminate|].
    destruct (a_cleanup a); simpl in Hn.
    + exists MsgPreviewHeader.
      unfold cmd_cleanup_preview, load_domains, bind, print, modify, gets.
      simpl. rewrite Hf. reflexivity.
    + rewrite Hn. exists MsgConfirmHeader.
      unfold cmd_cleanup_confirm, load_domains, bind, print, modify, gets.
      simpl. rewrite Hf. reflexivity.
Qed.

Lemma quiet_not_found out :
  forallb (fun m => negb (is_header m) && negb (is_not_found m)) out = true ->
  existsb is_not_found out = false.
Proof.
  induction out as [|m out IH]; simpl; [reflexivity|].
  intros H. apply andb_true_iff in H. destruct H as [Hm H].
  apply andb_true_iff in Hm. destruct Hm as [_ Hm].
  apply negb_true_iff in Hm. rewrite Hm. apply IH. exact H.
Qed.

(** A run whose command needs a Domain Source that does not exist. *)
Lemma main_missing a w :
  needs_domains a = true ->
  domains_file w = None ->
  exists w' logins tail out,
    main cfg E a w = (SysExit 1, w') /\
    trace w' =
      trace w ++ EvConnect (UPTIME_KUMA_URL cfg) :: logins ++ tail /\
    forallb is_login logins = true /\
    stdout w' = stdout w ++ out /\
    ((tail = [] /\ existsb is_not_found out = false) \/
     (tail = [EvSleep 1000; EvDisconnect] /\
      existsb is_not_found out = true)).
Proof.
  intros Hn Hf. unfold main.
  assert (Hflag : negb (a_sync a || a_list a || a_cleanup a ||
                        a_cleanup_confirm a) = false).
  { unfold needs_domains in Hn.
    destruct (a_sync a), (a_list a), (a_cleanup a), (a_cleanup_confirm a);
      simpl in *; congruence. }
  rewrite Hflag.
  rewrite (bind_normal _ (print_eq _ w)).
  unfold bind at 1. rewrite sio_connect_eq. simpl.
  destruct (env_connect E (trace w)) as [e|].
  - rewrite (bind_normal _ (print_eq _ _)). unfold sys_exit.
    exists (add_output (MsgConnectionFailed e)
              (add_event (EvConnect (UPTIME_KUMA_URL cfg))
                 (add_output (MsgConnecting (UPTIME_KUMA_URL cfg)) w))),
           [], [],
           [MsgConnecting (UPTIME_KUMA_URL cfg); MsgConnectionFailed e].
    simpl. rewrite <- app_assoc. simpl.
    repeat split; try reflexivity. left. auto.
  - set (w1 := delivered E _).
    assert (Ht1 : trace w1 = trace w ++ [EvConnect (UPTIME_KUMA_URL cfg)])
      by (unfold w1; rewrite delivered_trace; reflexivity).
    assert (Ho1 : stdout w1 =
                  stdout w ++ [MsgConnecting (UPTIME_KUMA_URL cfg);
                               MsgConnected]).
    { unfold w1. rewrite delivered_stdout. simpl.
      rewrite <- app_assoc. reflexivity. }
    assert (Hf1 : domains_file w1 = None).
    { unfold w1. destruct (delivered_extends E
        (add_output MsgConnected
           (add_event (EvConnect (UPTIME_KUMA_URL cfg))
              (add_output (MsgConnecting (UPTIME_KUMA_URL cfg)) w))))
        as (_ & _ & Hd). rewrite Hd. exact Hf. }
    clearbody w1.
    destruct (authenticate_frame cfg E w1)
      as (r & w2 & levs & out & Ha & Hr & Ht2 & Hl & Ho2 & Hq & Hd2).
    destruct Hr as [-> | ->].
    + rewrite (bind_normal _ Ha).
      rewrite (bind_normal _ (sleep_eq E 1000 w2)).
      fold (run_mode cfg E a).
      set (w3 := delivered E (add_event (EvSleep 1000) w2)).
      assert (Hf3 : domains_file w3 = None).
      { unfold w3. destruct (sleep_extends E 1000 w2) as (_ & _ & Hd).
        rewrite Hd, Hd2. exact Hf1. }
      destruct (run_mode_missing a w3 Hn Hf3) as (h & Hm).
      rewrite (try_finally_disconnect _ _ Hm).
      eexists. exists levs, [EvSleep 1000; EvDisconnect],
        ([MsgConnecting (UPTIME_KUMA_URL cfg); MsgConnected] ++ out ++
         [h; MsgDomainsNotFound; MsgDisconnected]).
      split; [reflexivity|]. simpl. unfold w3.
      rewrite delivered_trace, delivered_stdout. simpl.
      rewrite Ht2, Ht1, Ho2, Ho1. rewrite <- !app_assoc. simpl.
      split; [reflexivity|]. split; [exact Hl|]. split; [reflexivity|].
      right. split; [reflexivity|].
      rewrite existsb_app. simpl. rewrite !orb_true_r. reflexivity.
    + rewrite (bind_exit _ Ha).
      exists w2, levs, [],
        ([MsgConnecting (UPTIME_KUMA_URL cfg); MsgConnected] ++ out).
      split; [reflexivity|].
      rewrite Ht2, Ht1, Ho2, Ho1, app_nil_r, <- !app_assoc. simpl.
      split; [reflexivity|]. split; [exact Hl|]. split; [reflexivity|].
      left. split; [reflexivity|]. apply quiet_not_found. exact Hq.
Qed.

End MainLemmas.

(* ------------------------------------------------------------------------- *)
(** ** Lemmas on the lines of the Domain Source *)
(* ------------------------------------------------------------------------- *)

Lemma load_domains_line_wf d line :
  well_formed line = true ->
  load_domains_line d line = dict_set (name_of line) (url_of line) d.
Proof.
  unfold well_formed, load_domains_line, name_of, url_of. intros H.
  apply andb_true_iff in H. destruct H as [Hb Hl]. rewrite Hb. simpl.
  destruct (split line) as [|a [|b [|c l]]]; simpl in *;
    try discriminate. reflexivity.
Qed.

Lemma load_domains_line_not_wf d line :
  well_formed line = false -> load_domains_line d line = d.
Proof.
  unfold well_formed, load_domains_line. intros H.
  destruct (truthy (strip line)); simpl in *; [|reflexivity].
  destruct (split line) as [|a [|b [|c l]]]; simpl in *;
    try discriminate; reflexivity.
Qed.

(** After the last well-formed line of a name, the name is bound to the
    URL of that line. *)
Lemma fold_load_keeps n url lines d :
  dict_get n d = Some url ->
  (forall l, In l lines -> well_formed l = true -> name_of l <> n) ->
  dict_get n (fold_left load_domains_line lines d) = Some url.
Proof.
  revert d. induction lines as [|l lines IH]; intros d Hd Hlater; simpl;
    [exact Hd|].
  apply IH; [|intros l' Hin; apply Hlater; right; exact Hin].
  destruct (well_formed l) eqn:Hwf.
  - rewrite (load_domains_line_wf d l Hwf).
    rewrite dict_get_set_other; [exact Hd|].
    apply Hlater; [left; reflexivity | exact Hwf].
  - rewrite (load_domains_line_not_wf d l Hwf). exact Hd.
Qed.

Lemma fold_load_last before line after d :
  well_formed line = true ->
  (forall l, In l after -> well_formed l = true ->
             name_of l <> name_of line) ->
  dict_get (name_of line)
    (fold_left load_domains_line (before ++ line :: after) d)
  = Some (url_of line).
Proof.
  intros Hwf Hlater. rewrite fold_left_app. simpl.
  apply fold_load_keeps; [|exact Hlater].
  rewrite (load_domains_line_wf _ line Hwf). apply dict_get_set_same.
Qed.

(** The white space around the whole text does not matter *)

Lemma split_on_aux_cur sep cur s :
  split_on_aux sep cur s =
  match split_on_aux sep [] s with
  | l0 :: rest => (rev cur ++ l0) :: rest
  | [] => []
  end.
Proof.
  revert cur. induction s as [|c s IH]; intros cur; simpl.
  - rewrite app_nil_r. reflexivity.
  - destruct (N.eqb c sep).
    + rewrite app_nil_r. reflexivity.
    + rewrite (IH (c :: cur)), (IH [c]).
      destruct (split_on_aux sep [] s); [reflexivity|].
      simpl. rewrite <- app_assoc. reflexivity.
Qed.

Lemma pieces_not_nil sep s : pieces sep s <> [].
Proof.
  destruct s as [|c s]; simpl; [discriminate|].
  destruct (N.eqb c sep); [discriminate|].
  destruct (pieces sep s); discriminate.
Qed.

Lemma split_on_pieces sep s : split_on sep s = pieces sep s.
Proof.
  unfold split_on. induction s as [|c s IH]; simpl; [reflexivity|].
  destruct (N.eqb c sep); [rewrite IH; reflexivity|].
  rewrite split_on_aux_cur, IH.
  destruct (pieces sep s) eqn:Hp; [|reflexivity].
  exfalso. exact (pieces_not_nil _ _ Hp).
Qed.

Lemma pieces_snoc sep c s :
  exists L l,
    pieces sep s = L ++ [l] /\
    pieces sep (s ++ [c]) =
      if N.eqb c sep then L ++ [l; []] else L ++ [l ++ [c]].
Proof.
  induction s as [|x s IH]; simpl.
  - exists [], []. split; [reflexivity|].
    destruct (N.eqb c sep); reflexivity.
  - destruct IH as (L & l & H1 & H2). rewrite H1, H2.
    destruct (N.eqb x sep).
    + exists ([] :: L), l. split; [reflexivity|].
      destruct (N.eqb c sep); reflexivity.
    + destruct L as [|l0 L]; simpl.
      * exists [], (x :: l). split; [reflexivity|].
        destruct (N.eqb c sep); reflexivity.
      * exists ((x :: l0) :: L), l. split; [reflexivity|].
        destruct (N.eqb c sep); reflexivity.
Qed.

Lemma split_aux_snoc_space cur l c :
  isspace c = true -> split_aux cur (l ++ [c]) = split_aux cur l.
Proof.
  intros Hc. revert cur. induction l as [|x l IH]; intros cur; simpl.
  - rewrite Hc. destruct cur; reflexivity.
  - destruct (isspace x); [destruct cur|]; rewrite ?IH; reflexivity.
Qed.

Lemma some_fields_app a b :
  some_fields (a ++ b) = some_fields a ++ some_fields b.
Proof. apply filter_app. Qed.

Lemma split_cons_space c l : isspace c = true -> split (c :: l) = split l.
Proof. intros Hc. unfold split. simpl. rewrite Hc. reflexivity. Qed.

Lemma split_snoc_space c l : isspace c = true -> split (l ++ [c]) = split l.
Proof. intros Hc. unfold split. apply split_aux_snoc_space. exact Hc. Qed.

Lemma line_fields_cons_space c s :
  isspace c = true -> line_fields (c :: s) = line_fields s.
Proof.
  intros Hc. unfold line_fields. rewrite !split_on_pieces.
  cbn [pieces].
  destruct (N.eqb c LF); [reflexivity|].
  destruct (pieces LF s) as [|l0 rest] eqn:Hp;
    [exfalso; exact (pieces_not_nil _ _ Hp)|].
  cbn [map]. rewrite (@split_cons_space c l0 Hc). reflexivity.
Qed.

Lemma line_fields_snoc_space c s :
  isspace c = true -> line_fields (s ++ [c]) = line_fields s.
Proof.
  intros Hc. unfold line_fields. rewrite !split_on_pieces.
  destruct (pieces_snoc LF c s) as (L & l & H1 & H2). rewrite H1, H2.
  destruct (N.eqb c LF); rewrite !map_app, !some_fields_app; cbn [map].
  - reflexivity.
  - rewrite (@split_snoc_space c l Hc). reflexivity.
Qed.

Lemma lstrip_decompose s :
  exists ws, forallb isspace ws = true /\ s = ws ++ lstrip s.
Proof.
  induction s as [|c s IH]; simpl.
  - exists []. auto.
  - destruct (isspace c) eqn:Hc.
    + destruct IH as (ws & Hws & Hs). exists (c :: ws). simpl.
      rewrite Hc, Hws. split; [reflexivity|]. rewrite <- Hs. reflexivity.
    + exists []. auto.
Qed.

Lemma forallb_rev A (p : A -> bool) l :
  forallb p l = true -> forallb p (rev l) = true.
Proof.
  rewrite !forallb_forall. intros H x Hx. apply H. apply in_rev. exact Hx.
Qed.

Lemma rstrip_decompose s :
  exists ws, forallb isspace ws = true /\ s = rstrip s ++ ws.
Proof.
  unfold rstrip. destruct (lstrip_decompose (rev s)) as (ws & Hws & Hs).
  exists (rev ws). split; [apply forallb_rev; exact Hws|].
  rewrite <- rev_app_distr, <- Hs, rev_involutive. reflexivity.
Qed.

Lemma line_fields_spaces_before ws s :
  forallb isspace ws = true -> line_fields (ws ++ s) = line_fields s.
Proof.
  induction ws as [|c ws IH]; simpl; [reflexivity|].
  intros H. apply andb_true_iff in H. destruct H as [Hc H].
  rewrite (@line_fields_cons_space c (ws ++ s) Hc). apply IH. exact H.
Qed.

Lemma line_fields_spaces_after ws s :
  forallb isspace ws = true -> line_fields (s ++ ws) = line_fields s.
Proof.
  revert s. induction ws as [|c ws IH]; intros s; simpl.
  - rewrite app_nil_r. reflexivity.
  - intros H. apply andb_true_iff in H. destruct H as [Hc H].
    change (c :: ws) with ([c] ++ ws). rewrite app_assoc.
    rewrite (IH (s ++ [c]) H). apply line_fields_snoc_space. exact Hc.
Qed.

(** The lines of the stripped text have the fields of the lines of the
    text. *)
Lemma line_fields_strip s : line_fields (strip s) = line_fields s.
Proof.
  unfold strip.
  destruct (rstrip_decompose (lstrip s)) as (ws2 & H2 & E2).
  destruct (lstrip_decompose s) as (ws1 & H1 & E1).
  rewrite E1 at 2. rewrite (@line_fields_spaces_before ws1 (lstrip s) H1).
  rewrite E2 at 2. rewrite (@line_fields_spaces_after ws2 _ H2). reflexivity.
Qed.

Lemma lstrip_nil_blank s : lstrip s = [] -> forallb isspace s = true.
Proof.
  intros H. destruct (lstrip_decompose s) as (ws & Hws & Hs).
  rewrite H, app_nil_r in Hs. subst ws. exact Hws.
Qed.

Lemma strip_nil_blank s : strip s = [] -> forallb isspace s = true.
Proof.
  unfold strip, rstrip. intros H.
  assert (H1 : lstrip (rev (lstrip s)) = []).
  { apply (f_equal (@rev N)) in H. rewrite rev_involutive in H. exact H. }
  apply lstrip_nil_blank in H1. apply forallb_rev in H1.
  rewrite rev_involutive in H1.
  destruct (lstrip_decompose s) as (ws & Hws & Hs). rewrite Hs.
  rewrite forallb_app, Hws, H1. reflexivity.
Qed.

Lemma split_blank s : forallb isspace s = true -> split s = [].
Proof.
  unfold split. induction s as [|c s IH]; simpl; [reflexivity|].
  intros H. apply andb_true_iff in H. destruct H as [Hc H].
  rewrite Hc. apply IH. exact H.
Qed.

(** The test of the blank line is covered by the count of the fields. *)
Lemma load_domains_line_fields d line :
  load_domains_line d line = apply_fields d (split line).
Proof.
  unfold load_domains_line. destruct (strip line) as [|c l] eqn:Hs; simpl.
  - rewrite (@split_blank line (@strip_nil_blank line Hs)). reflexivity.
  - reflexivity.
Qed.

Lemma fold_load_fields lines d :
  fold_left load_domains_line lines d =
  fold_left apply_fields (some_fields (map split lines)) d.
Proof.
  revert d. induction lines as [|l lines IH]; intros d; simpl; [reflexivity|].
  rewrite IH, load_domains_line_fields.
  destruct (split l); reflexivity.
Qed.

(** [load_domains] reads the lines of the file: stripping the whole text
    first changes nothing. *)
Lemma domains_of_lines text :
  domains_of text = fold_left load_domains_line (split_on LF text) [].
Proof.
  unfold domains_of. rewrite !fold_load_fields.
  fold (line_fields (strip text)). fold (line_fields text).
  rewrite line_fields_strip. reflexivity.
Qed.

(* ------------------------------------------------------------------------- *)
(** ** The claims of the specification *)
(* ------------------------------------------------------------------------- *)

(** *** The scenarios of the specification, run *)

(** Scenario A: two domains, no monitor; two [add] calls, and the report
    [Created: 2], [Total in file: 2]. *)
Example scenario_A :
  create_calls (issued (cmd_sync example_config env_yes)
                       (world_with (Some text_ab) [])) =
    [py "a.com"; py "b.com"] /\
  printed (cmd_sync example_config env_yes) (world_with (Some text_ab) []) =
    [MsgSyncHeader;
     MsgCreated (py "a.com") (py "http://a.com") None;
     MsgCreated (py "b.com") (py "http://b.com") None;
     MsgBlank; MsgCreatedCount 2; MsgTotalInFile 2].
Proof. split; reflexivity. Qed.

(** Scenario B: [a.com] in the Domain Source, monitors for [a.com] and
    [c.com]; the preview lists [c.com] alone, and a sync asks for
    nothing. *)
Example scenario_B :
  listed (printed (cmd_cleanup_preview example_config)
                  (world_with (Some text_a) snapshot_ac)) =
    [(4%Z, py "c.com")] /\
  create_calls (issued (cmd_sync example_config env_yes)
                       (world_with (Some text_a) snapshot_ac)) = [].
Proof. split; reflexivity. Qed.

(** Scenario C: an expired token, refused; the credentials are accepted
    and the new token is in the token file after the run. *)
Example scenario_C :
  jwt_file
    (snd (authenticate example_config env_expired
            (initial_world (Some (py "expired")) None))) =
    Some (py "fresh") /\
  rpc_calls
    (issued (authenticate example_config env_expired)
            (initial_world (Some (py "expired")) None)) =
    [(py "loginByToken", PToken (py "expired"));
     (py "login", credentials example_config)].
Proof. split; reflexivity. Qed.

(** Scenario D, as the code runs it: without Domain Source, [--sync]
    connects, logs in, waits, prints the error, disconnects and exits
    with status 1. *)
Example scenario_D :
  fst (main example_config env_yes args_sync (initial_world None None)) =
    SysExit 1 /\
  trace (snd (main example_config env_yes args_sync
                (initial_world None None))) =
    [EvConnect (UPTIME_KUMA_URL example_config);
     EvCall (py "login") (credentials example_config);
     EvSleep 1000; EvDisconnect].
Proof. split; reflexivity. Qed.

(** *** Sync *)

(** C1. For every Domain Source and every monitor list, [cmd_sync] ends
    normally and issues, for each name, exactly one [add] call when the
    name is a key of the domain mapping and no monitor of the configured
    group and of type http bears it, and none otherwise; its events are
    one call and one pause per entry of the create-set, in the order of the
    mapping. A second run, on a monitor list that still has the monitors of
    the first and has, for each [add] call of the first run, a monitor with
    the name, type and parent of its payload, issues no [add] call. *)
Theorem sync_creates_each_missing_name_once :
  forall cfg E w text,
    domains_file w = Some text ->
    exists evs,
      fst (cmd_sync cfg E w) = Normal tt /\
      trace (snd (cmd_sync cfg E w)) = trace w ++ evs /\
      evs =
        sync_events cfg (create_set cfg (domains_of text) (monitor_list w)) /\
      (forall n,
         count_occ str_eq_dec (create_calls evs) n =
         if dict_mem n (domains_of text) &&
            negb (name_in_filtered cfg n (monitor_list w))
         then 1 else 0) /\
      (forall E2 w2,
         domains_file w2 = Some text ->
         incl (monitor_list w) (monitor_list w2) ->
         (forall d, In (EvCall (py "add") (PMonitor d)) evs ->
                    exists id m,
                      In (id, m) (monitor_list w2) /\
                      m_name m = md_name d /\
                      m_type m = Some (md_type d) /\
                      m_parent m = Some (md_parent d)) ->
         exists evs2,
           trace (snd (cmd_sync cfg E2 w2)) = trace w2 ++ evs2 /\
           create_calls evs2 = []).
Proof.
  intros cfg E w text Hf.
  destruct (cmd_sync_spec cfg E w Hf) as (w' & Hrun & Ht & _ & _).
  exists (sync_events cfg (create_set cfg (domains_of text) (monitor_list w))).
  rewrite Hrun. simpl. repeat split; try assumption.
  - (* one call per missing name *)
    intros n. rewrite create_calls_sync_events. unfold create_set.
    rewrite (map_fst_filter
               (fun k => negb (name_in_filtered cfg k (monitor_list w)))).
    rewrite count_occ_filter.
    fold (dict_keys (domains_of text)).
    rewrite (count_occ_NoDup_mem (domains_of text) n (domains_of_NoDup text)).
    destruct (dict_mem n (domains_of text)),
             (name_in_filtered cfg n (monitor_list w)); reflexivity.
  - (* the second run *)
    intros E2 w2 Hf2 Hincl Hnew.
    destruct (cmd_sync_spec cfg E2 w2 Hf2) as (w2' & Hrun2 & Ht2 & _ & _).
    exists (sync_events cfg
              (create_set cfg (domains_of text) (monitor_list w2))).
    rewrite Hrun2. simpl. split; [assumption|].
    rewrite create_calls_sync_events.
    replace (create_set cfg (domains_of text) (monitor_list w2))
      with (@nil (str * str)); [reflexivity|].
    symmetry. unfold create_set. apply filter_none.
    intros [n u] Hin. simpl. apply negb_false_iff.
    destruct (name_in_filtered cfg n (monitor_list w)) eqn:Hold.
    + apply name_in_filtered_iff in Hold.
      destruct Hold as (id & m & Hm & Hg & Hn).
      apply name_in_filtered_iff. exists id, m. auto.
    + destruct (Hnew (build_monitor_data cfg n u))
        as (id & m & Hm & Hn & Hty & Hp).
      * apply In_sync_events. exists n, u. split; [|reflexivity].
        unfold create_set. apply filter_In. simpl. rewrite Hold. auto.
      * apply name_in_filtered_iff. exists id, m.
        split; [assumption|]. split; [|assumption].
        apply in_group_iff. auto.
Qed.

(** The two domains of [text_ab] against an empty monitor list: [a.com] is
    asked for once; after the run, with the two monitors in place, a second
    run asks for nothing. *)
Lemma sync_creates_each_missing_name_once_witness :
  domains_file (world_with (Some text_ab) []) = Some text_ab /\
  count_occ str_eq_dec
    (create_calls
       (trace (snd (cmd_sync example_config env_yes
                      (world_with (Some text_ab) [])))))
    (py "a.com") = 1 /\
  create_calls
    (trace (snd (cmd_sync example_config env_timeout
                   (world_with (Some text_ab)
                      [(7%Z, http_monitor (py "a.com") (py "http://a.com"));
                       (8%Z, http_monitor (py "b.com") (py "http://other"))]))))
  = [].
Proof.
  destruct (@sync_creates_each_missing_name_once example_config env_yes
              (world_with (Some text_ab) []) text_ab eq_refl)
    as (evs & _ & Ht & Hev & Hcount & Hsecond).
  split; [reflexivity|]. split.
  - rewrite Ht. simpl. rewrite Hcount. reflexivity.
  - destruct (Hsecond env_timeout
                (world_with (Some text_ab)
                   [(7%Z, http_monitor (py "a.com") (py "http://a.com"));
                    (8%Z, http_monitor (py "b.com") (py "http://other"))])
                eq_refl)
      as (evs2 & Ht2 & Hnone).
    + intros x [].
    + intros d Hd. rewrite Hev in Hd. vm_compute in Hd.
      destruct Hd as [Hd|[Hd|[Hd|[Hd|[]]]]]; try discriminate;
        injection Hd as <-.
      * exists 7%Z, (http_monitor (py "a.com") (py "http://a.com")).
        vm_compute. auto.
      * exists 8%Z, (http_monitor (py "b.com") (py "http://other")).
        vm_compute. auto 6.
    + rewrite Ht2. simpl. exact Hnone.
Defined.

(** *** Cleanup *)

(** C2, as the code has it. The directory is keyed by name: under a name
    it holds the last monitor of the snapshot that is of the configured
    group, of type http, and bears that name. For every Domain Source and
    every snapshot with distinct identifiers, the preview and the
    confirmation select the same items [ds]: the items of that directory
    whose name is not a key of the domain mapping. The preview prints them
    and issues no event; the confirmation issues one [deleteMonitor] call
    and one pause per item, so exactly one call per item, by its
    identifier, and no call for the identifier of a monitor whose name is
    a key of the mapping. *)
Theorem cleanup_preview_and_confirm_select_the_same_items :
  forall cfg E w text,
    domains_file w = Some text ->
    NoDup (map fst (monitor_list w)) ->
    exists ds : list (str * entry),
      (forall n e,
         In (n, e) ds <->
         dict_mem n (domains_of text) = false /\
         exists im, last_named cfg n (monitor_list w) = Some im /\
                    e = entry_of im) /\
      NoDup (dict_keys ds) /\
      fst (cmd_cleanup_preview cfg w) = Normal tt /\
      trace (snd (cmd_cleanup_preview cfg w)) = trace w /\
      stdout (snd (cmd_cleanup_preview cfg w)) =
        stdout w ++
        MsgPreviewHeader ::
        map (fun ne => MsgItem (e_id (snd ne)) (fst ne) (e_url (snd ne))) ds ++
        [MsgBlank; MsgTotalToDelete (List.length ds); MsgRunConfirm] /\
      fst (cmd_cleanup_confirm cfg E w) = Normal tt /\
      trace (snd (cmd_cleanup_confirm cfg E w)) =
        trace w ++ confirm_events ds /\
      delete_calls (confirm_events ds) = map (fun ne => e_id (snd ne)) ds /\
      (forall n e,
         In (n, e) ds ->
         count_occ Z.eq_dec (delete_calls (confirm_events ds)) (e_id e) = 1) /\
      (forall id m,
         In (id, m) (monitor_list w) ->
         dict_mem (m_name m) (domains_of text) = true ->
         ~ In id (delete_calls (confirm_events ds))).
Proof.
  intros cfg E w text Hf Hnd.
  exists (obsolete (domains_of text)
            (get_existing_monitors cfg (monitor_list w))).
  destruct (cmd_cleanup_preview_spec cfg w Hf) as (wp & Hp & Htp & Hop).
  destruct (cmd_cleanup_confirm_spec cfg E w Hf) as (wc & Hc & Htc & _ & _).
  rewrite Hp, Hc. simpl.
  split; [intros n e; apply obsolete_In|].
  split; [apply obsolete_NoDup|].
  split; [reflexivity|]. split; [exact Htp|].
  split.
  { rewrite Hop. unfold to_delete_of. rewrite map_map, length_map.
    reflexivity. }
  split; [reflexivity|]. split; [exact Htc|].
  split; [apply delete_calls_confirm_events|].
  split.
  - intros n e Hin. rewrite delete_calls_confirm_events.
    apply NoDup_count_occ'.
    + apply obsolete_ids_NoDup. exact Hnd.
    + apply (in_map (fun ne => e_id (snd ne))) in Hin. exact Hin.
  - intros id m Hin Hmem. rewrite delete_calls_confirm_events.
    apply (@obsolete_spares_listed cfg (domains_of text) _ id m Hnd Hin Hmem).
Qed.

(** With [a.com] in the Domain Source and monitors for [a.com] and
    [c.com]: the hypotheses hold, and the confirmation names each selected
    item once and never monitor 3, which bears [a.com]. *)
Lemma cleanup_preview_and_confirm_select_the_same_items_witness :
  domains_file (world_with (Some text_a) snapshot_ac) = Some text_a /\
  NoDup (map fst (monitor_list (world_with (Some text_a) snapshot_ac))) /\
  exists ds : list (str * entry),
    trace (snd (cmd_cleanup_confirm example_config env_yes
                  (world_with (Some text_a) snapshot_ac))) =
      confirm_events ds /\
    NoDup (dict_keys ds) /\
    ~ In 3%Z (delete_calls (confirm_events ds)).
Proof.
  assert (Hnd : NoDup (map fst (monitor_list
                                  (world_with (Some text_a) snapshot_ac)))).
  { simpl. repeat constructor; simpl; intuition discriminate. }
  split; [reflexivity|]. split; [exact Hnd|].
  destruct (@cleanup_preview_and_confirm_select_the_same_items
              example_config env_yes (world_with (Some text_a) snapshot_ac)
              text_a eq_refl Hnd)
    as (ds & _ & Hkeys & _ & _ & _ & _ & Ht & _ & _ & Hnot).
  exists ds. split; [exact Ht|]. split; [exact Hkeys|].
  apply (Hnot 3%Z (http_monitor (py "a.com") (py "http://elsewhere"))).
  - left. reflexivity.
  - reflexivity.
Defined.

(** C2, as it is stated, fails on two monitors that share a name: both
    [twins] are filtered monitors whose name is not a key of the mapping,
    so both are in the delete-set; the confirmation never names
    monitor 5. *)
Lemma cleanup_confirm_skips_a_monitor_of_a_shared_name :
  ~ (forall im,
       In im (delete_set example_config (domains_of text_a) twins) ->
       count_occ Z.eq_dec
         (delete_calls
            (trace (snd (cmd_cleanup_confirm example_config env_yes
                           (world_with (Some text_a) twins)))))
         (fst im) = 1).
Proof.
  intros H.
  specialize (H (5%Z, http_monitor (py "c.com") (py "http://c.com"))).
  vm_compute in H. assert (H0 : 0 = 1) by (apply H; left; reflexivity).
  discriminate H0.
Qed.

(** *** Identity *)

(** C3. A monitor of the configured group and of type http whose name is
    a key of the domain mapping is never asked for by [cmd_sync], never
    listed by the preview and never among the items the confirmation
    deletes, whatever its URL and the URL of the mapping; and two runs
    whose mappings have the same names and whose snapshots differ in URLs
    only ask for the same names and select the same monitors. *)
Theorem names_alone_decide_membership :
  forall cfg E w text,
    domains_file w = Some text ->
    exists ds : list (str * entry),
      issued (cmd_cleanup_confirm cfg E) w = confirm_events ds /\
      listed (printed (cmd_cleanup_preview cfg) w) =
        map (fun ne => (e_id (snd ne), fst ne)) ds /\
      (forall id m,
         In (id, m) (monitor_list w) ->
         in_group cfg m = true ->
         dict_mem (m_name m) (domains_of text) = true ->
         ~ In (m_name m) (create_calls (issued (cmd_sync cfg E) w)) /\
         ~ In (m_name m) (dict_keys ds) /\
         (NoDup (map fst (monitor_list w)) ->
          ~ In id (delete_calls (issued (cmd_cleanup_confirm cfg E) w)))) /\
      (forall E' w' text',
         domains_file w' = Some text' ->
         dict_keys (domains_of text') = dict_keys (domains_of text) ->
         map without_url (monitor_list w') = map without_url (monitor_list w) ->
         create_calls (issued (cmd_sync cfg E') w') =
           create_calls (issued (cmd_sync cfg E) w) /\
         listed (printed (cmd_cleanup_preview cfg) w') =
           listed (printed (cmd_cleanup_preview cfg) w) /\
         delete_calls (issued (cmd_cleanup_confirm cfg E') w') =
           delete_calls (issued (cmd_cleanup_confirm cfg E) w)).
Proof.
  intros cfg E w text Hf.
  exists (obsolete (domains_of text)
            (get_existing_monitors cfg (monitor_list w))).
  split; [apply confirm_issued; exact Hf|].
  split; [apply preview_listed; exact Hf|].
  split.
  - intros id m Hin Hg Hmem. split; [|split].
    + rewrite (sync_issued cfg E w Hf), create_calls_sync_events.
      intros Hc. apply in_map_iff in Hc. destruct Hc as ([n u] & Hn & Hc).
      simpl in Hn. subst n. unfold create_set in Hc.
      apply filter_In in Hc. destruct Hc as [_ Hc]. simpl in Hc.
      apply negb_true_iff in Hc.
      assert (name_in_filtered cfg (m_name m) (monitor_list w) = true)
        by (apply name_in_filtered_iff; exists id, m; auto).
      congruence.
    + intros Hk. unfold dict_keys in Hk. apply in_map_iff in Hk.
      destruct Hk as ([n e] & Hn & Hk). simpl in Hn. subst n.
      apply obsolete_In in Hk. destruct Hk as [Hk _]. congruence.
    + intros Hnd.
      rewrite (confirm_issued cfg E w Hf), delete_calls_confirm_events.
      apply (@obsolete_spares_listed cfg (domains_of text) _ id m Hnd Hin Hmem).
  - intros E' w' text' Hf' HD HM. split; [|split].
    + rewrite (sync_issued cfg E' w' Hf'), (sync_issued cfg E w Hf),
        !create_calls_sync_events.
      apply create_set_without_url; assumption.
    + rewrite (preview_listed cfg w' Hf'), (preview_listed cfg w Hf).
      pose proof (@obsolete_without_url cfg _ _ _ _ HD HM) as H.
      apply (f_equal (map (fun kn : str * Z => (snd kn, fst kn)))) in H.
      rewrite !map_map in H. exact H.
    + rewrite (confirm_issued cfg E' w' Hf'), (confirm_issued cfg E w Hf),
        !delete_calls_confirm_events.
      pose proof (@obsolete_without_url cfg _ _ _ _ HD HM) as H.
      apply (f_equal (map snd)) in H. rewrite !map_map in H. exact H.
Qed.

(** The monitor of [a.com] in [snapshot_ac] has the URL
    [http://elsewhere], the Domain Source has [http://a.com]: the monitor
    is neither created again nor deleted. *)
Lemma names_alone_decide_membership_witness :
  domains_file (world_with (Some text_a) snapshot_ac) = Some text_a /\
  ~ In (py "a.com")
       (create_calls
          (issued (cmd_sync example_config env_yes)
                  (world_with (Some text_a) snapshot_ac))) /\
  ~ In 3%Z
       (delete_calls
          (issued (cmd_cleanup_confirm example_config env_yes)
                  (world_with (Some text_a) snapshot_ac))).
Proof.
  split; [reflexivity|].
  destruct (@names_alone_decide_membership example_config env_yes
              (world_with (Some text_a) snapshot_ac) text_a eq_refl)
    as (ds & _ & _ & Hsame & _).
  destruct (Hsame 3%Z (http_monitor (py "a.com") (py "http://elsewhere")))
    as (Hc & _ & Hd).
  - left. reflexivity.
  - reflexivity.
  - reflexivity.
  - split; [exact Hc|]. apply Hd.
    simpl. repeat constructor; simpl; intuition discriminate.
Defined.

(** *** Filtering *)

(** C4, as the code has it. The directory every command works on is
    keyed by name, each name once: under a name it holds the last monitor
    of the snapshot that has the configured parent and the type http and
    bears that name. So every item stands for a monitor that passes the
    filter, every monitor that passes has its name in the directory, and
    when the passing monitors have distinct names the directory holds
    each of them. A monitor whose parent differs from the configured
    group, or whose type is not http, can be taken out of the snapshot
    without any change to the directory, nor to what the four commands
    issue and print, whatever its name. *)
Theorem directory_keeps_last_filtered_monitor_of_each_name :
  forall cfg M,
    NoDup (dict_keys (get_existing_monitors cfg M)) /\
    (forall n e,
       In (n, e) (get_existing_monitors cfg M) <->
       exists im, last_named cfg n M = Some im /\ e = entry_of im) /\
    (forall n im,
       last_named cfg n M = Some im ->
       In im M /\
       m_parent (snd im) = Some (PARENT_GROUP_ID cfg) /\
       m_type (snd im) = Some (py "http") /\
       m_name (snd im) = n) /\
    (forall id m,
       In (id, m) M ->
       m_parent m = Some (PARENT_GROUP_ID cfg) ->
       m_type m = Some (py "http") ->
       dict_mem (m_name m) (get_existing_monitors cfg M) = true) /\
    (NoDup (map (fun x => m_name (snd x)) (filtered cfg M)) ->
     forall id m,
       In (id, m) M ->
       m_parent m = Some (PARENT_GROUP_ID cfg) ->
       m_type m = Some (py "http") ->
       In (m_name m, entry_of (id, m)) (get_existing_monitors cfg M)) /\
    (forall M1 id m M2,
       M = M1 ++ (id, m) :: M2 ->
       m_parent m <> Some (PARENT_GROUP_ID cfg) \/
       m_type m <> Some (py "http") ->
       get_existing_monitors cfg (M1 ++ M2) = get_existing_monitors cfg M /\
       forall E w w' text,
         monitor_list w = M ->
         monitor_list w' = M1 ++ M2 ->
         domains_file w = Some text ->
         domains_file w' = Some text ->
         issued (cmd_sync cfg E) w' = issued (cmd_sync cfg E) w /\
         printed (cmd_list cfg) w' = printed (cmd_list cfg) w /\
         printed (cmd_cleanup_preview cfg) w' =
           printed (cmd_cleanup_preview cfg) w /\
         issued (cmd_cleanup_confirm cfg E) w' =
           issued (cmd_cleanup_confirm cfg E) w).
Proof.
  intros cfg M.
  split; [apply existing_NoDup|].
  split; [intros n e; apply existing_In|].
  split.
  { intros n im Hl. apply last_named_In in Hl.
    destruct Hl as (Hin & Hg & Hn). apply in_group_iff in Hg. tauto. }
  split.
  { intros id m Hin Hp Ht. rewrite existing_mem.
    apply name_in_filtered_iff. exists id, m.
    split; [assumption|]. split; [|reflexivity].
    apply in_group_iff. auto. }
  split.
  { intros Hnd id m Hin Hp Ht. apply existing_In. exists (id, m).
    split; [|reflexivity].
    apply (last_named_unique cfg M (id, m) Hnd Hin).
    apply in_group_iff. auto. }
  intros M1 id m M2 -> Hout.
  assert (Hdrop : get_existing_monitors cfg (M1 ++ M2) =
                  get_existing_monitors cfg (M1 ++ (id, m) :: M2)).
  { symmetry. apply (existing_drop cfg M1 (id, m) M2).
    apply in_group_false_iff. exact Hout. }
  split; [exact Hdrop|].
  intros E w w' text Hw Hw' Hf Hf'.
  split; [|split; [|split]].
  - rewrite (sync_issued cfg E w' Hf'), (sync_issued cfg E w Hf).
    rewrite <- !create_set_filter, Hw, Hw', Hdrop. reflexivity.
  - rewrite !list_printed, Hw, Hw', Hdrop. reflexivity.
  - rewrite (preview_printed cfg w' Hf'), (preview_printed cfg w Hf).
    rewrite Hw, Hw', Hdrop. reflexivity.
  - rewrite (confirm_issued cfg E w' Hf'), (confirm_issued cfg E w Hf).
    rewrite Hw, Hw', Hdrop. reflexivity.
Qed.

(** A ping monitor that bears the name [a.com] does not count: with it
    or without it in the snapshot, [cmd_sync] issues the same events, and
    asks for [a.com]. *)
Lemma directory_keeps_last_filtered_monitor_of_each_name_witness :
  issued (cmd_sync example_config env_yes)
         (world_with (Some text_a) []) =
  issued (cmd_sync example_config env_yes)
         (world_with (Some text_a)
            [(6%Z, {| m_name := py "a.com"; m_type := Some (py "ping");
                      m_parent := Some 1%Z; m_url := None |})]) /\
  create_calls
    (issued (cmd_sync example_config env_yes) (world_with (Some text_a) []))
  = [py "a.com"].
Proof.
  destruct (directory_keeps_last_filtered_monitor_of_each_name example_config
              [(6%Z, {| m_name := py "a.com"; m_type := Some (py "ping");
                        m_parent := Some 1%Z; m_url := None |})])
    as (_ & _ & _ & _ & _ & Hdrop).
  destruct (Hdrop [] 6%Z
              {| m_name := py "a.com"; m_type := Some (py "ping");
                 m_parent := Some 1%Z; m_url := None |} [] eq_refl)
    as (_ & Hcmd).
  - right. simpl. discriminate.
  - destruct (Hcmd env_yes
                (world_with (Some text_a)
                   [(6%Z, {| m_name := py "a.com"; m_type := Some (py "ping");
                             m_parent := Some 1%Z; m_url := None |})])
                (world_with (Some text_a) []) text_a
                eq_refl eq_refl eq_refl eq_refl) as (Hs & _).
    split; [exact Hs | reflexivity].
Defined.

(** C4, as it is stated, fails on two monitors that share a name: monitor
    5 of [twins] passes the filter, and the directory has no item with its
    identifier. *)
Lemma directory_drops_a_monitor_of_a_shared_name :
  ~ (forall id m,
       In (id, m) twins ->
       m_parent m = Some (PARENT_GROUP_ID example_config) ->
       m_type m = Some (py "http") ->
       exists e,
         In (m_name m, e) (get_existing_monitors example_config twins) /\
         e_id e = id).
Proof.
  intros H.
  destruct (H 5%Z (http_monitor (py "c.com") (py "http://c.com")))
    as (e & Hin & Hid); try reflexivity.
  - left. reflexivity.
  - vm_compute in Hin. destruct Hin as [Hin|[]].
    injection Hin as <-. discriminate Hid.
Qed.

(** *** Authentication *)

(** C5, as the code has it. When a token is stored and the token login
    is answered ok, the token login is the only event and the token file
    is unchanged. When no token is stored, or the token login is not
    answered ok (a timeout included), and both credentials are set, there
    is exactly one credential login; if its answer is ok and carries a
    token that is not empty, the token file holds that token afterwards;
    if its answer is ok without such a token, or is not ok, the token file
    is unchanged, and in the latter case the process exits with status 1.
    In every run there is at most one token login and at most one
    credential login. *)
Theorem authenticate_tries_token_then_credentials_once :
  forall cfg E w,
    (forall t,
       stored_token w = Some t ->
       response_ok (token_answer E w t) = true ->
       fst (authenticate cfg E w) = Normal true /\
       issued (authenticate cfg E) w =
         [EvCall (py "loginByToken") (PToken t)] /\
       calls_named (py "login") (issued (authenticate cfg E) w) = [] /\
       jwt_file (snd (authenticate cfg E w)) = jwt_file w) /\
    ((forall t, stored_token w = Some t ->
                response_ok (token_answer E w t) = false) ->
     configured cfg = true ->
     calls_named (py "login") (issued (authenticate cfg E) w) =
       [credentials cfg] /\
     (response_ok (login_answer cfg E w) = true ->
      fst (authenticate cfg E w) = Normal true /\
      (forall t', response_token (login_answer cfg E w) = Some t' ->
                  jwt_file (snd (authenticate cfg E w)) = Some t') /\
      (response_token (login_answer cfg E w) = None ->
       jwt_file (snd (authenticate cfg E w)) = jwt_file w)) /\
     (response_ok (login_answer cfg E w) = false ->
      fst (authenticate cfg E w) = SysExit 1 /\
      jwt_file (snd (authenticate cfg E w)) = jwt_file w)) /\
    List.length (calls_named (py "loginByToken")
                   (issued (authenticate cfg E) w)) <= 1 /\
    List.length (calls_named (py "login")
                   (issued (authenticate cfg E) w)) <= 1.
Proof.
  intros cfg E w.
  assert (Htok : forall t, calls_named (py "login")
                   [EvCall (py "loginByToken") (PToken t)] = [])
    by reflexivity.
  assert (Htev : calls_named (py "login") (token_events w) = []).
  { unfold token_events. destruct (stored_token w); reflexivity. }
  assert (Htev1 : List.length (calls_named (py "loginByToken")
                                 (token_events w)) <= 1).
  { unfold token_events. destruct (stored_token w); simpl; lia. }
  split; [|split].
  - intros t Ht Hok.
    destruct (@authenticate_by_token cfg E w t Ht Hok)
      as (w' & Hrun & Htr & Hjf & _).
    rewrite (@issued_eq _ (authenticate cfg E) w _
               ltac:(rewrite Hrun; exact Htr)).
    rewrite Hrun. simpl. auto.
  - intros Hno Hcfg.
    destruct (@authenticate_fallback cfg E w Hno) as (r & w' & Hrun & Hcase).
    rewrite Hcfg in Hcase. destruct Hcase as [Htr Hcase].
    rewrite (@issued_eq _ (authenticate cfg E) w _
               ltac:(rewrite Hrun; exact Htr)).
    rewrite Hrun. simpl. split; [|split].
    + rewrite calls_named_app, Htev. reflexivity.
    + intros Hok. rewrite Hok in Hcase. destruct Hcase as [-> Hjf].
      split; [reflexivity|]. split.
      * intros t' Ht'. rewrite Ht' in Hjf. exact Hjf.
      * intros Hn. rewrite Hn in Hjf. exact Hjf.
    + intros Hok. rewrite Hok in Hcase. exact Hcase.
  - assert (Hcases :
      (exists t, stored_token w = Some t /\
                 response_ok (token_answer E w t) = true) \/
      (forall t, stored_token w = Some t ->
                 response_ok (token_answer E w t) = false)).
    { destruct (stored_token w) as [t|] eqn:Ht.
      - destruct (response_ok (token_answer E w t)) eqn:Hok.
        + left. exists t. auto.
        + right. intros t' [= <-]. exact Hok.
      - right. intros t' [=]. }
    destruct Hcases as [(t & Ht & Hok)|Hno].
    + destruct (@authenticate_by_token cfg E w t Ht Hok)
        as (w' & Hrun & Htr & _).
      rewrite (@issued_eq _ (authenticate cfg E) w _
                 ltac:(rewrite Hrun; exact Htr)).
      rewrite Htok. simpl. lia.
    + destruct (@authenticate_fallback cfg E w Hno) as (r & w' & Hrun & Hcase).
      destruct (configured cfg).
      * destruct Hcase as [Htr _].
        rewrite (@issued_eq _ (authenticate cfg E) w _
                   ltac:(rewrite Hrun; exact Htr)).
        rewrite !calls_named_app, Htev, length_app. simpl. lia.
      * destruct Hcase as (_ & Htr & _).
        rewrite <- (app_nil_r (token_events w)) in Htr at 1.
        rewrite app_nil_r in Htr.
        rewrite (@issued_eq _ (authenticate cfg E) w _
                   ltac:(rewrite Hrun; exact Htr)).
        rewrite Htev. simpl. lia.
Qed.

(** Scenario C of the specification: the token file holds an expired
    token, the service refuses it and accepts the credentials with a new
    token. There is one credential login, and the token file holds the new
    token afterwards. *)
Lemma authenticate_tries_token_then_credentials_once_witness :
  (forall t,
     stored_token (initial_world (Some (py "expired")) None) = Some t ->
     response_ok
       (token_answer env_expired
          (initial_world (Some (py "expired")) None) t) = false) /\
  configured example_config = true /\
  response_ok
    (login_answer example_config env_expired
       (initial_world (Some (py "expired")) None)) = true /\
  calls_named (py "login")
    (issued (authenticate example_config env_expired)
            (initial_world (Some (py "expired")) None)) =
    [credentials example_config] /\
  jwt_file
    (snd (authenticate example_config env_expired
            (initial_world (Some (py "expired")) None))) = Some (py "fresh").
Proof.
  assert (Hno : forall t,
     stored_token (initial_world (Some (py "expired")) None) = Some t ->
     response_ok
       (token_answer env_expired
          (initial_world (Some (py "expired")) None) t) = false)
    by (intros t _; reflexivity).
  split; [exact Hno|]. split; [reflexivity|]. split; [reflexivity|].
  destruct (authenticate_tries_token_then_credentials_once example_config
              env_expired (initial_world (Some (py "expired")) None))
    as (_ & Hfb & _).
  destruct (Hfb Hno eq_refl) as (Hcalls & Hok & _).
  split; [exact Hcalls|].
  destruct (Hok eq_refl) as (_ & Hsaved & _).
  apply Hsaved. reflexivity.
Defined.

(** C5, as it is stated, fails on a refusal that carries a token: no
    token is stored, the credentials are set, the answer to the credential
    login carries the token [fresh] without being ok; the token file is
    not written. *)
Lemma authenticate_keeps_the_token_of_a_refusal_unwritten :
  ~ (forall t',
       stored_token (initial_world None None) = None ->
       configured example_config = true ->
       response_token
         (login_answer example_config env_refusal_with_token
            (initial_world None None)) = Some t' ->
       jwt_file
         (snd (authenticate example_config env_refusal_with_token
                 (initial_world None None))) = Some t').
Proof.
  intros H.
  specialize (H (py "fresh") eq_refl eq_refl eq_refl).
  vm_compute in H. discriminate H.
Qed.

(** *** Dispatch *)

(** C8. With none of the four flags, [main] prints the usage and exits
    with status 0, and issues no event: no connection, no request. And in
    every run, whatever the flags, at most one of the four command headers
    is printed: at most one mode runs. *)
Theorem main_without_flag_prints_usage_and_exits_zero :
  forall cfg E a w,
    (a_sync a = false -> a_list a = false ->
     a_cleanup a = false -> a_cleanup_confirm a = false ->
     fst (main cfg E a w) = SysExit 0 /\
     exit_status (fst (main cfg E a w)) = 0%Z /\
     printed (main cfg E a) w = [MsgUsage] /\
     issued (main cfg E a) w = [] /\
     connects (issued (main cfg E a) w) = [] /\
     rpc_calls (issued (main cfg E a) w) = []) /\
    List.length (headers (printed (main cfg E a) w)) <= 1.
Proof.
  intros cfg E a w. split.
  - intros H1 H2 H3 H4.
    assert (Hrun : main cfg E a w = (SysExit 0, add_output MsgUsage w)).
    { unfold main. rewrite H1, H2, H3, H4. reflexivity. }
    assert (Hi : issued (main cfg E a) w = []).
    { apply issued_eq. rewrite Hrun. simpl. symmetry. apply app_nil_r. }
    rewrite Hi. rewrite Hrun. simpl. repeat split.
    apply printed_eq. rewrite Hrun. reflexivity.
  - destruct (main_frame cfg E a w) as (r & w' & evs & hs & Hrun & Hx & Hlen).
    destruct (@extends_added _ (main cfg E a) w r w' evs hs Hrun Hx) as [_ Hh].
    rewrite Hh. exact Hlen.
Qed.

(** The run without flags from a fresh process. *)
Lemma main_without_flag_prints_usage_and_exits_zero_witness :
  exit_status (fst (main source_config env_yes args_none
                      (initial_world None None))) = 0%Z /\
  trace (snd (main source_config env_yes args_none
                (initial_world None None))) = [].
Proof.
  destruct (main_without_flag_prints_usage_and_exits_zero source_config
              env_yes args_none (initial_world None None)) as [H _].
  destruct (H eq_refl eq_refl eq_refl eq_refl) as (_ & Hs & _ & Hi & _).
  split; [exact Hs|]. exact Hi.
Defined.

(** *** Missing Domain Source *)

(** C6, as the code has it. When the Domain Source does not exist and the
    command that is dispatched reads it, [main] exits with status 1, and
    the first thing it does is to try to connect. The file is looked for
    by the command itself, after the connection, the authentication and
    the wait for the snapshot: the events of the run are the connection
    attempt, the logins, and, exactly when the message of the missing
    file is printed, the wait and the disconnection. No create or delete
    call is made. *)
Theorem missing_domains_file_exits_one_after_connecting :
  forall cfg E a w,
    needs_domains a = true ->
    domains_file w = None ->
    fst (main cfg E a w) = SysExit 1 /\
    exit_status (fst (main cfg E a w)) <> 0%Z /\
    exists logins tail,
      issued (main cfg E a) w =
        EvConnect (UPTIME_KUMA_URL cfg) :: logins ++ tail /\
      forallb is_login logins = true /\
      (tail = [] \/ tail = [EvSleep 1000; EvDisconnect]) /\
      (existsb is_not_found (printed (main cfg E a) w) = true <->
       tail = [EvSleep 1000; EvDisconnect]) /\
      create_calls (issued (main cfg E a) w) = [] /\
      delete_calls (issued (main cfg E a) w) = [].
Proof.
  intros cfg E a w Hn Hf.
  destruct (main_missing cfg E a w Hn Hf)
    as (w' & logins & tail & out & Hrun & Ht & Hl & Ho & Hcase).
  rewrite Hrun. simpl. split; [reflexivity|]. split; [discriminate|].
  exists logins, tail.
  rewrite (@issued_eq _ (main cfg E a) w _ ltac:(rewrite Hrun; exact Ht)).
  rewrite (@printed_eq _ (main cfg E a) w _ ltac:(rewrite Hrun; exact Ho)).
  destruct (logins_are_no_mutation logins Hl) as (Hc & Hd & _).
  split; [reflexivity|]. split; [exact Hl|].
  destruct Hcase as [[-> Hnf] | [-> Hnf]].
  - split; [left; reflexivity|]. split.
    + rewrite Hnf. split; discriminate.
    + change (EvConnect (UPTIME_KUMA_URL cfg) :: logins ++ [])
        with ([EvConnect (UPTIME_KUMA_URL cfg)] ++ logins ++ []).
      rewrite !create_calls_app, !delete_calls_app, Hc, Hd. auto.
  - split; [right; reflexivity|]. split.
    + rewrite Hnf. split; reflexivity.
    + change (EvConnect (UPTIME_KUMA_URL cfg) :: logins ++
                [EvSleep 1000; EvDisconnect])
        with ([EvConnect (UPTIME_KUMA_URL cfg)] ++ logins ++
                [EvSleep 1000; EvDisconnect]).
      rewrite !create_calls_app, !delete_calls_app, Hc, Hd. auto.
Qed.

(** [--sync] from a fresh process without any file: the service accepts
    the credentials, the run connects first and exits with status 1. *)
Lemma missing_domains_file_exits_one_after_connecting_witness :
  needs_domains args_sync = true /\
  domains_file (initial_world None None) = None /\
  fst (main example_config env_yes args_sync (initial_world None None)) =
    SysExit 1 /\
  create_calls
    (issued (main example_config env_yes args_sync)
            (initial_world None None)) = [].
Proof.
  split; [reflexivity|]. split; [reflexivity|].
  destruct (@missing_domains_file_exits_one_after_connecting example_config
              env_yes args_sync (initial_world None None) eq_refl eq_refl)
    as (Hexit & _ & logins & tail & _ & _ & _ & _ & Hc & _).
  split; [exact Hexit | exact Hc].
Defined.

(** C6, as it is stated, fails: in that run the connection and the
    credential login come before the exit. *)
Lemma missing_domains_file_is_found_after_the_connection :
  ~ (connects
       (trace (snd (main example_config env_yes args_sync
                      (initial_world None None)))) = [] /\
     rpc_calls
       (trace (snd (main example_config env_yes args_sync
                      (initial_world None None)))) = []).
Proof. vm_compute. intros [H _]. discriminate H. Qed.

(** *** Requests *)

(** C7. [call_with_callback] always returns: the response when the call
    is answered, [None] when it times out or raises, and it issues the
    request once. So [create_monitor] and [delete_monitor] always return,
    after one request; and, whatever the service answers or fails to
    answer, [cmd_sync] and [cmd_cleanup_confirm] end normally when the
    Domain Source exists, with one request per item they select, in
    order: none is skipped after a failure, none is sent again. *)
Theorem requests_always_return_and_are_sent_once :
  forall cfg E w,
    (forall name data,
       fst (call_with_callback E name data w) =
         Normal match env_call E (trace w) name data with
                | Returned response => response
                | RaisedTimeout => None
                | RaisedError _ => None
                end /\
       issued (call_with_callback E name data) w = [EvCall name data]) /\
    (forall name url,
       exists b,
         fst (create_monitor cfg E name url w) = Normal b /\
         issued (create_monitor cfg E name url) w =
           [EvCall (py "add") (PMonitor (build_monitor_data cfg name url))]) /\
    (forall monitor_id name,
       exists b,
         fst (delete_monitor E monitor_id name w) = Normal b /\
         issued (delete_monitor E monitor_id name) w =
           [EvCall (py "deleteMonitor") (PMonitorId monitor_id)]) /\
    (forall text,
       domains_file w = Some text ->
       fst (cmd_sync cfg E w) = Normal tt /\
       rpc_calls (issued (cmd_sync cfg E) w) =
         map (fun kv =>
                (py "add",
                 PMonitor (build_monitor_data cfg (fst kv) (snd kv))))
             (create_set cfg (domains_of text) (monitor_list w)) /\
       fst (cmd_cleanup_confirm cfg E w) = Normal tt /\
       rpc_calls (issued (cmd_cleanup_confirm cfg E) w) =
         map (fun ne => (py "deleteMonitor", PMonitorId (e_id (snd ne))))
             (obsolete (domains_of text)
                (get_existing_monitors cfg (monitor_list w)))).
Proof.
  intros cfg E w. split; [|split; [|split]].
  - intros name data.
    destruct (call_with_callback_spec E name data w)
      as (w' & Hrun & (Ht & _) & _).
    rewrite (@issued_eq _ (call_with_callback E name data) w _
               ltac:(rewrite Hrun; exact Ht)).
    rewrite Hrun. simpl. split; [|reflexivity].
    destruct (env_call E (trace w) name data); reflexivity.
  - intros name url.
    destruct (create_monitor_spec cfg E name url w)
      as (b & w' & Hrun & _ & (Ht & _)).
    exists b.
    rewrite (@issued_eq _ (create_monitor cfg E name url) w _
               ltac:(rewrite Hrun; exact Ht)).
    rewrite Hrun. auto.
  - intros monitor_id name.
    destruct (delete_monitor_spec E monitor_id name w)
      as (b & w' & Hrun & _ & (Ht & _)).
    exists b.
    rewrite (@issued_eq _ (delete_monitor E monitor_id name) w _
               ltac:(rewrite Hrun; exact Ht)).
    rewrite Hrun. auto.
  - intros text Hf.
    destruct (cmd_sync_spec cfg E w Hf) as (ws & Hs & _).
    destruct (cmd_cleanup_confirm_spec cfg E w Hf) as (wc & Hc & _).
    rewrite (sync_issued cfg E w Hf), (confirm_issued cfg E w Hf), Hs, Hc.
    rewrite rpc_calls_sync_events, rpc_calls_confirm_events. auto.
Qed.

(** Every request times out: [cmd_sync] still ends normally, after one
    [add] request for each of the two domains of [text_ab]. *)
Lemma requests_always_return_and_are_sent_once_witness :
  domains_file (world_with (Some text_ab) []) = Some text_ab /\
  fst (cmd_sync example_config env_timeout (world_with (Some text_ab) [])) =
    Normal tt /\
  map fst
    (rpc_calls (issued (cmd_sync example_config env_timeout)
                       (world_with (Some text_ab) []))) =
    [py "add"; py "add"].
Proof.
  split; [reflexivity|].
  destruct (requests_always_return_and_are_sent_once example_config
              env_timeout (world_with (Some text_ab) []))
    as (_ & _ & _ & Hcmd).
  destruct (Hcmd text_ab eq_refl) as (Hs & Hcalls & _).
  split; [exact Hs|]. rewrite Hcalls. reflexivity.
Defined.

(** *** Token file *)

(** C10. When the token file exists and holds white space only,
    [load_jwt] returns the empty string, which the test [if jwt_token]
    rejects as it rejects [None]: there is no token login, and
    [authenticate] returns, issues and prints what it does when the file
    is absent. With both credentials set, its only event is the credential
    login; without them, it exits with status 1 without any event. *)
Theorem blank_token_file_counts_as_no_token :
  forall cfg E w text,
    jwt_file w = Some text ->
    forallb isspace text = true ->
    fst (load_jwt w) = Normal (Some (py "")) /\
    truthy (py "") = false /\
    stored_token w = None /\
    calls_named (py "loginByToken") (issued (authenticate cfg E) w) = [] /\
    fst (authenticate cfg E w) =
      fst (authenticate cfg E (set_jwt_file None w)) /\
    issued (authenticate cfg E) w =
      issued (authenticate cfg E) (set_jwt_file None w) /\
    printed (authenticate cfg E) w =
      printed (authenticate cfg E) (set_jwt_file None w) /\
    (configured cfg = true ->
     issued (authenticate cfg E) w =
       [EvCall (py "login") (credentials cfg)]) /\
    (configured cfg = false ->
     issued (authenticate cfg E) w = [] /\
     fst (authenticate cfg E w) = SysExit 1).
Proof.
  intros cfg E w text Hf Hb.
  assert (Hst : stored_token w = None).
  { unfold stored_token. rewrite Hf, (strip_blank text Hb). reflexivity. }
  destruct (@authenticate_blank cfg E w text Hf Hb)
    as (Hr & Ht & Ho & _ & _ & evs & Hevs & Hshape).
  assert (Hi : issued (authenticate cfg E) w = evs)
    by (apply issued_eq; exact Hevs).
  split.
  { unfold load_jwt, bind, gets, ret. rewrite Hf. simpl.
    rewrite (strip_blank text Hb). reflexivity. }
  split; [reflexivity|]. split; [exact Hst|].
  split.
  { rewrite Hi. destruct Hshape as [-> | ->]; reflexivity. }
  split; [exact Hr|].
  split.
  { unfold issued. rewrite Ht. reflexivity. }
  split.
  { unfold printed. rewrite Ho. reflexivity. }
  assert (Hno : forall t, stored_token w = Some t ->
                          response_ok (token_answer E w t) = false)
    by (intros t Hs; rewrite Hst in Hs; discriminate Hs).
  destruct (@authenticate_fallback cfg E w Hno) as (r & w' & Hrun & Hcase).
  split.
  - intros Hc. rewrite Hc in Hcase. destruct Hcase as [Htr _].
    apply issued_eq. rewrite Hrun. simpl. rewrite Htr.
    unfold token_events. rewrite Hst. reflexivity.
  - intros Hc. rewrite Hc in Hcase. destruct Hcase as (-> & Htr & _).
    split.
    + apply issued_eq. rewrite Hrun. simpl. rewrite Htr.
      unfold token_events. rewrite Hst. reflexivity.
    + rewrite Hrun. reflexivity.
Qed.

(** A token file that holds a space and a line feed, with the
    credentials set: the credential login is the only event. *)
Lemma blank_token_file_counts_as_no_token_witness :
  jwt_file (initial_world (Some [32%N; 10%N]) None) = Some [32%N; 10%N] /\
  forallb isspace [32%N; 10%N] = true /\
  issued (authenticate example_config env_yes)
         (initial_world (Some [32%N; 10%N]) None) =
    [EvCall (py "login") (credentials example_config)].
Proof.
  split; [reflexivity|]. split; [reflexivity|].
  destruct (@blank_token_file_counts_as_no_token example_config env_yes
              (initial_world (Some [32%N; 10%N]) None) [32%N; 10%N]
              eq_refl eq_refl)
    as (_ & _ & _ & _ & _ & _ & _ & Hc & _).
  apply Hc. reflexivity.
Defined.

(** *** Domain Source *)

(** C9. Take a Domain Source in which two lines (or more) are well
    formed and have the same first field [n], [lb] being the last such
    line of the file. Then [load_domains] returns a mapping that has the
    key [n] exactly once, bound to the third field of [lb]. The lines are
    those of the file, cut at the line feeds. *)
Theorem load_domains_keeps_the_last_line_of_a_name :
  forall w text before la between lb after n,
    domains_file w = Some text ->
    split_on LF text = before ++ la :: between ++ lb :: after ->
    well_formed la = true -> name_of la = n ->
    well_formed lb = true -> name_of lb = n ->
    (forall l, In l after -> well_formed l = true -> name_of l <> n) ->
    exists D,
      fst (load_domains w) = Normal D /\
      count_occ str_eq_dec (dict_keys D) n = 1 /\
      dict_get n D = Some (url_of lb).
Proof.
  intros w text before la between lb after n Hf Hlines _ _ Hwb Hnb Hlater.
  exists (domains_of text).
  rewrite (load_domains_some w Hf). simpl. split; [reflexivity|].
  assert (Hget : dict_get n (domains_of text) = Some (url_of lb)).
  { rewrite domains_of_lines, Hlines.
    change (before ++ la :: between ++ lb :: after)
      with (before ++ (la :: between) ++ lb :: after).
    rewrite app_assoc. subst n. apply fold_load_last; assumption. }
  split; [|exact Hget].
  rewrite (count_occ_NoDup_mem _ n (domains_of_NoDup text)).
  replace (dict_mem n (domains_of text)) with true; [reflexivity|].
  symmetry. apply dict_mem_In. apply dict_get_In in Hget.
  apply (in_map fst) in Hget. exact Hget.
Qed.

(** [text_twice] has [a.com] on its first and third lines: the mapping
    binds it once, to the URL of the third. *)
Lemma load_domains_keeps_the_last_line_of_a_name_witness :
  split_on LF text_twice =
    [] ++ py "a.com 192.0.2.1 http://first" ::
    [py "b.com 192.0.2.2 http://b.com"] ++
    py "a.com 192.0.2.3 http://second" :: [[]] /\
  exists D,
    fst (load_domains (world_with (Some text_twice) [])) = Normal D /\
    count_occ str_eq_dec (dict_keys D) (py "a.com") = 1 /\
    dict_get (py "a.com") D = Some (py "http://second").
Proof.
  split; [reflexivity|].
  apply (@load_domains_keeps_the_last_line_of_a_name
           (world_with (Some text_twice) []) text_twice
           [] (py "a.com 192.0.2.1 http://first")
           [py "b.com 192.0.2.2 http://b.com"]
           (py "a.com 192.0.2.3 http://second") [[]] (py "a.com"));
    try reflexivity.
  intros l [<-|[]] Hwf. discriminate Hwf.
Defined.

(* ------------------------------------------------------------------------- *)
(** ** Further properties of the code *)
(* ------------------------------------------------------------------------- *)

(** *** Listing *)

Lemma str_leb_total a b : str_leb a b = false -> str_leb b a = true.
Proof.
  revert b. induction a as [|x a IH]; intros [|y b]; simpl; try discriminate;
    try reflexivity.
  destruct (N.ltb x y) eqn:Hlt; [discriminate|].
  destruct (N.eqb x y) eqn:Heq.
  - apply N.eqb_eq in Heq. subst y. rewrite N.ltb_irrefl, N.eqb_refl.
    apply IH.
  - intros _. apply N.ltb_ge in Hlt. apply N.eqb_neq in Heq.
    assert (Hyx : (y <? x)%N = true) by (apply N.ltb_lt; lia).
    rewrite Hyx. reflexivity.
Qed.

Lemma insert_by_name_perm x l : Permutation (insert_by_name x l) (x :: l).
Proof.
  induction l as [|y l IH]; simpl; [apply Permutation_refl|].
  destruct (str_leb (fst x) (fst y)); [apply Permutation_refl|].
  apply (perm_trans (perm_skip y IH)). apply perm_swap.
Qed.

Lemma insert_by_name_sorted x l :
  Sorted by_name l -> Sorted by_name (insert_by_name x l).
Proof.
  induction l as [|y l IH]; simpl; intros Hs.
  - repeat constructor.
  - destruct (str_leb (fst x) (fst y)) eqn:Hxy.
    + constructor; [exact Hs|]. constructor. exact Hxy.
    + inversion Hs as [|? ? Hs' Hhd]; subst.
      constructor; [apply IH; exact Hs'|].
      destruct l as [|z l]; simpl.
      * constructor. apply str_leb_total. exact Hxy.
      * destruct (str_leb (fst x) (fst z)).
        -- constructor. apply str_leb_total. exact Hxy.
        -- constructor. inversion Hhd; assumption.
Qed.

Lemma sorted_items_perm d : Permutation (sorted_items d) d.
Proof.
  unfold sorted_items. induction d as [|x d IH]; simpl; [constructor|].
  apply (perm_trans (insert_by_name_perm x _)). constructor. exact IH.
Qed.

Lemma sorted_items_sorted d : Sorted by_name (sorted_items d).
Proof.
  unfold sorted_items. induction d as [|x d IH]; simpl; [constructor|].
  apply insert_by_name_sorted. exact IH.
Qed.

(** X1. [cmd_list] always ends normally and issues no event. It prints
    its header, one line per item of the directory, the lines being the
    items of the directory rearranged in the order of their names, and the
    total, which is the number of names of the directory. *)
Theorem cmd_list_prints_the_directory_by_name :
  forall cfg w,
    fst (cmd_list cfg w) = Normal tt /\
    issued (cmd_list cfg) w = [] /\
    exists items,
      printed (cmd_list cfg) w =
        MsgListHeader (PARENT_GROUP_ID cfg) ::
        map item_line items ++
        [MsgBlank;
         MsgTotal
           (List.length (dict_keys
              (get_existing_monitors cfg (monitor_list w))))] /\
      Permutation items (get_existing_monitors cfg (monitor_list w)) /\
      Sorted by_name items.
Proof.
  intros cfg w.
  destruct (cmd_list_spec cfg w) as (w' & Hrun & Ht & Ho).
  split; [rewrite Hrun; reflexivity|].
  split.
  { apply issued_eq. rewrite Hrun. simpl. rewrite Ht.
    symmetry. apply app_nil_r. }
  exists (sorted_items (get_existing_monitors cfg (monitor_list w))).
  split; [|split].
  - rewrite list_printed. unfold dict_keys. rewrite length_map. reflexivity.
  - apply sorted_items_perm.
  - apply sorted_items_sorted.
Qed.

(** *** The payload of [create_monitor] *)

Lemma existsb_fst_Z (acc : list (Z * bool)) nid :
  existsb (fun kv => Z.eqb (fst kv) nid) acc = true <-> In nid (map fst acc).
Proof.
  rewrite existsb_exists, in_map_iff. split.
  - intros (x & Hin & Hx). apply Z.eqb_eq in Hx. exists x. auto.
  - intros (x & Hx & Hin). exists x. split; [exact Hin|].
    apply Z.eqb_eq. exact Hx.
Qed.

Lemma notif_fold ids (acc : list (Z * bool)) :
  NoDup (map fst acc) ->
  NoDup (map fst
    (fold_left
       (fun acc nid =>
          if existsb (fun kv => Z.eqb (fst kv) nid) acc then acc
          else acc ++ [(nid, true)]) ids acc)) /\
  (forall k,
     In k (map fst
       (fold_left
          (fun acc nid =>
             if existsb (fun kv => Z.eqb (fst kv) nid) acc then acc
             else acc ++ [(nid, true)]) ids acc)) <->
     In k (map fst acc) \/ In k ids) /\
  (forall k v,
     In (k, v)
       (fold_left
          (fun acc nid =>
             if existsb (fun kv => Z.eqb (fst kv) nid) acc then acc
             else acc ++ [(nid, true)]) ids acc) ->
     In (k, v) acc \/ v = true).
Proof.
  revert acc. induction ids as [|nid ids IH]; intros acc Hnd; simpl.
  - split; [exact Hnd|]. split; [intros k; tauto | intros k v; tauto].
  - destruct (existsb (fun kv => Z.eqb (fst kv) nid) acc) eqn:Hex.
    + destruct (IH acc Hnd) as (H1 & H2 & H3).
      split; [exact H1|]. split; [|exact H3].
      intros k. rewrite H2. apply existsb_fst_Z in Hex.
      split; [tauto|]. intros [H|[<-|H]]; auto.
    + assert (Hnot : ~ In nid (map fst acc)).
      { intros H. apply existsb_fst_Z in H. congruence. }
      assert (Hnd' : NoDup (map fst (acc ++ [(nid, true)]))).
      { rewrite map_app. simpl. apply NoDup_app; [exact Hnd| |].
        - repeat constructor. simpl. tauto.
        - intros x Hx [<-|[]]. contradiction. }
      destruct (IH _ Hnd') as (H1 & H2 & H3).
      split; [exact H1|]. split.
      * intros k. rewrite H2, map_app, in_app_iff. simpl. tauto.
      * intros k v Hin. destruct (H3 k v Hin) as [H|H]; [|auto].
        apply in_app_iff in H. destruct H as [H|[H|[]]]; [auto|].
        right. congruence.
Qed.

(** X2. Every [add] request of [create_monitor] carries the name and the
    URL it was called with, and a notification list with one entry per
    configured notification identifier, each identifier once whatever its
    number of occurrences in [DEFAULT_NOTIFICATION_IDS], each bound to
    [True]; the list is empty when none is configured. *)
Theorem create_monitor_attaches_each_notification_once :
  forall cfg E name url w,
    exists d,
      issued (create_monitor cfg E name url) w =
        [EvCall (py "add") (PMonitor d)] /\
      md_name d = name /\
      md_url d = url /\
      NoDup (map fst (md_notificationIDList d)) /\
      (forall k,
         In k (map fst (md_notificationIDList d)) <->
         In k (DEFAULT_NOTIFICATION_IDS cfg)) /\
      (forall k v, In (k, v) (md_notificationIDList d) -> v = true) /\
      (DEFAULT_NOTIFICATION_IDS cfg = [] -> md_notificationIDList d = []).
Proof.
  intros cfg E name url w.
  exists (build_monitor_data cfg name url).
  destruct (create_monitor_spec cfg E name url w)
    as (b & w' & Hrun & _ & (Ht & _)).
  split.
  { apply issued_eq. rewrite Hrun. exact Ht. }
  split; [reflexivity|]. split; [reflexivity|]. simpl.
  unfold notif_list.
  destruct (notif_fold (DEFAULT_NOTIFICATION_IDS cfg) [] (NoDup_nil Z))
    as (H1 & H2 & H3).
  split; [exact H1|]. split.
  - intros k. rewrite H2. simpl. tauto.
  - split.
    + intros k v Hin. destruct (H3 k v Hin) as [[]|H]. exact H.
    + intros ->. reflexivity.
Qed.

(** *** The reports of [cmd_sync] and [cmd_cleanup_confirm] *)

Lemma n_created_app a b : n_created (a ++ b) = n_created a + n_created b.
Proof. unfold n_created. rewrite filter_app, length_app. reflexivity. Qed.

Lemma n_not_created_app a b :
  n_not_created (a ++ b) = n_not_created a + n_not_created b.
Proof. unfold n_not_created. rewrite filter_app, length_app. reflexivity. Qed.

Lemma n_deleted_app a b : n_deleted (a ++ b) = n_deleted a + n_deleted b.
Proof. unfold n_deleted. rewrite filter_app, length_app. reflexivity. Qed.

Lemma n_not_deleted_app a b :
  n_not_deleted (a ++ b) = n_not_deleted a + n_not_deleted b.
Proof. unfold n_not_deleted. rewrite filter_app, length_app. reflexivity. Qed.

Section Reports.

Variable cfg : config.
Variable E : env.

(** [create_monitor] prints one success line and returns [True], or one
    error line and returns [False]. *)
Lemma create_monitor_out name url w :
  exists b w' out,
    create_monitor cfg E name url w = (Normal b, w') /\
    stdout w' = stdout w ++ out /\
    n_created out = (if b then 1 else 0) /\
    n_not_created out = (if b then 0 else 1).
Proof.
  unfold create_monitor, call_with_callback, sio_call, deliver, bind, gets,
    modify, print, ret. simpl.
  destruct (env_call E (trace w) (py "add")
              (PMonitor (build_monitor_data cfg name url))) as [r| |e];
    simpl; try destruct (response_ok r); simpl;
    destruct (env_push E (trace w ++ _)); simpl;
    do 3 eexists; (split; [reflexivity|]); simpl;
    rewrite <- ?app_assoc; (split; [reflexivity|]); split; reflexivity.
Qed.

Lemma delete_monitor_out monitor_id name w :
  exists b w' out,
    delete_monitor E monitor_id name w = (Normal b, w') /\
    stdout w' = stdout w ++ out /\
    n_deleted out = (if b then 1 else 0) /\
    n_not_deleted out = (if b then 0 else 1).
Proof.
  unfold delete_monitor, call_with_callback, sio_call, deliver, bind, gets,
    modify, print, ret. simpl.
  destruct (env_call E (trace w) (py "deleteMonitor")
              (PMonitorId monitor_id)) as [r| |e];
    simpl; try destruct (response_ok r); simpl;
    destruct (env_push E (trace w ++ _)); simpl;
    do 3 eexists; (split; [reflexivity|]); simpl;
    rewrite <- ?app_assoc; (split; [reflexivity|]); split; reflexivity.
Qed.

Lemma sync_loop_out items existing created w :
  exists c w' out,
    sync_loop cfg E items existing created w = (Normal c, w') /\
    stdout w' = stdout w ++ out /\
    c = (created + Z.of_nat (n_created out))%Z /\
    n_created out + n_not_created out =
      List.length (filter (fun kv => negb (dict_mem (fst kv) existing)) items).
Proof.
  revert created w.
  induction items as [|[name url] items IH]; intros created w; simpl.
  - exists created, w, []. rewrite app_nil_r. simpl.
    repeat split; try reflexivity. lia.
  - destruct (dict_mem name existing); simpl; [apply IH|].
    destruct (create_monitor_out name url w)
      as (b & w1 & o1 & Hc & Ho1 & Hn1 & Hm1).
    rewrite (bind_normal _ Hc), (bind_normal _ (sleep_eq E 200 w1)).
    destruct (IH (if b then (created + 1)%Z else created)
                 (delivered E (add_event (EvSleep 200) w1)))
      as (c & w2 & o2 & Hl & Ho2 & Hc2 & Hn2).
    exists c, w2, (o1 ++ o2). split; [exact Hl|].
    rewrite delivered_stdout in Ho2. simpl in Ho2.
    rewrite Ho2, Ho1, app_assoc, n_created_app, n_not_created_app, Hn1, Hm1.
    split; [reflexivity|]. destruct b; simpl; split; lia.
Qed.

Lemma confirm_loop_out items domains deleted w :
  exists c w' out,
    confirm_loop E items domains deleted w = (Normal c, w') /\
    stdout w' = stdout w ++ out /\
    c = (deleted + Z.of_nat (n_deleted out))%Z /\
    n_deleted out + n_not_deleted out =
      List.length (obsolete domains items).
Proof.
  revert deleted w.
  induction items as [|[name data] items IH]; intros deleted w; simpl.
  - exists deleted, w, []. rewrite app_nil_r. simpl.
    repeat split; try reflexivity. lia.
  - destruct (dict_mem name domains); simpl; [apply IH|].
    destruct (delete_monitor_out (e_id data) name w)
      as (b & w1 & o1 & Hc & Ho1 & Hn1 & Hm1).
    rewrite (bind_normal _ Hc), (bind_normal _ (sleep_eq E 200 w1)).
    destruct (IH (if b then (deleted + 1)%Z else deleted)
                 (delivered E (add_event (EvSleep 200) w1)))
      as (c & w2 & o2 & Hl & Ho2 & Hc2 & Hn2).
    exists c, w2, (o1 ++ o2). split; [exact Hl|].
    rewrite delivered_stdout in Ho2. simpl in Ho2.
    rewrite Ho2, Ho1, app_assoc, n_deleted_app, n_not_deleted_app, Hn1, Hm1.
    split; [reflexivity|]. destruct b; simpl; split; lia.
Qed.

End Reports.

(** X3. When the Domain Source exists, [cmd_sync] prints its header, the
    lines of its [add] requests and the report: the count printed after
    [Created:] is the number of success lines, the success and error
    lines together are as many as the entries of the create-set, and the
    total printed is the number of names of the mapping, so the count
    never exceeds the total. *)
Theorem cmd_sync_reports_what_it_created :
  forall cfg E w text,
    domains_file w = Some text ->
    exists body,
      printed (cmd_sync cfg E) w =
        MsgSyncHeader :: body ++
        [MsgBlank;
         MsgCreatedCount (Z.of_nat (n_created body));
         MsgTotalInFile (List.length (dict_keys (domains_of text)))] /\
      n_created body + n_not_created body =
        List.length (create_set cfg (domains_of text) (monitor_list w)) /\
      n_created body <= List.length (dict_keys (domains_of text)).
Proof.
  intros cfg E w text Hf.
  destruct (sync_loop_out cfg E (domains_of text)
              (get_existing_monitors cfg (monitor_list w)) 0%Z
              (add_output MsgSyncHeader w))
    as (c & w1 & body & Hl & Ho & Hc & Hn).
  exists body.
  assert (Hrun : cmd_sync cfg E w =
    (Normal tt,
     add_output (MsgTotalInFile (List.length (domains_of text)))
       (add_output (MsgCreatedCount c) (add_output MsgBlank w1)))).
  { unfold cmd_sync.
    rewrite (bind_normal _ (print_eq _ w)).
    rewrite (bind_normal _
               (load_domains_some (add_output MsgSyncHeader w) Hf)).
    unfold gets at 1. unfold bind at 1. simpl monitor_list.
    rewrite (bind_normal _ Hl). reflexivity. }
  rewrite create_set_filter in Hn.
  split; [|split; [exact Hn|]].
  - apply printed_eq. rewrite Hrun. simpl. rewrite Ho. simpl.
    rewrite <- !app_assoc. simpl. subst c. unfold dict_keys.
    rewrite length_map. reflexivity.
  - unfold dict_keys. rewrite length_map.
    pose proof (filter_length_le
      (fun kv => negb (name_in_filtered cfg (fst kv) (monitor_list w)))
      (domains_of text)) as Hle.
    unfold create_set in Hn. lia.
Qed.

(** Every request times out: both domains of [text_ab] are reported as
    not created. *)
Lemma cmd_sync_reports_what_it_created_witness :
  domains_file (world_with (Some text_ab) []) = Some text_ab /\
  exists body,
    printed (cmd_sync example_config env_timeout)
            (world_with (Some text_ab) []) =
      MsgSyncHeader :: body ++
      [MsgBlank; MsgCreatedCount (Z.of_nat (n_created body));
       MsgTotalInFile 2] /\
    n_created body + n_not_created body = 2.
Proof.
  split; [reflexivity|].
  destruct (@cmd_sync_reports_what_it_created example_config env_timeout
              (world_with (Some text_ab) []) text_ab eq_refl)
    as (body & Hp & Hn & _).
  exists body. split; [exact Hp | exact Hn].
Defined.

(** X4. When the Domain Source exists, [cmd_cleanup_confirm] prints its
    header, the lines of its [deleteMonitor] requests and the report: the
    count printed after [Deleted:] is the number of success lines, and the
    success and error lines together are as many as the items selected
    for deletion. *)
Theorem cmd_cleanup_confirm_reports_what_it_deleted :
  forall cfg E w text,
    domains_file w = Some text ->
    exists body,
      printed (cmd_cleanup_confirm cfg E) w =
        MsgConfirmHeader :: body ++
        [MsgBlank; MsgDeletedCount (Z.of_nat (n_deleted body))] /\
      n_deleted body + n_not_deleted body =
        List.length
          (obsolete (domains_of text)
             (get_existing_monitors cfg (monitor_list w))) /\
      n_deleted body <=
        List.length (dict_keys (get_existing_monitors cfg (monitor_list w))).
Proof.
  intros cfg E w text Hf.
  destruct (confirm_loop_out E
              (get_existing_monitors cfg (monitor_list w)) (domains_of text)
              0%Z (add_output MsgConfirmHeader w))
    as (c & w1 & body & Hl & Ho & Hc & Hn).
  exists body.
  assert (Hrun : cmd_cleanup_confirm cfg E w =
    (Normal tt, add_output (MsgDeletedCount c) (add_output MsgBlank w1))).
  { unfold cmd_cleanup_confirm.
    rewrite (bind_normal _ (print_eq _ w)).
    rewrite (bind_normal _
               (load_domains_some (add_output MsgConfirmHeader w) Hf)).
    unfold gets at 1. unfold bind at 1. simpl monitor_list.
    rewrite (bind_normal _ Hl). reflexivity. }
  split; [|split; [exact Hn|]].
  - apply printed_eq. rewrite Hrun. simpl. rewrite Ho. simpl.
    rewrite <- !app_assoc. simpl. subst c. reflexivity.
  - unfold dict_keys. rewrite length_map.
    pose proof (filter_length_le
      (fun ne : str * entry => negb (dict_mem (fst ne) (domains_of text)))
      (get_existing_monitors cfg (monitor_list w))) as Hle.
    unfold obsolete in Hn. lia.
Qed.

(** With [a.com] in the Domain Source and monitors for [a.com] and
    [c.com], one item is selected and its deletion is reported. *)
Lemma cmd_cleanup_confirm_reports_what_it_deleted_witness :
  domains_file (world_with (Some text_a) snapshot_ac) = Some text_a /\
  exists body,
    printed (cmd_cleanup_confirm example_config env_yes)
            (world_with (Some text_a) snapshot_ac) =
      MsgConfirmHeader :: body ++
      [MsgBlank; MsgDeletedCount (Z.of_nat (n_deleted body))] /\
    n_deleted body + n_not_deleted body = 1.
Proof.
  split; [reflexivity|].
  destruct (@cmd_cleanup_confirm_reports_what_it_deleted example_config
              env_yes (world_with (Some text_a) snapshot_ac) text_a eq_refl)
    as (body & Hp & Hn & _).
  exists body. split; [exact Hp | exact Hn].
Defined.

(** *** What a request that fails is reported with *)

(** X5. [create_monitor] and [delete_monitor] return [True] exactly when
    the request is answered by a dictionary that is not empty and whose
    [ok] is true, and print one line: the success line, or the error line
    with the reason, which is the [msg] of the answer, [Unknown error]
    when the answer has none, and [No response] when the answer is [None]
    or an empty dictionary, or when the request timed out or raised; in
    these two last cases the warning of [call_with_callback] comes
    first. *)
Theorem requests_report_their_outcome :
  forall cfg E w,
    (forall name url,
       fst (create_monitor cfg E name url w) =
         Normal (response_ok (callback_value
           (env_call E (trace w) (py "add")
              (PMonitor (build_monitor_data cfg name url))))) /\
       printed (create_monitor cfg E name url) w =
         match env_call E (trace w) (py "add")
                 (PMonitor (build_monitor_data cfg name url)) with
         | Returned (Some r) =>
             if response_ok (Some r)
             then [MsgCreated name url (r_monitorID r)]
             else [MsgErrorCreating name
                     (if response_truthy r
                      then opt_default (py "Unknown error") (r_msg r)
                      else py "No response")]
         | Returned None => [MsgErrorCreating name (py "No response")]
         | RaisedTimeout =>
             [MsgWarnTimeout (py "add");
              MsgErrorCreating name (py "No response")]
         | RaisedError e =>
             [MsgWarnError (py "add") e;
              MsgErrorCreating name (py "No response")]
         end) /\
    (forall monitor_id name,
       fst (delete_monitor E monitor_id name w) =
         Normal (response_ok (callback_value
           (env_call E (trace w) (py "deleteMonitor")
              (PMonitorId monitor_id)))) /\
       printed (delete_monitor E monitor_id name) w =
         match env_call E (trace w) (py "deleteMonitor")
                 (PMonitorId monitor_id) with
         | Returned (Some r) =>
             if response_ok (Some r)
             then [MsgDeleted name monitor_id]
             else [MsgErrorDeleting name
                     (if response_truthy r
                      then opt_default (py "Unknown error") (r_msg r)
                      else py "No response")]
         | Returned None => [MsgErrorDeleting name (py "No response")]
         | RaisedTimeout =>
             [MsgWarnTimeout (py "deleteMonitor");
              MsgErrorDeleting name (py "No response")]
         | RaisedError e =>
             [MsgWarnError (py "deleteMonitor") e;
              MsgErrorDeleting name (py "No response")]
         end).
Proof.
  intros cfg E w. split.
  - intros name url.
    destruct (create_monitor_spec cfg E name url w)
      as (b & w' & Hrun & Hb & _).
    split; [rewrite Hrun, Hb; reflexivity|].
    clear. apply printed_eq.
    unfold create_monitor, call_with_callback, sio_call, deliver, bind, gets,
      modify, print, ret, failure_msg. simpl.
    destruct (env_call E (trace w) (py "add")
                (PMonitor (build_monitor_data cfg name url))) as [[r|]| |e];
      simpl; try destruct (response_truthy r && _); simpl;
      destruct (env_push E (trace w ++ _)); simpl;
      rewrite <- ?app_assoc; reflexivity.
  - intros monitor_id name.
    destruct (delete_monitor_spec E monitor_id name w)
      as (b & w' & Hrun & Hb & _).
    split; [rewrite Hrun, Hb; reflexivity|].
    clear. apply printed_eq.
    unfold delete_monitor, call_with_callback, sio_call, deliver, bind, gets,
      modify, print, ret, failure_msg. simpl.
    destruct (env_call E (trace w) (py "deleteMonitor")
                (PMonitorId monitor_id)) as [[r|]| |e];
      simpl; try destruct (response_truthy r && _); simpl;
      destruct (env_push E (trace w ++ _)); simpl;
      rewrite <- ?app_assoc; reflexivity.
Qed.

(** *** The course of [main] *)

Lemma sync_events_mode cfg items :
  forallb is_mode_event (sync_events cfg items) = true.
Proof. induction items as [|[n u] items IH]; simpl; auto. Qed.

Lemma confirm_events_mode items :
  forallb is_mode_event (confirm_events items) = true.
Proof. induction items as [|[n e] items IH]; simpl; auto. Qed.

Section Course.

Variable cfg : config.
Variable E : env.

(** [main] step by step, when a flag is given. *)
Lemma main_unfold a w :
  any_flag a = true ->
  main cfg E a w =
  match env_connect E (trace w) with
  | Some e =>
      (SysExit 1,
       add_output (MsgConnectionFailed e)
         (add_event (EvConnect (UPTIME_KUMA_URL cfg))
            (add_output (MsgConnecting (UPTIME_KUMA_URL cfg)) w)))
  | None =>
      match authenticate cfg E (connected cfg E w) with
      | (SysExit c, w2) => (SysExit c, w2)
      | (Normal _, w2) =>
          (fst (run_mode cfg E a (delivered E (add_event (EvSleep 1000) w2))),
           add_output MsgDisconnected
             (add_event EvDisconnect
                (snd (run_mode cfg E a
                        (delivered E (add_event (EvSleep 1000) w2))))))
      end
  end.
Proof.
  unfold any_flag. intros Hflag. unfold main. rewrite Hflag. simpl.
  rewrite (bind_normal _ (print_eq _ w)).
  unfold bind at 1. rewrite sio_connect_eq. simpl.
  destruct (env_connect E (trace w)) as [e|]; [reflexivity|].
  fold (connected cfg E w). fold (run_mode cfg E a).
  unfold bind at 1.
  destruct (authenticate cfg E (connected cfg E w)) as [[b|c] w2];
    [|reflexivity].
  rewrite (bind_normal _ (sleep_eq E 1000 w2)).
  unfold try_finally.
  destruct (run_mode cfg E a (delivered E (add_event (EvSleep 1000) w2)));
    reflexivity.
Qed.

Lemma connected_trace w :
  trace (connected cfg E w) = trace w ++ [EvConnect (UPTIME_KUMA_URL cfg)].
Proof. unfold connected. rewrite delivered_trace. reflexivity. Qed.

Lemma connected_stdout w :
  stdout (connected cfg E w) =
  stdout w ++ [MsgConnecting (UPTIME_KUMA_URL cfg); MsgConnected].
Proof.
  unfold connected. rewrite delivered_stdout. simpl.
  rewrite <- app_assoc. reflexivity.
Qed.

Lemma connected_domains_file w :
  domains_file (connected cfg E w) = domains_file w.
Proof.
  unfold connected.
  destruct (delivered_extends E
    (add_output MsgConnected
       (add_event (EvConnect (UPTIME_KUMA_URL cfg))
          (add_output (MsgConnecting (UPTIME_KUMA_URL cfg)) w))))
    as (_ & _ & Hd).
  rewrite Hd. reflexivity.
Qed.

(** The events of the dispatched command are requests to create or to
    delete, and pauses. *)
Lemma run_mode_events a w :
  exists evs,
    trace (snd (run_mode cfg E a w)) = trace w ++ evs /\
    forallb is_mode_event evs = true.
Proof.
  unfold run_mode.
  destruct (a_sync a).
  { destruct (domains_file w) as [text|] eqn:Hf.
    - destruct (cmd_sync_spec cfg E w Hf) as (w' & Hrun & Ht & _).
      rewrite Hrun. eexists. split; [exact Ht | apply sync_events_mode].
    - destruct (cmd_sync_missing cfg E w Hf) as (w' & Hrun & Ht & _).
      rewrite Hrun. exists []. auto. }
  destruct (a_list a).
  { destruct (cmd_list_spec cfg w) as (w' & Hrun & Ht & _).
    rewrite Hrun. exists []. simpl. rewrite Ht, app_nil_r. auto. }
  destruct (a_cleanup a).
  { destruct (domains_file w) as [text|] eqn:Hf.
    - destruct (cmd_cleanup_preview_spec cfg w Hf) as (w' & Hrun & Ht & _).
      rewrite Hrun. exists []. simpl. rewrite Ht, app_nil_r. auto.
    - destruct (cmd_cleanup_preview_missing cfg w Hf) as (w' & Hrun & Ht & _).
      rewrite Hrun. exists []. auto. }
  destruct (a_cleanup_confirm a).
  { destruct (domains_file w) as [text|] eqn:Hf.
    - destruct (cmd_cleanup_confirm_spec cfg E w Hf) as (w' & Hrun & Ht & _).
      rewrite Hrun. eexists. split; [exact Ht | apply confirm_events_mode].
    - destruct (cmd_cleanup_confirm_missing cfg E w Hf)
        as (w' & Hrun & Ht & _).
      rewrite Hrun. exists []. auto. }
  exists []. simpl. rewrite app_nil_r. auto.
Qed.

End Course.

(** X6. In every run of [main] with a flag, the first event is the one
    connection attempt, and the logins follow, before anything else. Then
    either the run stops there, by an exit with status 1 and without
    disconnecting (the connection or the authentication failed), or it
    waits one second, lets the command issue its requests to create or
    delete and its pauses, and disconnects: the disconnection is the last
    event, whatever the command did. *)
Theorem main_connects_first_and_disconnects_last :
  forall cfg E a w,
    any_flag a = true ->
    exists logins rest,
      issued (main cfg E a) w =
        EvConnect (UPTIME_KUMA_URL cfg) :: logins ++ rest /\
      forallb is_login logins = true /\
      ((rest = [] /\ fst (main cfg E a w) = SysExit 1) \/
       (exists mode_events,
          rest = EvSleep 1000 :: mode_events ++ [EvDisconnect] /\
          forallb is_mode_event mode_events = true)).
Proof.
  intros cfg E a w Hflag.
  unfold issued. rewrite (main_unfold cfg E a w Hflag).
  destruct (env_connect E (trace w)) as [e|].
  - exists [], []. simpl. rewrite skipn_app, skipn_all, Nat.sub_diag.
    split; [reflexivity|]. split; [reflexivity|]. left. auto.
  - destruct (authenticate_frame cfg E (connected cfg E w))
      as (r & w2 & levs & out & Ha & Hr & Ht2 & Hl & _).
    rewrite Ha. rewrite connected_trace in Ht2.
    destruct Hr as [-> | ->].
    + destruct (run_mode_events cfg E a
                  (delivered E (add_event (EvSleep 1000) w2)))
        as (mevs & Htm & Hm).
      exists levs, (EvSleep 1000 :: mevs ++ [EvDisconnect]).
      split; [|split; [exact Hl|]].
      * simpl. rewrite Htm, delivered_trace. simpl. rewrite Ht2.
        rewrite <- !app_assoc, skipn_app, skipn_all, Nat.sub_diag.
        reflexivity.
      * right. exists mevs. auto.
    + exists levs, []. simpl.
      split; [|split; [exact Hl|left; auto]].
      rewrite Ht2, <- !app_assoc, skipn_app, skipn_all, Nat.sub_diag.
      rewrite app_nil_r. reflexivity.
Qed.

(** [--sync] against a service that pushed [snapshot_ac], with [text_a]:
    the run ends with the disconnection. *)
Lemma main_connects_first_and_disconnects_last_witness :
  any_flag args_sync = true /\
  exists logins rest,
    issued (main example_config env_ac args_sync)
           (initial_world None (Some text_a)) =
      EvConnect (UPTIME_KUMA_URL example_config) :: logins ++ rest /\
    forallb is_login logins = true.
Proof.
  split; [reflexivity|].
  destruct (@main_connects_first_and_disconnects_last example_config env_ac
              args_sync (initial_world None (Some text_a)) eq_refl)
    as (logins & rest & Hi & Hl & _).
  exists logins, rest. split; [exact Hi | exact Hl].
Defined.

(** X7. When the connection attempt raises, [main] prints the error it
    raised with, exits with status 1, and the attempt is the only event:
    no login, no request, no disconnection. *)
Theorem main_exits_one_when_the_connection_fails :
  forall cfg E a w e,
    any_flag a = true ->
    env_connect E (trace w) = Some e ->
    fst (main cfg E a w) = SysExit 1 /\
    issued (main cfg E a) w = [EvConnect (UPTIME_KUMA_URL cfg)] /\
    printed (main cfg E a) w =
      [MsgConnecting (UPTIME_KUMA_URL cfg); MsgConnectionFailed e].
Proof.
  intros cfg E a w e Hflag He.
  assert (Hrun : main cfg E a w =
    (SysExit 1,
     add_output (MsgConnectionFailed e)
       (add_event (EvConnect (UPTIME_KUMA_URL cfg))
          (add_output (MsgConnecting (UPTIME_KUMA_URL cfg)) w))))
    by (rewrite (main_unfold cfg E a w Hflag), He; reflexivity).
  split; [rewrite Hrun; reflexivity|]. split.
  - apply issued_eq. rewrite Hrun. reflexivity.
  - apply printed_eq. rewrite Hrun. simpl. rewrite <- app_assoc. reflexivity.
Qed.

Lemma main_exits_one_when_the_connection_fails_witness :
  any_flag args_sync = true /\
  env_connect env_down (trace (initial_world None None)) =
    Some (py "Connection refused") /\
  issued (main source_config env_down args_sync) (initial_world None None) =
    [EvConnect (UPTIME_KUMA_URL source_config)].
Proof.
  split; [reflexivity|]. split; [reflexivity|].
  destruct (@main_exits_one_when_the_connection_fails source_config env_down
              args_sync (initial_world None None) (py "Connection refused")
              eq_refl eq_refl) as (_ & Hi & _).
  exact Hi.
Defined.

(** X8. A run of [main] with [--sync] whose connection and authentication
    succeed, with a Domain Source in place, ends normally, with exit
    status 0 whatever the answers to its [add] requests. Its create-set is
    computed from the snapshot that the service has pushed by the end of
    the one-second wait: the events are the connection, the logins, the
    wait, one [add] request and one pause per entry of that create-set,
    and the disconnection. *)
Theorem main_sync_works_on_the_snapshot_pushed_by_the_end_of_the_wait :
  forall cfg E a w text,
    a_sync a = true ->
    domains_file w = Some text ->
    env_connect E (trace w) = None ->
    fst (authenticate cfg E (connected cfg E w)) = Normal true ->
    fst (main cfg E a w) = Normal tt /\
    exit_status (fst (main cfg E a w)) = 0%Z /\
    exists logins,
      forallb is_login logins = true /\
      forall M,
        env_push E
          (trace w ++
           EvConnect (UPTIME_KUMA_URL cfg) :: logins ++ [EvSleep 1000])
          = Some M ->
        issued (main cfg E a) w =
          EvConnect (UPTIME_KUMA_URL cfg) :: logins ++
          EvSleep 1000 ::
          sync_events cfg (create_set cfg (domains_of text) M) ++
          [EvDisconnect].
Proof.
  intros cfg E a w text Hsync Hf Hconn Hauth.
  assert (Hflag : any_flag a = true) by (unfold any_flag; rewrite Hsync; auto).
  destruct (authenticate_frame cfg E (connected cfg E w))
    as (r & w2 & levs & out & Ha & _ & Ht2 & Hl & _ & _ & Hd2).
  rewrite Ha in Hauth. simpl in Hauth. subst r.
  rewrite connected_trace in Ht2. rewrite connected_domains_file in Hd2.
  set (w3 := delivered E (add_event (EvSleep 1000) w2)).
  assert (Hf3 : domains_file w3 = Some text).
  { unfold w3. destruct (sleep_extends E 1000 w2) as (_ & _ & Hd).
    rewrite Hd, Hd2. exact Hf. }
  assert (Ht3 : trace w3 = trace w2 ++ [EvSleep 1000])
    by (unfold w3; rewrite delivered_trace; reflexivity).
  destruct (cmd_sync_spec cfg E w3 Hf3) as (w4 & Hs & Ht4 & _).
  assert (Hmode : run_mode cfg E a w3 = (Normal tt, w4))
    by (unfold run_mode; rewrite Hsync; exact Hs).
  assert (Hrun : main cfg E a w =
    (Normal tt, add_output MsgDisconnected (add_event EvDisconnect w4))).
  { rewrite (main_unfold cfg E a w Hflag), Hconn, Ha. fold w3.
    rewrite Hmode. reflexivity. }
  rewrite Hrun. simpl. split; [reflexivity|]. split; [reflexivity|].
  exists levs. split; [exact Hl|].
  intros M HM. apply issued_eq. rewrite Hrun. simpl.
  assert (HM3 : monitor_list w3 = M).
  { unfold w3, delivered. simpl. rewrite Ht2, <- app_assoc. simpl.
    rewrite <- app_assoc. simpl. rewrite HM. reflexivity. }
  rewrite Ht4, Ht3, Ht2, HM3, <- !app_assoc. reflexivity.
Qed.

(** [--sync] with [text_a] against a service that has pushed
    [snapshot_ac], where [a.com] has its monitor: nothing is asked for. *)
Lemma main_sync_works_on_the_snapshot_pushed_by_the_end_of_the_wait_witness :
  a_sync args_sync = true /\
  domains_file (initial_world None (Some text_a)) = Some text_a /\
  env_connect env_ac (trace (initial_world None (Some text_a))) = None /\
  fst (authenticate example_config env_ac
         (connected example_config env_ac
            (initial_world None (Some text_a)))) = Normal true /\
  exit_status
    (fst (main example_config env_ac args_sync
            (initial_world None (Some text_a)))) = 0%Z.
Proof.
  split; [reflexivity|]. split; [reflexivity|]. split; [reflexivity|].
  split; [reflexivity|].
  destruct (@main_sync_works_on_the_snapshot_pushed_by_the_end_of_the_wait
              example_config env_ac args_sync
              (initial_world None (Some text_a)) text_a
              eq_refl eq_refl eq_refl eq_refl) as (_ & Hs & _).
  exact Hs.
Defined.

(** *** Empty inputs *)

Lemma domains_of_blank text :
  forallb isspace text = true -> domains_of text = [].
Proof.
  intros H. unfold domains_of. rewrite (strip_blank text H). reflexivity.
Qed.

Lemma obsolete_nil (existing : dict entry) : obsolete [] existing = existing.
Proof.
  unfold obsolete. induction existing as [|x l IH]; simpl;
    [reflexivity | f_equal; exact IH].
Qed.

Lemma create_set_no_monitor cfg (D : dict str) : create_set cfg D [] = D.
Proof.
  unfold create_set. induction D as [|x D IH]; simpl;
    [reflexivity | f_equal; exact IH].
Qed.

(** X9. When the monitor list is empty, as it is when no snapshot has
    arrived, [cmd_sync] asks for every name of the Domain Source, in the
    order of the mapping, while the preview lists nothing and the
    confirmation issues no event. *)
Theorem empty_monitor_list_makes_sync_create_everything :
  forall cfg E w text,
    monitor_list w = [] ->
    domains_file w = Some text ->
    create_calls (issued (cmd_sync cfg E) w) = dict_keys (domains_of text) /\
    listed (printed (cmd_cleanup_preview cfg) w) = [] /\
    issued (cmd_cleanup_confirm cfg E) w = [].
Proof.
  intros cfg E w text HM Hf.
  rewrite (sync_issued cfg E w Hf), (preview_listed cfg w Hf),
    (confirm_issued cfg E w Hf), HM.
  rewrite create_calls_sync_events, create_set_no_monitor. auto.
Qed.

Lemma empty_monitor_list_makes_sync_create_everything_witness :
  monitor_list (world_with (Some text_ab) []) = [] /\
  domains_file (world_with (Some text_ab) []) = Some text_ab /\
  create_calls
    (issued (cmd_sync example_config env_yes) (world_with (Some text_ab) []))
  = [py "a.com"; py "b.com"].
Proof.
  split; [reflexivity|]. split; [reflexivity|].
  destruct (@empty_monitor_list_makes_sync_create_everything example_config
              env_yes (world_with (Some text_ab) []) text_ab eq_refl eq_refl)
    as (Hc & _).
  rewrite Hc. reflexivity.
Defined.

(** X10. When the Domain Source exists and holds nothing but white
    space, an empty file included, the mapping is empty: [cmd_sync]
    issues no event, and [cmd_cleanup_confirm] asks for the deletion of
    every item of the directory, that is of a monitor for every name
    borne in the configured group. *)
Theorem blank_domains_file_makes_cleanup_delete_everything :
  forall cfg E w text,
    domains_file w = Some text ->
    forallb isspace text = true ->
    fst (load_domains w) = Normal [] /\
    issued (cmd_sync cfg E) w = [] /\
    delete_calls (issued (cmd_cleanup_confirm cfg E) w) =
      map (fun ne => e_id (snd ne))
          (get_existing_monitors cfg (monitor_list w)) /\
    List.length (delete_calls (issued (cmd_cleanup_confirm cfg E) w)) =
      List.length (dict_keys (get_existing_monitors cfg (monitor_list w))).
Proof.
  intros cfg E w text Hf Hb.
  rewrite (load_domains_some w Hf), (sync_issued cfg E w Hf),
    (confirm_issued cfg E w Hf), (domains_of_blank text Hb).
  rewrite obsolete_nil, delete_calls_confirm_events.
  unfold dict_keys. rewrite !length_map. auto.
Qed.

Lemma blank_domains_file_makes_cleanup_delete_everything_witness :
  domains_file (world_with (Some [LF]) snapshot_ac) = Some [LF] /\
  forallb isspace [LF] = true /\
  delete_calls
    (issued (cmd_cleanup_confirm example_config env_yes)
            (world_with (Some [LF]) snapshot_ac)) = [3%Z; 4%Z].
Proof.
  split; [reflexivity|]. split; [reflexivity|].
  destruct (@blank_domains_file_makes_cleanup_delete_everything
              example_config env_yes (world_with (Some [LF]) snapshot_ac)
              [LF] eq_refl eq_refl) as (_ & _ & Hd & _).
  rewrite Hd. reflexivity.
Defined.

(** *** More on authentication *)

Section MoreAuth.

Variable cfg : config.
Variable E : env.


End MoreAuth.

(** X11. When [USERNAME] or [PASSWORD] is empty, as in the script as it
    is shipped, [authenticate] never issues a credential login: it returns
    [True] when the stored token is accepted, after the token login alone;
    when no token is stored or the token login is not answered ok, it
    exits with status 1 after the token login, if any, and leaves the
    token file as it was. *)
Theorem authenticate_without_credentials_relies_on_the_token :
  forall cfg E w,
    configured cfg = false ->
    calls_named (py "login") (issued (authenticate cfg E) w) = [] /\
    issued (authenticate cfg E) w = token_events w /\
    (forall t,
       stored_token w = Some t ->
       response_ok (token_answer E w t) = true ->
       fst (authenticate cfg E w) = Normal true) /\
    ((forall t, stored_token w = Some t ->
                response_ok (token_answer E w t) = false) ->
     fst (authenticate cfg E w) = SysExit 1 /\
     jwt_file (snd (authenticate cfg E w)) = jwt_file w).
Proof.
  intros cfg E w Hc.
  assert (Htev : calls_named (py "login") (token_events w) = []).
  { unfold token_events. destruct (stored_token w); reflexivity. }
  assert (Hi : issued (authenticate cfg E) w = token_events w).
  { destruct (stored_token w) as [t|] eqn:Ht.
    - destruct (response_ok (token_answer E w t)) eqn:Hok.
      + destruct (@authenticate_by_token cfg E w t Ht Hok)
          as (w' & Hrun & Htr & _).
        apply issued_eq. rewrite Hrun. simpl. rewrite Htr.
        unfold token_events. rewrite Ht. reflexivity.
      + assert (Hno : forall t', stored_token w = Some t' ->
                                 response_ok (token_answer E w t') = false)
          by (intros t' Ht'; rewrite Ht in Ht'; injection Ht' as <-;
              exact Hok).
        destruct (@authenticate_fallback cfg E w Hno) as (r & w' & Hrun & H).
        rewrite Hc in H. destruct H as (_ & Htr & _).
        apply issued_eq. rewrite Hrun. exact Htr.
    - assert (Hno : forall t', stored_token w = Some t' ->
                               response_ok (token_answer E w t') = false)
        by (intros t' Ht'; rewrite Ht in Ht'; discriminate Ht').
      destruct (@authenticate_fallback cfg E w Hno) as (r & w' & Hrun & H).
      rewrite Hc in H. destruct H as (_ & Htr & _).
      apply issued_eq. rewrite Hrun. exact Htr. }
  rewrite Hi. split; [exact Htev|]. split; [reflexivity|]. split.
  - intros t Ht Hok.
    destruct (@authenticate_by_token cfg E w t Ht Hok) as (w' & Hrun & _).
    rewrite Hrun. reflexivity.
  - intros Hno.
    destruct (@authenticate_fallback cfg E w Hno) as (r & w' & Hrun & H).
    rewrite Hc in H. destruct H as (-> & _ & Hjf).
    rewrite Hrun. auto.
Qed.

(** The script as shipped, without token file: exit with status 1 and no
    event. *)
Lemma authenticate_without_credentials_relies_on_the_token_witness :
  configured source_config = false /\
  issued (authenticate source_config env_yes) (initial_world None None) = [] /\
  fst (authenticate source_config env_yes (initial_world None None)) =
    SysExit 1.
Proof.
  split; [reflexivity|].
  destruct (@authenticate_without_credentials_relies_on_the_token
              source_config env_yes (initial_world None None) eq_refl)
    as (_ & Hi & _ & Hexit).
  split; [exact Hi|].
  apply Hexit. intros t Ht. discriminate Ht.
Defined.

(** X12. [authenticate] never returns [False]: either it returns [True]
    and the global [authenticated] is set, or it exits with status 1, and
    then [authenticated] and the token file are as they were before the
    call. *)
Theorem authenticate_returns_true_or_exits_one :
  forall cfg E w,
    (fst (authenticate cfg E w) = Normal true /\
     authenticated (snd (authenticate cfg E w)) = true) \/
    (fst (authenticate cfg E w) = SysExit 1 /\
     authenticated (snd (authenticate cfg E w)) = authenticated w /\
     jwt_file (snd (authenticate cfg E w)) = jwt_file w).
Proof.
  intros cfg E w. run_script.
  destruct (jwt_file w) as [text|] eqn:Hf; simpl;
    [destruct (truthy (strip text)); simpl;
     [destruct (env_call E (trace w) (py "loginByToken")
                  (PToken (strip text))) as [r0| |e0]; simpl;
      try destruct (response_ok r0); simpl;
      destruct (env_push E (trace w ++ _)); simpl | ] | ];
    destruct (truthy (USERNAME cfg)), (truthy (PASSWORD cfg)); simpl;
    repeat match goal with
           | |- context [env_call E ?tr ?n ?d] =>
               destruct (env_call E tr n d) as [r1| |e1]; simpl
           end;
    try destruct (response_ok r1); simpl;
    try destruct (response_token r1); simpl;
    repeat match goal with
           | |- context [env_push E ?tr] => destruct (env_push E tr); simpl
           end;
    first [ left; split; reflexivity
          | right; repeat split; first [reflexivity | exact Hf] ].
Qed.

(** *** The token file, from one run to the next *)


Lemma no_space_rev s : no_space s = true -> no_space (rev s) = true.
Proof. apply forallb_rev. Qed.




(** *** The lines that make the domain mapping *)

Lemma fold_load_keys lines d n :
  In n (dict_keys (fold_left load_domains_line lines d)) <->
  In n (dict_keys d) \/
  exists line, In line lines /\ well_formed line = true /\ name_of line = n.
Proof.
  revert d. induction lines as [|l lines IH]; intros d; simpl.
  - split; [auto | intros [H|(x & [] & _)]; exact H].
  - rewrite IH. destruct (well_formed l) eqn:Hwf.
    + rewrite (load_domains_line_wf d l Hwf).
      rewrite <- !dict_mem_In, dict_mem_set, orb_true_iff, str_eqb_eq.
      split.
      * intros [[Hn|Hd]|(x & Hx & Hw & Hn)].
        -- right. exists l. auto.
        -- left. exact Hd.
        -- right. exists x. auto.
      * intros [Hd|(x & [<-|Hx] & Hw & Hn)].
        -- left. right. exact Hd.
        -- left. left. exact Hn.
        -- right. exists x. auto.
    + rewrite (load_domains_line_not_wf d l Hwf). split.
      * intros [Hd|(x & Hx & Hw & Hn)]; [left; exact Hd|].
        right. exists x. auto.
      * intros [Hd|(x & [<-|Hx] & Hw & Hn)]; [left; exact Hd|congruence|].
        right. exists x. auto.
Qed.

Lemma fold_load_values lines d n u :
  dict_get n (fold_left load_domains_line lines d) = Some u ->
  dict_get n d = Some u \/
  exists line,
    In line lines /\ well_formed line = true /\
    name_of line = n /\ url_of line = u.
Proof.
  revert d. induction lines as [|l lines IH]; intros d; simpl; [auto|].
  intros H. destruct (IH _ H) as [Hd|(x & Hx & Hw & Hn & Hu)].
  - destruct (well_formed l) eqn:Hwf.
    + rewrite (load_domains_line_wf d l Hwf) in Hd.
      destruct (str_eq_dec (name_of l) n) as [Heq|Hne].
      * subst n. rewrite dict_get_set_same in Hd. injection Hd as <-.
        right. exists l. auto.
      * rewrite (dict_get_set_other _ _ Hne) in Hd. left. exact Hd.
    + rewrite (load_domains_line_not_wf d l Hwf) in Hd. left. exact Hd.
  - right. exists x. auto.
Qed.

(** X14. The mapping [load_domains] returns has each name once, and its
    names are exactly the first fields of the lines of the file that are
    not blank and have three fields or more: a line with one or two fields
    adds nothing and raises nothing, and fields after the third are
    ignored. Every URL of the mapping is the third field of such a line
    with that name. *)
Theorem load_domains_reads_the_well_formed_lines :
  forall w text,
    domains_file w = Some text ->
    exists D,
      fst (load_domains w) = Normal D /\
      NoDup (dict_keys D) /\
      (forall n,
         In n (dict_keys D) <->
         exists line,
           In line (split_on LF text) /\
           well_formed line = true /\ name_of line = n) /\
      (forall n u,
         dict_get n D = Some u ->
         exists line,
           In line (split_on LF text) /\
           well_formed line = true /\
           name_of line = n /\ url_of line = u).
Proof.
  intros w text Hf. exists (domains_of text).
  rewrite (load_domains_some w Hf). split; [reflexivity|].
  split; [apply domains_of_NoDup|].
  rewrite domains_of_lines. split.
  - intros n. rewrite fold_load_keys. simpl. tauto.
  - intros n u H. destruct (fold_load_values _ _ _ H) as [Hd|Hl];
      [discriminate Hd | exact Hl].
Qed.

(** In [text_twice], [a.com] and [b.com] are the names, and nothing
    else. *)
Lemma load_domains_reads_the_well_formed_lines_witness :
  domains_file (world_with (Some text_twice) []) = Some text_twice /\
  exists D,
    fst (load_domains (world_with (Some text_twice) [])) = Normal D /\
    NoDup (dict_keys D).
Proof.
  split; [reflexivity|].
  destruct (@load_domains_reads_the_well_formed_lines
              (world_with (Some text_twice) []) text_twice eq_refl)
    as (D & Hl & Hnd & _).
  exists D. split; [exact Hl | exact Hnd].
Defined.

Lemma split_aux_fields cur s f :
  no_space cur = true ->
  In f (split_aux cur s) -> f <> [] /\ no_space f = true.
Proof.
  revert cur. induction s as [|c s IH]; intros cur Hcur; simpl.
  - destruct cur as [|x cur]; [intros []|].
    intros [<-|[]]. split.
    + intros H. apply (f_equal (@List.length N)) in H.
      rewrite length_rev in H. discriminate H.
    + apply no_space_rev. exact Hcur.
  - destruct (isspace c) eqn:Hc.
    + destruct cur as [|x cur]; [apply IH; reflexivity|].
      intros [<-|Hin]; [|apply (IH [] eq_refl Hin)]. split.
      * intros H. apply (f_equal (@List.length N)) in H.
        rewrite length_rev in H. discriminate H.
      * apply no_space_rev. exact Hcur.
    + apply IH. simpl. rewrite Hc. exact Hcur.
Qed.

(** The fields of [s.split()] are not empty and have no white space. *)
Lemma split_fields s f : In f (split s) -> f <> [] /\ no_space f = true.
Proof. apply split_aux_fields. reflexivity. Qed.

Lemma well_formed_fields line :
  well_formed line = true ->
  In (name_of line) (split line) /\ In (url_of line) (split line).
Proof.
  unfold well_formed, name_of, url_of. intros H.
  apply andb_true_iff in H. destruct H as [_ H]. apply Nat.leb_le in H.
  split; apply nth_In; lia.
Qed.

(** X15. Every name and every URL of the mapping [load_domains] returns
    is a string that is not empty and contains no white space. *)
Theorem load_domains_gives_names_and_urls_without_white_space :
  forall w text,
    domains_file w = Some text ->
    exists D,
      fst (load_domains w) = Normal D /\
      forall n u,
        In (n, u) D ->
        n <> [] /\ no_space n = true /\ u <> [] /\ no_space u = true.
Proof.
  intros w text Hf. exists (domains_of text).
  rewrite (load_domains_some w Hf). split; [reflexivity|].
  intros n u Hin.
  apply (dict_In_get _ _ _ (domains_of_NoDup text)) in Hin.
  rewrite domains_of_lines in Hin.
  destruct (fold_load_values _ _ _ Hin) as [Hd|(line & _ & Hwf & Hn & Hu)];
    [discriminate Hd|].
  destruct (well_formed_fields line Hwf) as [H1 H2].
  rewrite Hn in H1. rewrite Hu in H2.
  destruct (split_fields _ _ H1) as [A B], (split_fields _ _ H2) as [C D].
  auto.
Qed.

Lemma load_domains_gives_names_and_urls_without_white_space_witness :
  domains_file (world_with (Some text_ab) []) = Some text_ab /\
  exists D,
    fst (load_domains (world_with (Some text_ab) [])) = Normal D /\
    forall n u, In (n, u) D -> n <> [].
Proof.
  split; [reflexivity|].
  destruct (@load_domains_gives_names_and_urls_without_white_space
              (world_with (Some text_ab) []) text_ab eq_refl)
    as (D & Hl & H).
  exists D. split; [exact Hl|]. intros n u Hin.
  destruct (H n u Hin) as (Hn & _). exact Hn.
Defined.

(** *** Sync and cleanup, one after the other *)

Lemma obsolete_set_listed (D : dict str) n e (acc : dict entry) :
  dict_mem n D = true -> obsolete D (dict_set n e acc) = obsolete D acc.
Proof.
  intros Hn. unfold obsolete.
  induction acc as [|[k v] acc IH]; simpl.
  - rewrite Hn. reflexivity.
  - destruct (str_eqb k n) eqn:Hk; simpl.
    + apply str_eqb_eq in Hk. subst k. rewrite Hn. reflexivity.
    + rewrite IH. reflexivity.
Qed.

Lemma obsolete_set_unlisted (D : dict str) n e (acc : dict entry) :
  dict_mem n D = false ->
  obsolete D (dict_set n e acc) = dict_set n e (obsolete D acc).
Proof.
  intros Hn. unfold obsolete.
  induction acc as [|[k v] acc IH]; simpl.
  - rewrite Hn. reflexivity.
  - destruct (str_eqb k n) eqn:Hk; simpl.
    + pose proof Hk as Hk'. apply str_eqb_eq in Hk'. subst k.
      rewrite Hn. simpl. rewrite Hk. reflexivity.
    + destruct (dict_mem k D); simpl; [exact IH|].
      rewrite Hk, IH. reflexivity.
Qed.

(** The items selected for deletion come from the monitors whose name is
    not a key of the mapping, and from them alone. *)
Lemma obsolete_fold cfg (D : dict str) M acc :
  obsolete D (fold_left (existing_step cfg) M acc) =
  fold_left (existing_step cfg)
    (filter (fun im => negb (dict_mem (m_name (snd im)) D)) M)
    (obsolete D acc).
Proof.
  revert acc. induction M as [|im M IH]; intros acc; simpl; [reflexivity|].
  rewrite IH. destruct (dict_mem (m_name (snd im)) D) eqn:Hn; simpl.
  - unfold existing_step at 2. destruct (in_group cfg (snd im));
      [rewrite (@obsolete_set_listed D _ _ _ Hn)|]; reflexivity.
  - f_equal. unfold existing_step. destruct (in_group cfg (snd im));
      [apply (@obsolete_set_unlisted D _ _ _ Hn) | reflexivity].
Qed.

Lemma obsolete_existing cfg (D : dict str) M :
  obsolete D (get_existing_monitors cfg M) =
  get_existing_monitors cfg
    (filter (fun im => negb (dict_mem (m_name (snd im)) D)) M).
Proof. rewrite !get_existing_monitors_fold. apply obsolete_fold. Qed.

(** X16. What the two cleanup commands select depends only on the
    monitors whose name is not a key of the domain mapping: two snapshots
    that have the same such monitors, in the same order, get the same
    preview and the same [deleteMonitor] requests. So the monitors that a
    sync creates, which bear names of the mapping, never change what a
    cleanup deletes. *)
Theorem cleanup_ignores_the_monitors_of_listed_names :
  forall cfg E w w' text,
    domains_file w = Some text ->
    domains_file w' = Some text ->
    filter (fun im => negb (dict_mem (m_name (snd im)) (domains_of text)))
           (monitor_list w') =
    filter (fun im => negb (dict_mem (m_name (snd im)) (domains_of text)))
           (monitor_list w) ->
    issued (cmd_cleanup_confirm cfg E) w' =
      issued (cmd_cleanup_confirm cfg E) w /\
    printed (cmd_cleanup_preview cfg) w' = printed (cmd_cleanup_preview cfg) w.
Proof.
  intros cfg E w w' text Hf Hf' HM.
  rewrite (confirm_issued cfg E w' Hf'), (confirm_issued cfg E w Hf).
  rewrite (preview_printed cfg w' Hf'), (preview_printed cfg w Hf).
  rewrite !obsolete_existing, HM. auto.
Qed.

(** A monitor for [a.com], which is in the Domain Source, added to a
    snapshot that has a monitor for [c.com]: the same deletion. *)
Lemma cleanup_ignores_the_monitors_of_listed_names_witness :
  issued (cmd_cleanup_confirm example_config env_yes)
         (world_with (Some text_a) snapshot_ac) =
  issued (cmd_cleanup_confirm example_config env_yes)
         (world_with (Some text_a)
            [(4%Z, http_monitor (py "c.com") (py "http://c.com"))]).
Proof.
  destruct (@cleanup_ignores_the_monitors_of_listed_names example_config
              env_yes
              (world_with (Some text_a)
                 [(4%Z, http_monitor (py "c.com") (py "http://c.com"))])
              (world_with (Some text_a) snapshot_ac) text_a
              eq_refl eq_refl eq_refl) as (H & _).
  exact H.
Defined.

Lemma create_set_same_names cfg (D : dict str) M M' :
  (forall n, dict_mem n D = true ->
             name_in_filtered cfg n M' = name_in_filtered cfg n M) ->
  create_set cfg D M' = create_set cfg D M.
Proof.
  intros H. unfold create_set. apply filter_ext_in.
  intros [n u] Hin. simpl. rewrite H; [reflexivity|].
  apply dict_mem_In. apply (in_map fst) in Hin. exact Hin.
Qed.

(** X17. Let a snapshot have distinct identifiers, and let a later
    snapshot be the same without the monitors that [cmd_cleanup_confirm]
    asked to delete. Then [cmd_sync] issues the same events on both: a
    cleanup never makes a sync create a monitor. *)
Theorem sync_is_unchanged_by_what_cleanup_deletes :
  forall cfg E w w' text,
    domains_file w = Some text ->
    domains_file w' = Some text ->
    NoDup (map fst (monitor_list w)) ->
    (forall im,
       In im (monitor_list w') <->
       In im (monitor_list w) /\
       ~ In (fst im) (delete_calls (issued (cmd_cleanup_confirm cfg E) w))) ->
    issued (cmd_sync cfg E) w' = issued (cmd_sync cfg E) w.
Proof.
  intros cfg E w w' text Hf Hf' Hnd HM.
  rewrite (sync_issued cfg E w' Hf'), (sync_issued cfg E w Hf).
  f_equal. apply create_set_same_names. intros n Hn.
  rewrite (confirm_issued cfg E w Hf), delete_calls_confirm_events in HM.
  destruct (name_in_filtered cfg n (monitor_list w)) eqn:Hold.
  - apply name_in_filtered_iff in Hold.
    destruct Hold as (id & m & Hin & Hg & Hm).
    apply name_in_filtered_iff. exists id, m.
    split; [|auto]. apply HM. split; [exact Hin|]. simpl.
    apply (@obsolete_spares_listed cfg (domains_of text) _ id m Hnd Hin).
    rewrite Hm. exact Hn.
  - destruct (name_in_filtered cfg n (monitor_list w')) eqn:Hnew;
      [|reflexivity].
    apply name_in_filtered_iff in Hnew.
    destruct Hnew as (id & m & Hin & Hg & Hm).
    apply HM in Hin. destruct Hin as [Hin _].
    assert (name_in_filtered cfg n (monitor_list w) = true)
      by (apply name_in_filtered_iff; exists id, m; auto).
    congruence.
Qed.

(** [snapshot_ac] and, after the deletion of monitor 4, the monitor of
    [a.com] alone. *)
Lemma sync_is_unchanged_by_what_cleanup_deletes_witness :
  issued (cmd_sync example_config env_yes)
         (world_with (Some text_a)
            [(3%Z, http_monitor (py "a.com") (py "http://elsewhere"))]) =
  issued (cmd_sync example_config env_yes)
         (world_with (Some text_a) snapshot_ac).
Proof.
  apply (@sync_is_unchanged_by_what_cleanup_deletes example_config env_yes
           (world_with (Some text_a) snapshot_ac)
           (world_with (Some text_a)
              [(3%Z, http_monitor (py "a.com") (py "http://elsewhere"))])
           text_a eq_refl eq_refl).
  - simpl. repeat constructor; simpl; intuition discriminate.
  - intros im. vm_compute. split.
    + intros [<-|[]]. split; [auto|]. intros [H|[]]. discriminate H.
    + intros [[<-|[<-|[]]] Hnot]; [auto|]. exfalso. apply Hnot. auto.
Defined.

(** X18. Let the monitors of the configured group and of type http have
    distinct names, and the snapshot distinct identifiers, and let a later
    snapshot be the same without the monitors that [cmd_cleanup_confirm]
    asked to delete. Then a second [cmd_cleanup_confirm] issues no
    event. *)
Theorem second_cleanup_deletes_nothing_when_names_are_distinct :
  forall cfg E w w' text,
    domains_file w = Some text ->
    domains_file w' = Some text ->
    NoDup (map fst (monitor_list w)) ->
    NoDup (map (fun x => m_name (snd x)) (filtered cfg (monitor_list w))) ->
    (forall im,
       In im (monitor_list w') <->
       In im (monitor_list w) /\
       ~ In (fst im) (delete_calls (issued (cmd_cleanup_confirm cfg E) w))) ->
    issued (cmd_cleanup_confirm cfg E) w' = [].
Proof.
  intros cfg E w w' text Hf Hf' Hnd Hnames HM.
  rewrite (confirm_issued cfg E w' Hf').
  rewrite (confirm_issued cfg E w Hf), delete_calls_confirm_events in HM.
  replace (obsolete (domains_of text)
             (get_existing_monitors cfg (monitor_list w')))
    with (@nil (str * entry)); [reflexivity|].
  symmetry.
  destruct (obsolete (domains_of text)
              (get_existing_monitors cfg (monitor_list w')))
    as [|[n e] l] eqn:Hob; [reflexivity|].
  exfalso.
  assert (Hin : In (n, e) (obsolete (domains_of text)
                  (get_existing_monitors cfg (monitor_list w'))))
    by (rewrite Hob; left; reflexivity).
  apply obsolete_In in Hin. destruct Hin as (Hout & im & Hl & _).
  apply last_named_In in Hl. destruct Hl as (Him' & Hg & Hn).
  apply HM in Him'. destruct Him' as [Him Hnot].
  apply Hnot.
  assert (Hlast : last_named cfg n (monitor_list w) = Some im).
  { rewrite <- Hn. apply (last_named_unique cfg _ im Hnames Him Hg). }
  apply in_map_iff. exists (n, entry_of im). split; [reflexivity|].
  apply obsolete_In. split; [exact Hout|]. exists im. auto.
Qed.

Lemma second_cleanup_deletes_nothing_when_names_are_distinct_witness :
  issued (cmd_cleanup_confirm example_config env_yes)
         (world_with (Some text_a)
            [(3%Z, http_monitor (py "a.com") (py "http://elsewhere"))]) = [].
Proof.
  apply (@second_cleanup_deletes_nothing_when_names_are_distinct
           example_config env_yes
           (world_with (Some text_a) snapshot_ac)
           (world_with (Some text_a)
              [(3%Z, http_monitor (py "a.com") (py "http://elsewhere"))])
           text_a eq_refl eq_refl).
  - simpl. repeat constructor; simpl; intuition discriminate.
  - vm_compute. repeat constructor; simpl; intuition discriminate.
  - intros im. vm_compute. split.
    + intros [<-|[]]. split; [auto|]. intros [H|[]]. discriminate H.
    + intros [[<-|[<-|[]]] Hnot]; [auto|]. exfalso. apply Hnot. auto.
Defined.

(** *** Several flags *)

Lemma quiet_headers out :
  forallb (fun m => negb (is_header m) && negb (is_not_found m)) out = true ->
  headers out = [].
Proof.
  induction out as [|m out IH]; simpl; [reflexivity|].
  intros H. apply andb_true_iff in H. destruct H as [Hm H].
  apply andb_true_iff in Hm. destruct Hm as [Hm _].
  apply negb_true_iff in Hm. rewrite Hm. apply IH. exact H.
Qed.

Lemma run_mode_header cfg E a w :
  any_flag a = true ->
  exists evs,
    extends w (snd (run_mode cfg E a w)) evs [header_of cfg a].
Proof.
  unfold any_flag, run_mode, header_of. intros Hflag.
  destruct (a_sync a).
  { destruct (cmd_sync_frame cfg E w) as (r & w' & evs & Hrun & Hx).
    rewrite Hrun. eauto. }
  destruct (a_list a).
  { destruct (cmd_list_frame cfg w) as (r & w' & evs & Hrun & Hx).
    rewrite Hrun. eauto. }
  destruct (a_cleanup a).
  { destruct (cmd_cleanup_preview_frame cfg w) as (r & w' & evs & Hrun & Hx).
    rewrite Hrun. eauto. }
  destruct (a_cleanup_confirm a); [|discriminate Hflag].
  destruct (cmd_cleanup_confirm_frame cfg E w) as (r & w' & evs & Hrun & Hx).
  rewrite Hrun. eauto.
Qed.

(** X19. The flags are not exclusive: when several are given, [main]
    runs one command, the first in the order [--sync], [--list],
    [--cleanup], [--cleanup-confirm]. After a connection and an
    authentication that succeed, the one header printed is the header of
    that command; and when it is the listing, the run ends normally
    whether the Domain Source exists or not, and issues no request to
    create or to delete. *)
Theorem main_runs_the_first_flag_in_order :
  forall cfg E a w,
    any_flag a = true ->
    env_connect E (trace w) = None ->
    fst (authenticate cfg E (connected cfg E w)) = Normal true ->
    headers (printed (main cfg E a) w) = [header_of cfg a] /\
    (a_sync a = false -> a_list a = true ->
     fst (main cfg E a w) = Normal tt /\
     create_calls (issued (main cfg E a) w) = [] /\
     delete_calls (issued (main cfg E a) w) = []).
Proof.
  intros cfg E a w Hflag Hconn Hauth.
  destruct (authenticate_frame cfg E (connected cfg E w))
    as (r & w2 & levs & out & Ha & _ & Ht2 & Hl & Ho2 & Hq & _).
  rewrite Ha in Hauth. simpl in Hauth. subst r.
  rewrite connected_trace in Ht2. rewrite connected_stdout in Ho2.
  set (w3 := delivered E (add_event (EvSleep 1000) w2)).
  assert (Ht3 : trace w3 = trace w2 ++ [EvSleep 1000])
    by (unfold w3; rewrite delivered_trace; reflexivity).
  assert (Ho3 : stdout w3 = stdout w2)
    by (unfold w3; rewrite delivered_stdout; reflexivity).
  assert (Hrun : main cfg E a w =
    (fst (run_mode cfg E a w3),
     add_output MsgDisconnected
       (add_event EvDisconnect (snd (run_mode cfg E a w3))))).
  { rewrite (main_unfold cfg E a w Hflag), Hconn, Ha. reflexivity. }
  split.
  - destruct (run_mode_header cfg E a w3 Hflag)
      as (evs & _ & (om & Hom & Hh) & _).
    rewrite (@printed_eq _ (main cfg E a) w
               ([MsgConnecting (UPTIME_KUMA_URL cfg); MsgConnected] ++ out ++
                om ++ [MsgDisconnected])).
    + rewrite !headers_app, (quiet_headers out Hq), Hh. reflexivity.
    + rewrite Hrun. simpl. rewrite Hom, Ho3, Ho2, <- !app_assoc. reflexivity.
  - intros Hs Hli.
    assert (Hmode : run_mode cfg E a w3 = cmd_list cfg w3)
      by (unfold run_mode; rewrite Hs, Hli; reflexivity).
    destruct (cmd_list_spec cfg w3) as (w4 & Hlist & Ht4 & _).
    rewrite Hmode, Hlist in Hrun. simpl in Hrun.
    rewrite Hrun. simpl. split; [reflexivity|].
    rewrite (@issued_eq _ (main cfg E a) w
               ([EvConnect (UPTIME_KUMA_URL cfg)] ++ levs ++
                [EvSleep 1000; EvDisconnect])).
    + destruct (logins_are_no_mutation levs Hl) as (Hc & Hd & _).
      rewrite !create_calls_app, !delete_calls_app, Hc, Hd. auto.
    + rewrite Hrun. simpl. rewrite Ht4, Ht3, Ht2, <- !app_assoc. reflexivity.
Qed.

(** [--list] and [--cleanup-confirm] together, without Domain Source:
    the listing runs, nothing is deleted, and the run ends normally. *)
Lemma main_runs_the_first_flag_in_order_witness :
  any_flag args_list_and_confirm = true /\
  env_connect env_ac (trace (initial_world None None)) = None /\
  fst (authenticate example_config env_ac
         (connected example_config env_ac (initial_world None None))) =
    Normal true /\
  headers (printed (main example_config env_ac args_list_and_confirm)
                   (initial_world None None)) =
    [MsgListHeader 1] /\
  fst (main example_config env_ac args_list_and_confirm
         (initial_world None None)) = Normal tt.
Proof.
  split; [reflexivity|]. split; [reflexivity|]. split; [reflexivity|].
  destruct (@main_runs_the_first_flag_in_order example_config env_ac
              args_list_and_confirm (initial_world None None)
              eq_refl eq_refl eq_refl) as (Hh & Hlist).
  split; [exact Hh|].
  destruct (Hlist eq_refl eq_refl) as (Hr & _). exact Hr.
Defined.
